(** * Weekly planner front end: stores, aggregates and date arithmetic

    A shallow embedding of the TypeScript sources of the planner
    (Pinia stores [taskStore] and [timeEntryStore], the computed
    aggregates of [ReflectionPage.vue] / [WeekDetailPage.vue] /
    [TaskDetailPage.vue], [WeekFormModal.vue] and
    [TimeEntryFormModal.vue]) together with the properties stated for
    them.

    Conventions of the embedding.
    - JavaScript numbers that hold integers (minutes, counts, time
      values in milliseconds, HTTP status codes) are [Z].
    - JavaScript strings are [string]; template literals are [+:+].
    - Arrays are [list]; index updates use stdpp's list operations.
    - An [async] store action is a state-passing computation that may
      throw; the single network request it issues is answered by a
      [FetchReply] given as an argument, and every request is logged.
      An action runs from its first statement to the settling of its
      promise with no other action of the store interleaved at its
      [await]s.
    - [Date] values are time values in a runtime whose zone is a fixed
      offset from UTC. *)

From Stdlib Require Import ZArith QArith Qround String Ascii List Bool Lia.
From stdpp Require Import base option list strings pretty.
From stdpp Require Import sorting.

Local Open Scope Z_scope.

(** ** Strings *)

Module JsString.

(** [String.prototype.padStart(targetLength, "0")] for a one-character
    filler. *)
Fixpoint repeat_char (n : nat) (c : ascii) : string :=
  match n with
  | O => EmptyString
  | S n' => String c (repeat_char n' c)
  end.

Definition padStart (targetLength : nat) (fill : ascii) (s : string) : string :=
  repeat_char (targetLength - String.length s)%nat fill +:+ s.

(** [s.split(sep)[0]]: the part of [s] before the first occurrence of
    the character [sep] (all of [s] when [sep] does not occur). *)
Fixpoint split_head (sep : ascii) (s : string) : string :=
  match s with
  | EmptyString => EmptyString
  | String c s' => if Ascii.eqb c sep then EmptyString else String c (split_head sep s')
  end.

(** Every character of [s] satisfies [P]. *)
Fixpoint chars_all (P : ascii -> Prop) (s : string) : Prop :=
  match s with
  | EmptyString => True
  | String c s' => P c /\ chars_all P s'
  end.

(** Number-to-string conversion of an integer-valued number. *)
Definition of_int (z : Z) : string := pretty z.

(** The characters [of_int] may produce. *)
Definition numeric (c : ascii) : Prop :=
  c = "-"%char \/ exists d, c = pretty_N_char d.

End JsString.

(** ** The [Date] object

    Time values are milliseconds since 1970-01-01T00:00:00Z.  The
    calendar is the proleptic Gregorian one of ECMAScript.  The
    runtime's time zone gives the offset of local time at every
    instant and at every local time, so that it may change its
    offset, as zones with daylight saving do.  [TimeClip] (time
    values beyond +-8.64e15) is not modelled. *)

Module JsDate.

Definition msPerMinute : Z := 60000.
Definition msPerHour : Z := 3600000.
Definition msPerDay : Z := 86400000.

(** [Day(t)] and [TimeWithinDay(t)]. *)
Definition Day (t : Z) : Z := t / msPerDay.
Definition TimeWithinDay (t : Z) : Z := t mod msPerDay.

(** Day number (days since the epoch) of the civil date y-m-d.  The
    day of the month enters linearly, so that [MakeDay] below accepts
    days outside the month, as [setDate] needs. *)
Definition days_from_civil (y m d : Z) : Z :=
  let y' := if m <=? 2 then y - 1 else y in
  let era := y' / 400 in
  let yoe := y' - era * 400 in
  let mp := (m + 9) mod 12 in
  let doy := (153 * mp + 2) / 5 + d - 1 in
  let doe := yoe * 365 + yoe / 4 - yoe / 100 + doy in
  era * 146097 + doe - 719468.

(** Civil date (year, month 1..12, day 1..31) of a day number. *)
Definition civil_from_days (n : Z) : Z * Z * Z :=
  let z := n + 719468 in
  let era := z / 146097 in
  let doe := z - era * 146097 in
  let yoe := (doe - doe / 1460 + doe / 36524 - doe / 146096) / 365 in
  let doy := doe - (365 * yoe + yoe / 4 - yoe / 100) in
  let mp := (5 * doy + 2) / 153 in
  let d := doy - (153 * mp + 2) / 5 + 1 in
  let m := if mp <? 10 then mp + 3 else mp - 9 in
  let y := yoe + era * 400 in
  (if m <=? 2 then y + 1 else y, m, d).

Definition isLeapYear (y : Z) : bool :=
  ((y mod 4 =? 0) && negb (y mod 100 =? 0)) || (y mod 400 =? 0).

Definition daysInMonth (y m : Z) : Z :=
  if m =? 2 then (if isLeapYear y then 29 else 28)
  else if (m =? 4) || (m =? 6) || (m =? 9) || (m =? 11) then 30
  else 31.

(** [MakeDay(year, month0, date)] with a zero-based month in 0..11. *)
Definition MakeDay (year month0 date : Z) : Z :=
  days_from_civil year (month0 + 1) 1 + date - 1.

(** [MakeDate(day, time)]. *)
Definition MakeDate (day time : Z) : Z := day * msPerDay + time.

(** [WeekDay(t)]: 0 = Sunday ... 6 = Saturday. *)
Definition WeekDay (t : Z) : Z := (Day t + 4) mod 7.

Definition YearFromTime (t : Z) : Z := fst (fst (civil_from_days (Day t))).
Definition MonthFromTime (t : Z) : Z := snd (fst (civil_from_days (Day t))) - 1.
Definition DateFromTime (t : Z) : Z := snd (civil_from_days (Day t)).

(** The runtime's time zone: [LocalTZA zone t isUTC] is the offset of
    local time from UTC, in milliseconds, in force at the instant [t]
    when [isUTC] holds and at the local time [t] otherwise. *)
Record TimeZone := { LocalTZA : Z -> bool -> Z }.

(** A zone whose offset never changes: [tz] minutes east of UTC. *)
Definition fixed (tz : Z) : TimeZone :=
  {| LocalTZA := fun _ _ => tz * msPerMinute |}.

(** A zone that changes its offset once: [before] minutes east of UTC
    up to the instant [change], [after] minutes from it on.  A local
    time that the change skips or repeats is read with the offset in
    force before the change. *)
Definition changing (change before after : Z) : TimeZone :=
  {| LocalTZA := fun t isUTC =>
       let limit :=
         if isUTC then change else change + Z.max before after * msPerMinute in
       if t <? limit then before * msPerMinute else after * msPerMinute |}.

(** The zone keeps the offset of [offset] minutes from [first] to
    [last], at the instants and at the local times in that range. *)
Definition steady (zone : TimeZone) (offset first last : Z) : Prop :=
  forall t isUTC, first <= t <= last -> LocalTZA zone t isUTC = offset * msPerMinute.

Section Zone.
(** The zone of the runtime. *)
Variable tz : TimeZone.

Definition LocalTime (t : Z) : Z := t + LocalTZA tz t true.
Definition UTC (l : Z) : Z := l - LocalTZA tz l false.

(** [date.getFullYear()], [date.getDate()], [date.getDay()]. *)
Definition getFullYear (t : Z) : Z := YearFromTime (LocalTime t).
Definition getDate (t : Z) : Z := DateFromTime (LocalTime t).
Definition getDay (t : Z) : Z := WeekDay (LocalTime t).

(** [date.setDate(dt)]: the new time value. *)
Definition setDate (t dt : Z) : Z :=
  let l := LocalTime t in
  UTC (MakeDate (MakeDay (YearFromTime l) (MonthFromTime l) dt) (TimeWithinDay l)).

(** [new Date(year, month0, date)]: local midnight of that day.  A
    year in 0..99 denotes 1900 + year. *)
Definition MakeFullYear (year : Z) : Z :=
  if (0 <=? year) && (year <=? 99) then 1900 + year else year.

Definition new_Date_ymd (year month0 date : Z) : Z :=
  UTC (MakeDate (MakeDay (MakeFullYear year) month0 date) 0).
End Zone.

(** *** [toISOString] *)

Definition pad (n : nat) (z : Z) : string :=
  JsString.padStart n "0"%char (JsString.of_int z).

(** Years 0..9999 print with four digits, the others with a sign and
    six digits. *)
Definition isoYear (y : Z) : string :=
  if (0 <=? y) && (y <=? 9999) then pad 4 y
  else if y <? 0 then "-" +:+ pad 6 (- y)
  else "+" +:+ pad 6 y.

(** The date part [YYYY-MM-DD] of the ISO form of day number [n]. *)
Definition isoDateOfDay (n : Z) : string :=
  let '(y, m, d) := civil_from_days n in
  isoYear y +:+ "-" +:+ pad 2 m +:+ "-" +:+ pad 2 d.

Definition isoTimeOfDay (ms : Z) : string :=
  pad 2 (ms / msPerHour) +:+ ":" +:+ pad 2 (ms / msPerMinute mod 60) +:+ ":"
    +:+ pad 2 (ms / 1000 mod 60) +:+ "." +:+ pad 3 (ms mod 1000).

Definition toISOString (t : Z) : string :=
  isoDateOfDay (Day t) +:+ "T" +:+ isoTimeOfDay (TimeWithinDay t) +:+ "Z".

End JsDate.

(** A number standing where a zone is expected is the fixed offset of
    that many minutes. *)
Coercion JsDate.fixed : Z >-> JsDate.TimeZone.

(** *** Parsing date strings

    [new Date(s)] for the ISO forms the application produces: the
    date-only form [YYYY-MM-DD] of an [<input type="date">], read as
    UTC midnight, and the date-time forms [YYYY-MM-DDTHH:mm],
    [...:ss] and [...:ss.sss], read as local time unless followed by
    [Z].  [None] stands for an invalid date (time value [NaN]); other
    notations a JavaScript engine may accept are outside the model.
    So are the years of more than four digits.  A day number beyond
    the length of its month is rejected, as some engines do, while
    others read such a date as a day of the next month: for these
    strings [None] is not the invalid date of every engine. *)

Module IsoParse.

Inductive Zone := ZoneUTC | ZoneLocal.

Record Fields := {
  year : Z; month : Z; day : Z;
  hour : Z; minute : Z; second : Z; millisecond : Z;
  zone : Zone
}.

Definition digit (c : ascii) : option Z :=
  let n := Z.of_N (N_of_ascii c) in
  if (48 <=? n) && (n <=? 57) then Some (n - 48) else None.

(** Reads exactly [n] decimal digits. *)
Fixpoint number (n : nat) (acc : Z) (s : string) : option (Z * string) :=
  match n with
  | O => Some (acc, s)
  | S n' =>
      match s with
      | String c s' => d ← digit c; number n' (10 * acc + d) s'
      | EmptyString => None
      end
  end.

Definition lit (c : ascii) (s : string) : option string :=
  match s with
  | String c' s' => if Ascii.eqb c c' then Some s' else None
  | EmptyString => None
  end.

Definition parse_date (s : string) : option (Z * Z * Z * string) :=
  '(y, s) ← number 4 0 s;
  s ← lit "-" s;
  '(m, s) ← number 2 0 s;
  s ← lit "-" s;
  '(d, s) ← number 2 0 s;
  if (1 <=? m) && (m <=? 12) && (1 <=? d) && (d <=? JsDate.daysInMonth y m)
  then Some (y, m, d, s) else None.

(** Optional [:ss] and [.sss] after [HH:mm]. *)
Definition parse_seconds (s : string) : option (Z * Z * string) :=
  match lit ":" s with
  | None => Some (0, 0, s)
  | Some s =>
      '(sec, s) ← number 2 0 s;
      match lit "." s with
      | None => Some (sec, 0, s)
      | Some s => '(ms, s) ← number 3 0 s; Some (sec, ms, s)
      end
  end.

Definition parse_zone (s : string) : option Zone :=
  match s with
  | EmptyString => Some ZoneLocal
  | String "Z" EmptyString => Some ZoneUTC
  | _ => None
  end.

Definition parse (s : string) : option Fields :=
  '(y, m, d, s) ← parse_date s;
  match s with
  | EmptyString =>
      Some {| year := y; month := m; day := d; hour := 0; minute := 0;
              second := 0; millisecond := 0; zone := ZoneUTC |}
  | _ =>
      s ← lit "T" s;
      '(h, s) ← number 2 0 s;
      s ← lit ":" s;
      '(mi, s) ← number 2 0 s;
      '(sec, ms, s) ← parse_seconds s;
      z ← parse_zone s;
      if (h <=? 23) && (mi <=? 59) && (sec <=? 59)
      then Some {| year := y; month := m; day := d; hour := h; minute := mi;
                   second := sec; millisecond := ms; zone := z |}
      else None
  end.

Definition timeOfDay (f : Fields) : Z :=
  hour f * JsDate.msPerHour + minute f * JsDate.msPerMinute
  + second f * 1000 + millisecond f.

(** The time value denoted by the fields in a runtime in zone [tz]. *)
Definition timeValue (tz : JsDate.TimeZone) (f : Fields) : Z :=
  let t := JsDate.MakeDate (JsDate.days_from_civil (year f) (month f) (day f))
                           (timeOfDay f) in
  match zone f with
  | ZoneUTC => t
  | ZoneLocal => JsDate.UTC tz t
  end.

(** [new Date(s).getTime()], [None] for [NaN]. *)
Definition new_Date (tz : JsDate.TimeZone) (s : string) : option Z :=
  timeValue tz <$> parse s.

End IsoParse.

(** ** Entities ([types/index.ts]) *)

Module TaskStatus.
Inductive t := not_started | in_progress | completed.

Global Instance eq_dec : EqDecision t.
Proof. solve_decision. Defined.
End TaskStatus.

Module TaskArea.
Inductive t := work | personal | learning | health | social | creative.

Global Instance eq_dec : EqDecision t.
Proof. solve_decision. Defined.
End TaskArea.

Module Task.
Record t := mk {
  id : string;
  weekId : string;
  title : string;
  description : option string;
  areas : list TaskArea.t;
  estimatedMinutes : Z;
  actualMinutes : Z;
  status : TaskStatus.t;
  createdAt : string;
  updatedAt : string
}.
End Task.

(** [Omit<Task, 'id' | 'createdAt' | 'updatedAt' | 'actualMinutes'>]. *)
Module TaskData.
Record t := mk {
  weekId : string;
  title : string;
  description : option string;
  areas : list TaskArea.t;
  estimatedMinutes : Z;
  status : TaskStatus.t
}.
End TaskData.

(** [Partial<Omit<Task, 'id' | 'createdAt'>>]: [None] is an absent
    property.  [description] may be present with the value
    [undefined], which is [Some None]. *)
Module TaskUpdates.
Record t := mk {
  weekId : option string;
  title : option string;
  description : option (option string);
  areas : option (list TaskArea.t);
  estimatedMinutes : option Z;
  actualMinutes : option Z;
  status : option TaskStatus.t;
  updatedAt : option string
}.
End TaskUpdates.

Module TimeEntry.
Record t := mk {
  id : string;
  taskId : string;
  startTime : string;
  endTime : option string;
  minutes : Z;
  isManual : bool;
  notes : option string;
  createdAt : string
}.
End TimeEntry.

(** [Omit<TimeEntry, 'id' | 'createdAt'>]. *)
Module TimeEntryData.
Record t := mk {
  taskId : string;
  startTime : string;
  endTime : option string;
  minutes : Z;
  isManual : bool;
  notes : option string
}.
End TimeEntryData.

(** [Partial<TimeEntry>]. *)
Module TimeEntryUpdates.
Record t := mk {
  id : option string;
  taskId : option string;
  startTime : option string;
  endTime : option (option string);
  minutes : option Z;
  isManual : option bool;
  notes : option (option string);
  createdAt : option string
}.
End TimeEntryUpdates.

Module Week.
Record t := mk {
  id : string;
  title : option string;
  description : option string;
  startDate : string;
  endDate : string;
  totalPlannedMinutes : Z;
  totalActualMinutes : Z;
  isCurrentWeek : bool;
  createdAt : string;
  updatedAt : string
}.
End Week.

(** ** Asynchronous actions

    A thrown value is an [Error] with its message or something else
    ([err instanceof Error] decides which).  An action runs on a world
    made of its store and the log of the requests sent so far; it
    completes normally with a value or abruptly with a thrown value,
    which is how the promise it returns settles (resolve / reject).
    An action is run here in one piece, the code after an [await] in
    the same step as the code before it: this is how it goes when
    nothing else of the application runs while the action waits.
    [Interleaved] below cuts the actions at their awaits. *)

Module Async.

Inductive Thrown := JsError (message : string) | NonError.

Inductive Completion (A : Type) :=
| Normal (a : A)
| Throw (e : Thrown).
Arguments Normal {A} a.
Arguments Throw {A} e.

Inductive Method := GET | POST | PUT | DELETE.

(** [fetch(url, { method, body: JSON.stringify(body) })]. *)
Record Request (T : Type) := {
  method : Method;
  url : string;
  body : option T
}.
Arguments method {T} _.
Arguments url {T} _.
Arguments body {T} _.

(** A response: its status and what [response.json()] settles to. *)
Record Response (B : Type) := {
  status : Z;
  json : Completion B
}.
Arguments status {B} _.
Arguments json {B} _.

(** [response.ok]: the status is in the range 200..299. *)
Definition ok {B} (r : Response B) : bool :=
  (200 <=? status r) && (status r <=? 299).

(** What the network does with the request of an action: the
    [fetch] promise rejects, or resolves with a response. *)
Inductive FetchReply (B : Type) :=
| Rejects (e : Thrown)
| Responds (r : Response B).
Arguments Rejects {B} e.
Arguments Responds {B} r.

Record World (S T : Type) := {
  store : S;
  requests : list (Request T)
}.
Arguments store {S T} _.
Arguments requests {S T} _.

Definition Act (S T A : Type) : Type := World S T -> Completion A * World S T.

Section Combinators.
Context {S T : Type}.

Definition ret {A} (a : A) : Act S T A := fun w => (Normal a, w).

Definition throw {A} (e : Thrown) : Act S T A := fun w => (Throw e, w).

Definition bind {A B} (m : Act S T A) (k : A -> Act S T B) : Act S T B :=
  fun w =>
    match m w with
    | (Normal a, w') => k a w'
    | (Throw e, w') => (Throw e, w')
    end.

Definition get : Act S T S := fun w => (Normal (store w), w).

Definition modify (f : S -> S) : Act S T unit :=
  fun w => (Normal tt, {| store := f (store w); requests := requests w |}).

(** [await fetch(request)]: the request is sent, then the reply
    decides. *)
Definition fetch {B} (request : Request T) (reply : FetchReply B) : Act S T (Response B) :=
  fun w =>
    let w' := {| store := store w; requests := requests w ++ [request] |} in
    match reply with
    | Rejects e => (Throw e, w')
    | Responds r => (Normal r, w')
    end.

(** [await response.json()]. *)
Definition await_json {B} (response : Response B) : Act S T B :=
  fun w => (json response, w).

(** [try { body } catch (err) { handler(err) } finally { finalizer }]:
    the finalizer runs last on every path and its own abrupt
    completion, if any, wins. *)
Definition try_catch_finally {A} (body : Act S T A) (handler : Thrown -> Act S T A)
    (finalizer : Act S T unit) : Act S T A :=
  fun w =>
    let '(c, w1) :=
      match body w with
      | (Normal a, w') => (Normal a, w')
      | (Throw e, w') => handler e w'
      end in
    match finalizer w1 with
    | (Normal _, w2) => (c, w2)
    | (Throw e, w2) => (Throw e, w2)
    end.

(** [if (cond) { block }] *)
Definition when (cond : bool) (block : Act S T unit) : Act S T unit :=
  if cond then block else ret tt.
End Combinators.

(** [err instanceof Error ? err.message : fallback]. *)
Definition message_or (err : Thrown) (fallback : string) : string :=
  match err with
  | JsError m => m
  | NonError => fallback
  end.

(** [array.findIndex(p)], [None] for -1. *)
Definition findIndex {A} (P : A -> Prop) `{!forall x, Decision (P x)} (l : list A) : option nat :=
  fst <$> list_find P l.

(** [array.find(p)], [None] for [undefined]. *)
Definition find {A} (P : A -> Prop) `{!forall x, Decision (P x)} (l : list A) : option A :=
  snd <$> list_find P l.

(** [array.splice(i, 0, x)]. *)
Definition splice_in {A} (i : nat) (x : A) (l : list A) : list A :=
  take i l ++ x :: drop i l.

(** A reply that makes the remote call fail: the fetch rejects or the
    status is not 2xx. *)
Definition remote_failure {B} (reply : FetchReply B) : Prop :=
  match reply with
  | Rejects _ => True
  | Responds r => ok r = false
  end.

(** The state an action settles in, as far as the loading flag and
    the error slot go: not loading; no error after a normal
    completion, a message after an abrupt one. *)
Definition settled_flags {A S T} (isLoading : S -> bool) (error : S -> option string)
    (r : Completion A * World S T) : Prop :=
  isLoading (store (snd r)) = false /\
  match fst r with
  | Normal _ => error (store (snd r)) = None
  | Throw _ => exists message, error (store (snd r)) = Some message
  end.

Declare Scope act_scope.
Delimit Scope act_scope with act.
Notation "x <- m ;; k" := (bind m (fun x => k))
  (at level 100, m at next level, right associativity) : act_scope.
Notation "m ;; k" := (bind m (fun _ => k))
  (at level 100, right associativity) : act_scope.

End Async.

Definition API_BASE_URL : string := "http://localhost:3000".

(** ** The task store ([useTaskStore]) *)

Module TaskStore.
Import Async.
Local Open Scope act_scope.

Record State := {
  tasks : list Task.t;
  isLoading : bool;
  error : option string
}.

Definition Action (A : Type) : Type := Act State Task.t A.

Definition set_isLoading (b : bool) : Action unit :=
  modify (fun s => {| tasks := tasks s; isLoading := b; error := error s |}).

Definition set_error (e : option string) : Action unit :=
  modify (fun s => {| tasks := tasks s; isLoading := isLoading s; error := e |}).

Definition set_tasks (f : list Task.t -> list Task.t) : Action unit :=
  modify (fun s => {| tasks := f (tasks s); isLoading := isLoading s; error := error s |}).

Definition get_tasks : Action (list Task.t) :=
  s <- get ;; ret (tasks s).

Definition http_error {B} (response : Response B) : Thrown :=
  JsError ("HTTP error! status: " +:+ JsString.of_int (status response)).

Definition fetchTasks (reply : FetchReply (list Task.t)) : Action unit :=
  set_isLoading true ;;
  set_error None ;;
  try_catch_finally
    (response <- fetch {| method := GET; url := API_BASE_URL +:+ "/tasks"; body := None |} reply ;;
     when (negb (ok response)) (throw (http_error response)) ;;
     fetchedTasks <- await_json response ;;
     set_tasks (fun _ => fetchedTasks))
    (fun err =>
       set_error (Some (message_or err "Failed to fetch tasks")) ;;
       throw err)
    (set_isLoading false).

(** The three clock readings of [createTask]: [Date.now()] and the
    two [new Date()]. *)
Record Clock := {
  Date_now : Z;
  createdAt_time : Z;
  updatedAt_time : Z
}.

Definition newTask_of (clock : Clock) (taskData : TaskData.t) : Task.t :=
  {| Task.id := "task-" +:+ JsString.of_int (Date_now clock);
     Task.weekId := TaskData.weekId taskData;
     Task.title := TaskData.title taskData;
     Task.description := TaskData.description taskData;
     Task.areas := TaskData.areas taskData;
     Task.estimatedMinutes := TaskData.estimatedMinutes taskData;
     Task.actualMinutes := 0;
     Task.status := TaskData.status taskData;
     Task.createdAt := JsDate.toISOString (createdAt_time clock);
     Task.updatedAt := JsDate.toISOString (updatedAt_time clock) |}.

Definition createTask (clock : Clock) (taskData : TaskData.t)
    (reply : FetchReply Task.t) : Action Task.t :=
  set_isLoading true ;;
  set_error None ;;
  try_catch_finally
    (let newTask := newTask_of clock taskData in
     (* Optimistic update - add to local state first *)
     set_tasks (fun ts => ts ++ [newTask]) ;;
     (* Then sync with server *)
     response <- fetch {| method := POST; url := API_BASE_URL +:+ "/tasks";
                          body := Some newTask |} reply ;;
     when (negb (ok response))
       ((* Rollback optimistic update *)
        set_tasks (filter (fun task => Task.id task <> Task.id newTask)) ;;
        throw (http_error response)) ;;
     createdTask <- await_json response ;;
     (* Update with server response *)
     ts <- get_tasks ;;
     match findIndex (fun task => Task.id task = Task.id newTask) ts with
     | Some taskIndex => set_tasks (fun ts => <[taskIndex := createdTask]> ts)
     | None => ret tt
     end ;;
     ret createdTask)
    (fun err =>
       set_error (Some (message_or err "Failed to create task")) ;;
       throw err)
    (set_isLoading false).

(** [{ ...originalTask, ...updates, updatedAt: new Date().toISOString() }]. *)
Definition updatedTask_of (now : Z) (originalTask : Task.t) (updates : TaskUpdates.t) : Task.t :=
  {| Task.id := Task.id originalTask;
     Task.weekId := default (Task.weekId originalTask) (TaskUpdates.weekId updates);
     Task.title := default (Task.title originalTask) (TaskUpdates.title updates);
     Task.description :=
       default (Task.description originalTask) (TaskUpdates.description updates);
     Task.areas := default (Task.areas originalTask) (TaskUpdates.areas updates);
     Task.estimatedMinutes :=
       default (Task.estimatedMinutes originalTask) (TaskUpdates.estimatedMinutes updates);
     Task.actualMinutes :=
       default (Task.actualMinutes originalTask) (TaskUpdates.actualMinutes updates);
     Task.status := default (Task.status originalTask) (TaskUpdates.status updates);
     Task.createdAt := Task.createdAt originalTask;
     Task.updatedAt := JsDate.toISOString now |}.

Definition updateTask (now : Z) (taskId : string) (updates : TaskUpdates.t)
    (reply : FetchReply Task.t) : Action Task.t :=
  set_isLoading true ;;
  set_error None ;;
  try_catch_finally
    (ts <- get_tasks ;;
     (* [findIndex] and the element at the index it returns *)
     match list_find (fun task => Task.id task = taskId) ts with
     | None => throw (JsError "Task not found")
     | Some (taskIndex, found) =>
         let originalTask := found in
         let updatedTask := updatedTask_of now originalTask updates in
         (* Optimistic update *)
         set_tasks (fun ts => <[taskIndex := updatedTask]> ts) ;;
         (* Sync with server *)
         response <- fetch {| method := PUT; url := API_BASE_URL +:+ "/tasks/" +:+ taskId;
                              body := Some updatedTask |} reply ;;
         when (negb (ok response))
           ((* Rollback optimistic update *)
            set_tasks (fun ts => <[taskIndex := originalTask]> ts) ;;
            throw (http_error response)) ;;
         serverTask <- await_json response ;;
         set_tasks (fun ts => <[taskIndex := serverTask]> ts) ;;
         ret serverTask
     end)
    (fun err =>
       set_error (Some (message_or err "Failed to update task")) ;;
       throw err)
    (set_isLoading false).

Definition deleteTask (taskId : string) (reply : FetchReply unit) : Action bool :=
  set_isLoading true ;;
  set_error None ;;
  try_catch_finally
    (ts <- get_tasks ;;
     (* [findIndex] and the element at the index it returns *)
     match list_find (fun task => Task.id task = taskId) ts with
     | None => throw (JsError "Task not found")
     | Some (taskIndex, deletedTask) =>
         (* Optimistic update *)
         set_tasks (fun ts => delete taskIndex ts) ;;
         (* Sync with server *)
         response <- fetch {| method := DELETE; url := API_BASE_URL +:+ "/tasks/" +:+ taskId;
                              body := None |} reply ;;
         when (negb (ok response))
           ((* Rollback optimistic update *)
            set_tasks (splice_in taskIndex deletedTask) ;;
            throw (http_error response)) ;;
         ret true
     end)
    (fun err =>
       set_error (Some (message_or err "Failed to delete task")) ;;
       throw err)
    (set_isLoading false).

(** Runs an action of the store from a state with an empty request
    log. *)
Definition run {A} (action : Action A) (s : State) : Completion A * World State Task.t :=
  action {| store := s; requests := [] |}.

End TaskStore.

(** ** The time-entry store ([useTimeEntryStore]) *)

Module TimeEntryStore.
Import Async.
Local Open Scope act_scope.

Record State := {
  timeEntries : list TimeEntry.t;
  isLoading : bool;
  error : option string
}.

Definition Action (A : Type) : Type := Act State TimeEntry.t A.

Definition set_isLoading (b : bool) : Action unit :=
  modify (fun s => {| timeEntries := timeEntries s; isLoading := b; error := error s |}).

Definition set_error (e : option string) : Action unit :=
  modify (fun s => {| timeEntries := timeEntries s; isLoading := isLoading s; error := e |}).

Definition set_timeEntries (f : list TimeEntry.t -> list TimeEntry.t) : Action unit :=
  modify (fun s => {| timeEntries := f (timeEntries s); isLoading := isLoading s;
                      error := error s |}).

Definition get_timeEntries : Action (list TimeEntry.t) :=
  s <- get ;; ret (timeEntries s).

Definition http_error {B} (response : Response B) : Thrown :=
  JsError ("HTTP error! status: " +:+ JsString.of_int (status response)).

Definition fetchTimeEntries (reply : FetchReply (list TimeEntry.t))
    : Action (list TimeEntry.t) :=
  set_isLoading true ;;
  set_error None ;;
  try_catch_finally
    (response <- fetch {| method := GET; url := API_BASE_URL +:+ "/timeEntries";
                          body := None |} reply ;;
     when (negb (ok response)) (throw (http_error response)) ;;
     fetchedEntries <- await_json response ;;
     set_timeEntries (fun _ => fetchedEntries) ;;
     ret fetchedEntries)
    (fun err =>
       set_error (Some (message_or err "Failed to fetch time entries")) ;;
       throw err)
    (set_isLoading false).

(** The clock readings of [createTimeEntry]: [Date.now()] and
    [new Date()]. *)
Record Clock := {
  Date_now : Z;
  createdAt_time : Z
}.

Definition newEntry_of (clock : Clock) (entryData : TimeEntryData.t) : TimeEntry.t :=
  {| TimeEntry.id := "entry-" +:+ JsString.of_int (Date_now clock);
     TimeEntry.taskId := TimeEntryData.taskId entryData;
     TimeEntry.startTime := TimeEntryData.startTime entryData;
     TimeEntry.endTime := TimeEntryData.endTime entryData;
     TimeEntry.minutes := TimeEntryData.minutes entryData;
     TimeEntry.isManual := TimeEntryData.isManual entryData;
     TimeEntry.notes := TimeEntryData.notes entryData;
     TimeEntry.createdAt := JsDate.toISOString (createdAt_time clock) |}.

Definition createTimeEntry (clock : Clock) (entryData : TimeEntryData.t)
    (reply : FetchReply TimeEntry.t) : Action TimeEntry.t :=
  set_isLoading true ;;
  set_error None ;;
  try_catch_finally
    (let newEntry := newEntry_of clock entryData in
     response <- fetch {| method := POST; url := API_BASE_URL +:+ "/timeEntries";
                          body := Some newEntry |} reply ;;
     when (negb (ok response)) (throw (http_error response)) ;;
     createdEntry <- await_json response ;;
     set_timeEntries (fun es => es ++ [createdEntry]) ;;
     ret createdEntry)
    (fun err =>
       set_error (Some (message_or err "Failed to create time entry")) ;;
       throw err)
    (set_isLoading false).

(** [{ ...existingEntry, ...updates }]. *)
Definition updatedEntry_of (existingEntry : TimeEntry.t) (updates : TimeEntryUpdates.t)
    : TimeEntry.t :=
  {| TimeEntry.id := default (TimeEntry.id existingEntry) (TimeEntryUpdates.id updates);
     TimeEntry.taskId :=
       default (TimeEntry.taskId existingEntry) (TimeEntryUpdates.taskId updates);
     TimeEntry.startTime :=
       default (TimeEntry.startTime existingEntry) (TimeEntryUpdates.startTime updates);
     TimeEntry.endTime :=
       default (TimeEntry.endTime existingEntry) (TimeEntryUpdates.endTime updates);
     TimeEntry.minutes :=
       default (TimeEntry.minutes existingEntry) (TimeEntryUpdates.minutes updates);
     TimeEntry.isManual :=
       default (TimeEntry.isManual existingEntry) (TimeEntryUpdates.isManual updates);
     TimeEntry.notes :=
       default (TimeEntry.notes existingEntry) (TimeEntryUpdates.notes updates);
     TimeEntry.createdAt :=
       default (TimeEntry.createdAt existingEntry) (TimeEntryUpdates.createdAt updates) |}.

Definition updateTimeEntry (id : string) (updates : TimeEntryUpdates.t)
    (reply : FetchReply TimeEntry.t) : Action TimeEntry.t :=
  set_isLoading true ;;
  set_error None ;;
  try_catch_finally
    (es <- get_timeEntries ;;
     match find (fun entry => TimeEntry.id entry = id) es with
     | None => throw (JsError "Time entry not found")
     | Some existingEntry =>
         let updatedEntry := updatedEntry_of existingEntry updates in
         response <- fetch {| method := PUT; url := API_BASE_URL +:+ "/timeEntries/" +:+ id;
                              body := Some updatedEntry |} reply ;;
         when (negb (ok response)) (throw (http_error response)) ;;
         responseEntry <- await_json response ;;
         es <- get_timeEntries ;;
         match findIndex (fun entry => TimeEntry.id entry = id) es with
         | Some index => set_timeEntries (fun es => <[index := responseEntry]> es)
         | None => ret tt
         end ;;
         ret responseEntry
     end)
    (fun err =>
       set_error (Some (message_or err "Failed to update time entry")) ;;
       throw err)
    (set_isLoading false).

Definition deleteTimeEntry (id : string) (reply : FetchReply unit) : Action unit :=
  set_isLoading true ;;
  set_error None ;;
  try_catch_finally
    (response <- fetch {| method := DELETE; url := API_BASE_URL +:+ "/timeEntries/" +:+ id;
                          body := None |} reply ;;
     when (negb (ok response)) (throw (http_error response)) ;;
     set_timeEntries (filter (fun entry => TimeEntry.id entry <> id)))
    (fun err =>
       set_error (Some (message_or err "Failed to delete time entry")) ;;
       throw err)
    (set_isLoading false).

Definition run {A} (action : Action A) (s : State)
    : Completion A * World State TimeEntry.t :=
  action {| store := s; requests := [] |}.

End TimeEntryStore.

(** ** Actions that overlap

    An [async] action runs in pieces: it stops at each [await], and
    what follows the [await] runs when the awaited promise has
    settled.  In between, other handlers of the application run,
    among them other actions of the same store, which share its
    [isLoading] flag and [error] slot.  The actions are written here
    once more, as processes that show their awaits; [run_with] runs
    such a process with whatever the rest of the application does to
    the world at each of its awaits. *)

Module Interleaved.
Import Async.

Inductive Proc (S T B A : Type) : Type :=
| Settle (c : Completion A)
| Get (k : S -> Proc S T B A)
| Modify (f : S -> S) (k : Proc S T B A)
| AwaitFetch (request : Request T) (k : FetchReply B -> Proc S T B A)
| AwaitJson (response : Response B) (k : Completion B -> Proc S T B A).
Arguments Settle {S T B A} c.
Arguments Get {S T B A} k.
Arguments Modify {S T B A} f k.
Arguments AwaitFetch {S T B A} request k.
Arguments AwaitJson {S T B A} response k.

Section Combinators.
Context {S T B : Type}.

Definition ret {A} (a : A) : Proc S T B A := Settle (Normal a).

Definition throw {A} (e : Thrown) : Proc S T B A := Settle (Throw e).

Fixpoint bind {A A'} (m : Proc S T B A) (k : A -> Proc S T B A') : Proc S T B A' :=
  match m with
  | Settle (Normal a) => k a
  | Settle (Throw e) => Settle (Throw e)
  | Get g => Get (fun s => bind (g s) k)
  | Modify f m' => Modify f (bind m' k)
  | AwaitFetch request g => AwaitFetch request (fun reply => bind (g reply) k)
  | AwaitJson response g => AwaitJson response (fun c => bind (g c) k)
  end.

Definition get : Proc S T B S := Get ret.

Definition modify (f : S -> S) : Proc S T B unit := Modify f (ret tt).

(** [await fetch(request)]: the request is sent and the action waits
    for the reply. *)
Definition fetch (request : Request T) : Proc S T B (Response B) :=
  AwaitFetch request (fun reply =>
                        match reply with
                        | Rejects e => throw e
                        | Responds r => ret r
                        end).

(** [await response.json()]. *)
Definition await_json (response : Response B) : Proc S T B B :=
  AwaitJson response Settle.

(** [try { body } catch (err) { handler(err) }]. *)
Fixpoint catch {A} (body : Proc S T B A) (handler : Thrown -> Proc S T B A)
    : Proc S T B A :=
  match body with
  | Settle (Normal a) => Settle (Normal a)
  | Settle (Throw e) => handler e
  | Get g => Get (fun s => catch (g s) handler)
  | Modify f body' => Modify f (catch body' handler)
  | AwaitFetch request g => AwaitFetch request (fun reply => catch (g reply) handler)
  | AwaitJson response g => AwaitJson response (fun c => catch (g c) handler)
  end.

(** [try { body } finally { finalizer }]: the finalizer runs last on
    every path and its own abrupt completion, if any, wins. *)
Fixpoint finally {A} (body : Proc S T B A) (finalizer : Proc S T B unit)
    : Proc S T B A :=
  match body with
  | Settle c => bind finalizer (fun _ => Settle c)
  | Get g => Get (fun s => finally (g s) finalizer)
  | Modify f body' => Modify f (finally body' finalizer)
  | AwaitFetch request g => AwaitFetch request (fun reply => finally (g reply) finalizer)
  | AwaitJson response g => AwaitJson response (fun c => finally (g c) finalizer)
  end.

Definition try_catch_finally {A} (body : Proc S T B A) (handler : Thrown -> Proc S T B A)
    (finalizer : Proc S T B unit) : Proc S T B A :=
  finally (catch body handler) finalizer.

(** [if (cond) { block }] *)
Definition when (cond : bool) (block : Proc S T B unit) : Proc S T B unit :=
  if cond then block else ret tt.

(** Runs a process to the point where its promise settles.  The code
    between two awaits runs in one piece.  At the [n]-th await of the
    process the rest of the application turns the world [w] into
    [others n w]; the fetch then settles as [reply] says. *)
Fixpoint run_with {A} (others : nat -> World S T -> World S T) (n : nat)
    (p : Proc S T B A) (reply : FetchReply B) (w : World S T)
    : Completion A * World S T :=
  match p with
  | Settle c => (c, w)
  | Get k => run_with others n (k (store w)) reply w
  | Modify f k => run_with others n k reply {| store := f (store w); requests := requests w |}
  | AwaitFetch request k =>
      run_with others (Nat.succ n) (k reply) reply
        (others n {| store := store w; requests := requests w ++ [request] |})
  | AwaitJson response k =>
      run_with others (Nat.succ n) (k (json response)) reply (others n w)
  end.

(** Nothing else runs while the action waits. *)
Definition alone : nat -> World S T -> World S T := fun _ w => w.
End Combinators.

(** The state an action settles in when other code has run at its
    awaits: not loading; a message in the error slot after an abrupt
    completion; after a normal one no error, as long as the other
    code has left the error slot alone. *)
Definition settled_flags {A S T} (isLoading : S -> bool) (error : S -> option string)
    (others : nat -> World S T -> World S T) (r : Completion A * World S T) : Prop :=
  isLoading (store (snd r)) = false /\
  match fst r with
  | Normal _ =>
      (forall n w, error (store (others n w)) = error (store w)) ->
      error (store (snd r)) = None
  | Throw _ => exists message, error (store (snd r)) = Some message
  end.

Declare Scope proc_scope.
Delimit Scope proc_scope with proc.
Notation "x <- m ;; k" := (bind m (fun x => k))
  (at level 100, m at next level, right associativity) : proc_scope.
Notation "m ;; k" := (bind m (fun _ => k))
  (at level 100, right associativity) : proc_scope.

(** *** The actions of the task store *)

Module Tasks.
Import TaskStore.
Local Open Scope proc_scope.

Definition Action (B A : Type) : Type := Proc State Task.t B A.

Definition set_isLoading {B} (b : bool) : Action B unit :=
  modify (fun s => {| tasks := tasks s; isLoading := b; error := error s |}).

Definition set_error {B} (e : option string) : Action B unit :=
  modify (fun s => {| tasks := tasks s; isLoading := isLoading s; error := e |}).

Definition set_tasks {B} (f : list Task.t -> list Task.t) : Action B unit :=
  modify (fun s => {| tasks := f (tasks s); isLoading := isLoading s; error := error s |}).

Definition get_tasks {B} : Action B (list Task.t) :=
  s <- get ;; ret (tasks s).

Definition fetchTasks : Action (list Task.t) unit :=
  set_isLoading true ;;
  set_error None ;;
  try_catch_finally
    (response <- fetch {| method := GET; url := API_BASE_URL +:+ "/tasks"; body := None |} ;;
     when (negb (ok response)) (throw (http_error response)) ;;
     fetchedTasks <- await_json response ;;
     set_tasks (fun _ => fetchedTasks))
    (fun err =>
       set_error (Some (message_or err "Failed to fetch tasks")) ;;
       throw err)
    (set_isLoading false).

Definition createTask (clock : Clock) (taskData : TaskData.t) : Action Task.t Task.t :=
  set_isLoading true ;;
  set_error None ;;
  try_catch_finally
    (let newTask := newTask_of clock taskData in
     (* Optimistic update - add to local state first *)
     set_tasks (fun ts => ts ++ [newTask]) ;;
     (* Then sync with server *)
     response <- fetch {| method := POST; url := API_BASE_URL +:+ "/tasks";
                          body := Some newTask |} ;;
     when (negb (ok response))
       ((* Rollback optimistic update *)
        set_tasks (filter (fun task => Task.id task <> Task.id newTask)) ;;
        throw (http_error response)) ;;
     createdTask <- await_json response ;;
     (* Update with server response *)
     ts <- get_tasks ;;
     match findIndex (fun task => Task.id task = Task.id newTask) ts with
     | Some taskIndex => set_tasks (fun ts => <[taskIndex := createdTask]> ts)
     | None => ret tt
     end ;;
     ret createdTask)
    (fun err =>
       set_error (Some (message_or err "Failed to create task")) ;;
       throw err)
    (set_isLoading false).

Definition updateTask (now : Z) (taskId : string) (updates : TaskUpdates.t)
    : Action Task.t Task.t :=
  set_isLoading true ;;
  set_error None ;;
  try_catch_finally
    (ts <- get_tasks ;;
     (* [findIndex] and the element at the index it returns *)
     match list_find (fun task => Task.id task = taskId) ts with
     | None => throw (JsError "Task not found")
     | Some (taskIndex, found) =>
         let originalTask := found in
         let updatedTask := updatedTask_of now originalTask updates in
         (* Optimistic update *)
         set_tasks (fun ts => <[taskIndex := updatedTask]> ts) ;;
         (* Sync with server *)
         response <- fetch {| method := PUT; url := API_BASE_URL +:+ "/tasks/" +:+ taskId;
                              body := Some updatedTask |} ;;
         when (negb (ok response))
           ((* Rollback optimistic update *)
            set_tasks (fun ts => <[taskIndex := originalTask]> ts) ;;
            throw (http_error response)) ;;
         serverTask <- await_json response ;;
         set_tasks (fun ts => <[taskIndex := serverTask]> ts) ;;
         ret serverTask
     end)
    (fun err =>
       set_error (Some (message_or err "Failed to update task")) ;;
       throw err)
    (set_isLoading false).

Definition deleteTask (taskId : string) : Action unit bool :=
  set_isLoading true ;;
  set_error None ;;
  try_catch_finally
    (ts <- get_tasks ;;
     (* [findIndex] and the element at the index it returns *)
     match list_find (fun task => Task.id task = taskId) ts with
     | None => throw (JsError "Task not found")
     | Some (taskIndex, deletedTask) =>
         (* Optimistic update *)
         set_tasks (fun ts => delete taskIndex ts) ;;
         (* Sync with server *)
         response <- fetch {| method := DELETE; url := API_BASE_URL +:+ "/tasks/" +:+ taskId;
                              body := None |} ;;
         when (negb (ok response))
           ((* Rollback optimistic update *)
            set_tasks (splice_in taskIndex deletedTask) ;;
            throw (http_error response)) ;;
         ret true
     end)
    (fun err =>
       set_error (Some (message_or err "Failed to delete task")) ;;
       throw err)
    (set_isLoading false).

End Tasks.

(** *** The actions of the time-entry store *)

Module TimeEntries.
Import TimeEntryStore.
Local Open Scope proc_scope.

Definition Action (B A : Type) : Type := Proc State TimeEntry.t B A.

Definition set_isLoading {B} (b : bool) : Action B unit :=
  modify (fun s => {| timeEntries := timeEntries s; isLoading := b; error := error s |}).

Definition set_error {B} (e : option string) : Action B unit :=
  modify (fun s => {| timeEntries := timeEntries s; isLoading := isLoading s; error := e |}).

Definition set_timeEntries {B} (f : list TimeEntry.t -> list TimeEntry.t) : Action B unit :=
  modify (fun s => {| timeEntries := f (timeEntries s); isLoading := isLoading s;
                      error := error s |}).

Definition get_timeEntries {B} : Action B (list TimeEntry.t) :=
  s <- get ;; ret (timeEntries s).

Definition fetchTimeEntries : Action (list TimeEntry.t) (list TimeEntry.t) :=
  set_isLoading true ;;
  set_error None ;;
  try_catch_finally
    (response <- fetch {| method := GET; url := API_BASE_URL +:+ "/timeEntries";
                          body := None |} ;;
     when (negb (ok response)) (throw (http_error response)) ;;
     fetchedEntries <- await_json response ;;
     set_timeEntries (fun _ => fetchedEntries) ;;
     ret fetchedEntries)
    (fun err =>
       set_error (Some (message_or err "Failed to fetch time entries")) ;;
       throw err)
    (set_isLoading false).

Definition createTimeEntry (clock : Clock) (entryData : TimeEntryData.t)
    : Action TimeEntry.t TimeEntry.t :=
  set_isLoading true ;;
  set_error None ;;
  try_catch_finally
    (let newEntry := newEntry_of clock entryData in
     response <- fetch {| method := POST; url := API_BASE_URL +:+ "/timeEntries";
                          body := Some newEntry |} ;;
     when (negb (ok response)) (throw (http_error response)) ;;
     createdEntry <- await_json response ;;
     set_timeEntries (fun es => es ++ [createdEntry]) ;;
     ret createdEntry)
    (fun err =>
       set_error (Some (message_or err "Failed to create time entry")) ;;
       throw err)
    (set_isLoading false).

Definition updateTimeEntry (id : string) (updates : TimeEntryUpdates.t)
    : Action TimeEntry.t TimeEntry.t :=
  set_isLoading true ;;
  set_error None ;;
  try_catch_finally
    (es <- get_timeEntries ;;
     match find (fun entry => TimeEntry.id entry = id) es with
     | None => throw (JsError "Time entry not found")
     | Some existingEntry =>
         let updatedEntry := updatedEntry_of existingEntry updates in
         response <- fetch {| method := PUT; url := API_BASE_URL +:+ "/timeEntries/" +:+ id;
                              body := Some updatedEntry |} ;;
         when (negb (ok response)) (throw (http_error response)) ;;
         responseEntry <- await_json response ;;
         es <- get_timeEntries ;;
         match findIndex (fun entry => TimeEntry.id entry = id) es with
         | Some index => set_timeEntries (fun es => <[index := responseEntry]> es)
         | None => ret tt
         end ;;
         ret responseEntry
     end)
    (fun err =>
       set_error (Some (message_or err "Failed to update time entry")) ;;
       throw err)
    (set_isLoading false).

Definition deleteTimeEntry (id : string) : Action unit unit :=
  set_isLoading true ;;
  set_error None ;;
  try_catch_finally
    (response <- fetch {| method := DELETE; url := API_BASE_URL +:+ "/timeEntries/" +:+ id;
                          body := None |} ;;
     when (negb (ok response)) (throw (http_error response)) ;;
     set_timeEntries (filter (fun entry => TimeEntry.id entry <> id)))
    (fun err =>
       set_error (Some (message_or err "Failed to delete time entry")) ;;
       throw err)
    (set_isLoading false).

End TimeEntries.

End Interleaved.

(** ** Numbers

    [Math.ceil] and [Math.round] on exact rationals.  The quotients
    they are applied to below have an integer numerator and a constant
    denominator; for time values of four-digit years the double
    precision quotient rounds to the same integer as the exact one. *)

Module JsMath.

Definition ceil (q : Q) : Z := Qceiling q.

(** Rounds to the nearest integer, halves upwards. *)
Definition round (q : Q) : Z := Qfloor (q + (1 # 2))%Q.

(** [z || 0] for a number [z]. *)
Definition or_zero (z : Z) : Z := if z =? 0 then 0 else z.

(** A number that may be [NaN]. *)
Inductive num := Int (z : Z) | NaN.

End JsMath.

(** ** Derived aggregates
    ([ReflectionPage.vue]; [WeekDetailPage.vue] repeats
    [completionStats], [areaBreakdown], [dailyTimeDistribution] and
    [getProgressPercentage] word for word) *)

Module Aggregates.

Module CompletionStats.
Record t := mk {
  total : Z;
  completed : Z;
  inProgress : Z;
  notStarted : Z;
  completionRate : Z
}.
End CompletionStats.

Module TimeStats.
Record t := mk {
  plannedMinutes : Z;
  actualMinutes : Z;
  efficiency : Z;
  variance : Z
}.
End TimeStats.

(** The per-area accumulator stored in the [areas] object. *)
Module AreaAcc.
Record t := mk {
  tasks : Z;
  completed : Z;
  plannedMinutes : Z;
  actualMinutes : Z
}.
End AreaAcc.

Module AreaStats.
Record t := mk {
  area : TaskArea.t;
  tasks : Z;
  completed : Z;
  plannedMinutes : Z;
  actualMinutes : Z;
  completionRate : Z
}.
End AreaStats.

Module StatusStats.
Record t := mk {
  status : TaskStatus.t;
  tasks : Z;
  percentage : Z
}.
End StatusStats.

Module DayStats.
Record t := mk {
  date : string;
  day : string;
  minutes : Z
}.
End DayStats.

Module TaskTimeStats.
Record t := mk {
  totalTracked : Z;
  estimated : Z;
  actual : Z;
  variance : Z;
  efficiency : Z
}.
End TaskTimeStats.

(** [array.length] and [array.filter(p).length] as numbers. *)
Definition count {A} (P : A -> Prop) `{!forall x, Decision (P x)} (l : list A) : Z :=
  Z.of_nat (length (filter P l)).

Definition getTasksByWeek (tasks : list Task.t) (weekId : string) : list Task.t :=
  filter (fun task => Task.weekId task = weekId) tasks.

Definition weekTasks (tasks : list Task.t) (selectedWeekId : string) : list Task.t :=
  if decide (selectedWeekId = ""%string) then [] else getTasksByWeek tasks selectedWeekId.

Definition weekTimeEntries (timeEntries : list TimeEntry.t) (weekTasks : list Task.t)
    : list TimeEntry.t :=
  if decide (length weekTasks = 0%nat) then []
  else
    let taskIds := map Task.id weekTasks in
    filter (fun entry => TimeEntry.taskId entry ∈ taskIds) timeEntries.

(** [entries.reduce((sum, entry) => sum + entry.minutes, 0)]. *)
Definition sum_minutes (entries : list TimeEntry.t) : Z :=
  foldl (fun sum entry => sum + TimeEntry.minutes entry) 0 entries.

(** *** The [areas] object of [areaBreakdown]

    Its keys are area names, kept in insertion order, which is the
    order [Object.entries] lists them in. *)

Definition add_task (task : Task.t) (stats : AreaAcc.t) : AreaAcc.t :=
  {| AreaAcc.tasks := AreaAcc.tasks stats + 1;
     AreaAcc.completed :=
       if decide (Task.status task = TaskStatus.completed)
       then AreaAcc.completed stats + 1 else AreaAcc.completed stats;
     AreaAcc.plannedMinutes :=
       AreaAcc.plannedMinutes stats + JsMath.or_zero (Task.estimatedMinutes task);
     AreaAcc.actualMinutes :=
       AreaAcc.actualMinutes stats + JsMath.or_zero (Task.actualMinutes task) |}.

Definition empty_stats : AreaAcc.t :=
  {| AreaAcc.tasks := 0; AreaAcc.completed := 0;
     AreaAcc.plannedMinutes := 0; AreaAcc.actualMinutes := 0 |}.

(** The body of [task.areas.forEach]: create the entry of [area]
    when it is missing, then add the task to it. *)
Fixpoint record_area (task : Task.t) (area : TaskArea.t)
    (areas : list (TaskArea.t * AreaAcc.t)) : list (TaskArea.t * AreaAcc.t) :=
  match areas with
  | [] => [(area, add_task task empty_stats)]
  | (a, stats) :: rest =>
      if decide (a = area) then (a, add_task task stats) :: rest
      else (a, stats) :: record_area task area rest
  end.

Definition record_task (areas : list (TaskArea.t * AreaAcc.t)) (task : Task.t)
    : list (TaskArea.t * AreaAcc.t) :=
  foldl (fun areas area => record_area task area areas) areas (Task.areas task).

Definition collect_areas (weekTasks : list Task.t) : list (TaskArea.t * AreaAcc.t) :=
  foldl record_task [] weekTasks.

(** The [statuses] object of [statusBreakdown] and the body of its
    [forEach]. *)
Definition initial_statuses : list (TaskStatus.t * Z) :=
  [(TaskStatus.completed, 0); (TaskStatus.in_progress, 0); (TaskStatus.not_started, 0)].

Definition tally_status (statuses : list (TaskStatus.t * Z)) (task : Task.t)
    : list (TaskStatus.t * Z) :=
  map (fun '(status, tasks) =>
         if decide (status = Task.status task) then (status, tasks + 1) else (status, tasks))
      statuses.

Section Rounding.
(** [percent a b] is [Math.round((a / b) * 100)] for [b <> 0], with
    the quotient and the product rounded as the runtime's double
    precision arithmetic rounds them. *)
Variable percent : Z -> Z -> Z.

Definition completionStats (weekTasks : list Task.t) : CompletionStats.t :=
  let total := Z.of_nat (length weekTasks) in
  let completed := count (fun t => Task.status t = TaskStatus.completed) weekTasks in
  let inProgress := count (fun t => Task.status t = TaskStatus.in_progress) weekTasks in
  let notStarted := count (fun t => Task.status t = TaskStatus.not_started) weekTasks in
  {| CompletionStats.total := total;
     CompletionStats.completed := completed;
     CompletionStats.inProgress := inProgress;
     CompletionStats.notStarted := notStarted;
     CompletionStats.completionRate := if total >? 0 then percent completed total else 0 |}.

Definition timeStats (selectedWeek : option Week.t) : TimeStats.t :=
  let plannedMinutes := JsMath.or_zero (default 0 (Week.totalPlannedMinutes <$> selectedWeek)) in
  let actualMinutes := JsMath.or_zero (default 0 (Week.totalActualMinutes <$> selectedWeek)) in
  let efficiency := if plannedMinutes >? 0 then percent actualMinutes plannedMinutes else 0 in
  {| TimeStats.plannedMinutes := plannedMinutes;
     TimeStats.actualMinutes := actualMinutes;
     TimeStats.efficiency := efficiency;
     TimeStats.variance := actualMinutes - plannedMinutes |}.

Definition areaBreakdown (weekTasks : list Task.t) : list AreaStats.t :=
  if decide (length weekTasks = 0%nat) then []
  else
    map (fun '(area, stats) =>
           {| AreaStats.area := area;
              AreaStats.tasks := AreaAcc.tasks stats;
              AreaStats.completed := AreaAcc.completed stats;
              AreaStats.plannedMinutes := AreaAcc.plannedMinutes stats;
              AreaStats.actualMinutes := AreaAcc.actualMinutes stats;
              AreaStats.completionRate :=
                if AreaAcc.tasks stats >? 0
                then percent (AreaAcc.completed stats) (AreaAcc.tasks stats) else 0 |})
        (collect_areas weekTasks).

Definition statusBreakdown (weekTasks : list Task.t) : list StatusStats.t :=
  if decide (length weekTasks = 0%nat) then []
  else
    let statuses := foldl tally_status initial_statuses weekTasks in
    let total := Z.of_nat (length weekTasks) in
    map (fun '(status, tasks) =>
           {| StatusStats.status := status;
              StatusStats.tasks := tasks;
              StatusStats.percentage := if total >? 0 then percent tasks total else 0 |})
        statuses.

(** [getProgressPercentage] of the planner and week pages. *)
Definition getProgressPercentage (actual planned : Z) : Z :=
  if planned =? 0 then 0 else percent actual planned.

(** [timeStats] of [TaskDetailPage.vue]. *)
Definition taskTimeStats (taskTimeEntries : list TimeEntry.t) (currentTask : option Task.t)
    : TaskTimeStats.t :=
  let totalTracked := sum_minutes taskTimeEntries in
  let estimated := JsMath.or_zero (default 0 (Task.estimatedMinutes <$> currentTask)) in
  let actual := JsMath.or_zero (default 0 (Task.actualMinutes <$> currentTask)) in
  {| TaskTimeStats.totalTracked := totalTracked;
     TaskTimeStats.estimated := estimated;
     TaskTimeStats.actual := actual;
     TaskTimeStats.variance := totalTracked - estimated;
     TaskTimeStats.efficiency :=
       if estimated >? 0 then percent totalTracked estimated else 0 |}.
End Rounding.

(** *** Daily distribution *)

(** [date.toLocaleDateString('en-US', { weekday: 'short' })]. *)
Definition weekday_short (tz : JsDate.TimeZone) (t : Z) : string :=
  nth (Z.to_nat (JsDate.getDay tz t))
      ["Sun"; "Mon"; "Tue"; "Wed"; "Thu"; "Fri"; "Sat"]%string ""%string.

(** One turn of the loop of [dailyTimeDistribution]. *)
Definition day_bucket (tz : JsDate.TimeZone) (startDate : Z)
    (weekTimeEntries : list TimeEntry.t) (i : Z) : DayStats.t :=
  let date := JsDate.setDate tz startDate (JsDate.getDate tz startDate + i) in
  let dateStr := JsString.split_head "T" (JsDate.toISOString date) in
  (* Extract date from startTime field to match with dateStr *)
  let dayEntries :=
    filter (fun entry => JsString.split_head "T" (TimeEntry.startTime entry) = dateStr)
           weekTimeEntries in
  let totalMinutes := sum_minutes dayEntries in
  {| DayStats.date := dateStr;
     DayStats.day := weekday_short tz date;
     DayStats.minutes := totalMinutes |}.

(** [None] is the [RangeError] that [toISOString] throws when the
    week's [startDate] is not a valid date. *)
Definition dailyTimeDistribution (tz : JsDate.TimeZone) (selectedWeek : option Week.t)
    (weekTimeEntries : list TimeEntry.t) : option (list DayStats.t) :=
  match selectedWeek with
  | None => Some []
  | Some week =>
      startDate ← IsoParse.new_Date tz (Week.startDate week);
      Some (map (day_bucket tz startDate weekTimeEntries) (seqZ 0 7))
  end.

End Aggregates.

(** ** Week ids ([WeekFormModal.vue]) *)

Module WeekForm.

(** [getWeekNumber(date)].  [pastDaysOfYear] is a fraction whenever
    local midnight of 1 January and [date] are not a whole number of
    days apart. *)
Definition getWeekNumber (tz : JsDate.TimeZone) (date : Z) : Z :=
  let firstDayOfYear := JsDate.new_Date_ymd tz (JsDate.getFullYear tz date) 0 1 in
  let pastDaysOfYear : Q := (date - firstDayOfYear) # 86400000 in
  JsMath.ceil ((pastDaysOfYear + inject_Z (JsDate.getDay tz firstDayOfYear) + 1) / 7)%Q.

(** [generateWeekId(startDate)].  An invalid date has year and week
    number [NaN]. *)
Definition generateWeekId (tz : JsDate.TimeZone) (startDate : string) : string :=
  match IsoParse.new_Date tz startDate with
  | None => "NaN-WNaN"
  | Some date =>
      let year := JsDate.getFullYear tz date in
      let weekNumber := getWeekNumber tz date in
      JsString.of_int year +:+ "-W"
        +:+ JsString.padStart 2 "0" (JsString.of_int weekNumber)
  end.

End WeekForm.

(** ** Durations ([TimeEntryFormModal.vue]) *)

Module TimeEntryForm.

Record TimeEntryFormData := {
  startTime : string;
  endTime : string;
  minutes : JsMath.num;
  notes : string;
  isManual : bool
}.

(** [calculateMinutes()] on the form's fields. *)
Definition calculateMinutes (tz : JsDate.TimeZone) (timeEntryForm : TimeEntryFormData)
    : JsMath.num :=
  if bool_decide (startTime timeEntryForm = ""%string)
     || bool_decide (endTime timeEntryForm = ""%string)
  then JsMath.Int 0
  else
    match IsoParse.new_Date tz (startTime timeEntryForm),
          IsoParse.new_Date tz (endTime timeEntryForm) with
    | Some start, Some end_ =>
        if end_ <=? start then JsMath.Int 0
        else JsMath.Int (JsMath.round ((end_ - start) # 60000))
    | _, _ => JsMath.NaN
    end.

(** The watcher on [startTime] and [endTime]: in range mode the
    minutes follow the two times. *)
Definition on_time_change (tz : JsDate.TimeZone) (timeEntryForm : TimeEntryFormData)
    : TimeEntryFormData :=
  if isManual timeEntryForm then timeEntryForm
  else {| startTime := startTime timeEntryForm;
          endTime := endTime timeEntryForm;
          minutes := calculateMinutes tz timeEntryForm;
          notes := notes timeEntryForm;
          isManual := isManual timeEntryForm |}.

End TimeEntryForm.

(** ** Vocabulary of the statements about aggregates *)

Module Spec.

(** How many times [task] is tagged with [area]. *)
Definition occurrences (area : TaskArea.t) (task : Task.t) : Z :=
  Aggregates.count (fun a => a = area) (Task.areas task).

(** The sum of [f] over a list. *)
Definition sum_over {A} (f : A -> Z) (l : list A) : Z :=
  foldr (fun x total => f x + total) 0 l.

(** 1 for a completed task, 0 otherwise. *)
Definition is_completed (task : Task.t) : Z :=
  if decide (Task.status task = TaskStatus.completed) then 1 else 0.

(** The accumulator kept for [area] in the [areas] object
    ([areas[area]]), the empty one when the key is missing. *)
Fixpoint acc_of (area : TaskArea.t) (areas : list (TaskArea.t * Aggregates.AreaAcc.t))
    : Aggregates.AreaAcc.t :=
  match areas with
  | [] => Aggregates.empty_stats
  | (a, stats) :: rest => if decide (a = area) then stats else acc_of area rest
  end.

(** A field [f] of the accumulator to which [add_task] adds [g task]. *)
Definition additive (f : Aggregates.AreaAcc.t -> Z) (g : Task.t -> Z) : Prop :=
  f Aggregates.empty_stats = 0 /\
  forall task stats, f (Aggregates.add_task task stats) = f stats + g task.

(** The total of the field [f] over all the areas of the [areas] object. *)
Definition field_total (f : Aggregates.AreaAcc.t -> Z)
    (areas : list (TaskArea.t * Aggregates.AreaAcc.t)) : Z :=
  sum_over (fun kv => f (snd kv)) areas.

End Spec.

(** ** The week id as the specification words it *)

Module WeekIdSpec.

(** Zero-based day of the year of the civil date y-m-d. *)
Definition dayOfYear (y m d : Z) : Z :=
  Spec.sum_over (JsDate.daysInMonth y) (seqZ 1 (m - 1)) + (d - 1).

(** Weekday, 0 for Sunday, of 1 January of year [y]. *)
Definition firstDayOfYearWeekday (y : Z) : Z :=
  (JsDate.days_from_civil y 1 1 + 4) mod 7.

(** ceil((dayOfYear + firstDayOfYearWeekday + 1) / 7) *)
Definition weekNumber (y m d : Z) : Z :=
  JsMath.ceil (inject_Z (dayOfYear y m d + firstDayOfYearWeekday y + 1) / 7)%Q.

(** "{year}-W{weekNumber}", the week number padded to two digits. *)
Definition weekId (y m d : Z) : string :=
  JsString.of_int y +:+ "-W" +:+ JsString.padStart 2 "0" (JsString.of_int (weekNumber y m d)).

End WeekIdSpec.

(** ** Sample data *)

Module Samples.
Local Open Scope string_scope.

Definition task1 : Task.t :=
  {| Task.id := "task-1"; Task.weekId := "2025-W21"; Task.title := "Write report";
     Task.description := None; Task.areas := [TaskArea.work];
     Task.estimatedMinutes := 60; Task.actualMinutes := 0;
     Task.status := TaskStatus.not_started;
     Task.createdAt := "2025-05-19T08:00:00.000Z";
     Task.updatedAt := "2025-05-19T08:00:00.000Z" |}.

Definition task2 : Task.t :=
  {| Task.id := "task-2"; Task.weekId := "2025-W21"; Task.title := "Go running";
     Task.description := None; Task.areas := [TaskArea.health; TaskArea.personal];
     Task.estimatedMinutes := 10; Task.actualMinutes := 0;
     Task.status := TaskStatus.completed;
     Task.createdAt := "2025-05-19T09:00:00.000Z";
     Task.updatedAt := "2025-05-19T09:00:00.000Z" |}.

(** A task without any area and a larger estimate. *)
Definition untagged : Task.t :=
  {| Task.id := "task-3"; Task.weekId := "2025-W21"; Task.title := "Misc";
     Task.description := None; Task.areas := [];
     Task.estimatedMinutes := 100; Task.actualMinutes := 0;
     Task.status := TaskStatus.not_started;
     Task.createdAt := "2025-05-19T10:00:00.000Z";
     Task.updatedAt := "2025-05-19T10:00:00.000Z" |}.

Definition draft : TaskData.t :=
  {| TaskData.weekId := "2025-W21"; TaskData.title := "Plan sprint";
     TaskData.description := None; TaskData.areas := [TaskArea.work];
     TaskData.estimatedMinutes := 30; TaskData.status := TaskStatus.not_started |}.

Definition rename : TaskUpdates.t :=
  {| TaskUpdates.weekId := None; TaskUpdates.title := Some "Write final report";
     TaskUpdates.description := None; TaskUpdates.areas := None;
     TaskUpdates.estimatedMinutes := None; TaskUpdates.actualMinutes := None;
     TaskUpdates.status := None; TaskUpdates.updatedAt := None |}.

(** 2025-05-21T14:00:00.000Z on all three readings. *)
Definition clock : TaskStore.Clock :=
  {| TaskStore.Date_now := 1747836000000;
     TaskStore.createdAt_time := 1747836000000;
     TaskStore.updatedAt_time := 1747836000000 |}.

Definition task_store (tasks : list Task.t) : TaskStore.State :=
  {| TaskStore.tasks := tasks; TaskStore.isLoading := false; TaskStore.error := None |}.

(** What [fetch] rejects with when the server cannot be reached. *)
Definition network_down : Async.Thrown := Async.JsError "Failed to fetch".

Definition entry1 : TimeEntry.t :=
  {| TimeEntry.id := "entry-1"; TimeEntry.taskId := "task-1";
     TimeEntry.startTime := "2025-05-21T14:00:00Z"; TimeEntry.endTime := None;
     TimeEntry.minutes := 45; TimeEntry.isManual := true; TimeEntry.notes := None;
     TimeEntry.createdAt := "2025-05-21T15:00:00.000Z" |}.

Definition no_entry_updates : TimeEntryUpdates.t :=
  {| TimeEntryUpdates.id := None; TimeEntryUpdates.taskId := None;
     TimeEntryUpdates.startTime := None; TimeEntryUpdates.endTime := None;
     TimeEntryUpdates.minutes := None; TimeEntryUpdates.isManual := None;
     TimeEntryUpdates.notes := None; TimeEntryUpdates.createdAt := None |}.

Definition entry_store (entries : list TimeEntry.t) : TimeEntryStore.State :=
  {| TimeEntryStore.timeEntries := entries; TimeEntryStore.isLoading := false;
     TimeEntryStore.error := None |}.

Definition no_content : Async.Response unit :=
  {| Async.status := 200; Async.json := Async.Normal tt |}.

Definition week21 : Week.t :=
  {| Week.id := "2025-W21"; Week.title := None; Week.description := None;
     Week.startDate := "2025-05-19"; Week.endDate := "2025-05-25";
     Week.totalPlannedMinutes := 0; Week.totalActualMinutes := 0;
     Week.isCurrentWeek := false;
     Week.createdAt := "2025-05-18T20:00:00.000Z";
     Week.updatedAt := "2025-05-18T20:00:00.000Z" |}.

(** The integer nearest to [100 * a / b] in exact arithmetic, halves
    up, used where a concrete rounding function is needed to evaluate
    an aggregate.  [Math.round((a / b) * 100)] rounds the quotient
    and the product to doubles first and can differ from it at a
    tie: 14 against 15 for 29 and 200. *)
Definition percent_exact (a b : Z) : Z := JsMath.round (100 * a # Z.to_pos b).

Definition range_form (startTime endTime : string) : TimeEntryForm.TimeEntryFormData :=
  {| TimeEntryForm.startTime := startTime; TimeEntryForm.endTime := endTime;
     TimeEntryForm.minutes := JsMath.Int 60; TimeEntryForm.notes := "";
     TimeEntryForm.isManual := false |}.

End Samples.

(** ** Getters and helpers of the task store ([useTaskStore]) *)

Module TaskGetters.

(** The display name of an area, which is its value in the source. *)
Definition area_name (area : TaskArea.t) : string :=
  match area with
  | TaskArea.work => "work"
  | TaskArea.personal => "personal"
  | TaskArea.learning => "learning"
  | TaskArea.health => "health"
  | TaskArea.social => "social"
  | TaskArea.creative => "creative"
  end.

Definition taskCount (s : TaskStore.State) : Z :=
  Z.of_nat (length (TaskStore.tasks s)).

(** [acc[key] = (acc[key] || 0) + 1] on an object whose keys are kept
    in insertion order. *)
Fixpoint increment {K} `{EqDecision K} (key : K) (acc : list (K * Z)) : list (K * Z) :=
  match acc with
  | [] => [(key, 0 + 1)]
  | (k, n) :: rest =>
      if decide (k = key) then (k, JsMath.or_zero n + 1) :: rest
      else (k, n) :: increment key rest
  end.

Definition tasksByStatus (s : TaskStore.State) : list (TaskStatus.t * Z) :=
  foldl (fun acc task => increment (Task.status task) acc) [] (TaskStore.tasks s).

Definition tasksByArea (s : TaskStore.State) : list (TaskArea.t * Z) :=
  foldl (fun areaCount task =>
           foldl (fun areaCount area => increment area areaCount) areaCount (Task.areas task))
        [] (TaskStore.tasks s).

(** [[...new Set(values)]]: the values in the order of their first
    occurrence. *)
Definition Set_values {A} `{EqDecision A} (values : list A) : list A :=
  foldl (fun set x => if decide (x ∈ set) then set else set ++ [x]) [] values.

(** The order of the default [sort()], which compares the strings. *)
Definition area_le (a b : TaskArea.t) : Prop := String.le (area_name a) (area_name b).

Global Instance area_le_dec : RelDecision area_le.
Proof. intros a b. unfold area_le. apply _. Defined.

(** Area names are pairwise different, so the sorted array does not
    depend on the sorting algorithm. *)
Definition uniqueAreas (s : TaskStore.State) : list TaskArea.t :=
  let allAreas := flat_map Task.areas (TaskStore.tasks s) in
  merge_sort area_le (Set_values allAreas).

(** [find(...) || null]. *)
Definition getTaskById (s : TaskStore.State) (taskId : string) : option Task.t :=
  Async.find (fun task => Task.id task = taskId) (TaskStore.tasks s).

Definition getTasksByWeek (s : TaskStore.State) (weekId : string) : list Task.t :=
  filter (fun task => Task.weekId task = weekId) (TaskStore.tasks s).

(** [{ status }] and [{ actualMinutes }] as partial updates. *)
Definition only_status (status : TaskStatus.t) : TaskUpdates.t :=
  {| TaskUpdates.weekId := None; TaskUpdates.title := None; TaskUpdates.description := None;
     TaskUpdates.areas := None; TaskUpdates.estimatedMinutes := None;
     TaskUpdates.actualMinutes := None; TaskUpdates.status := Some status;
     TaskUpdates.updatedAt := None |}.

Definition only_actualMinutes (actualMinutes : Z) : TaskUpdates.t :=
  {| TaskUpdates.weekId := None; TaskUpdates.title := None; TaskUpdates.description := None;
     TaskUpdates.areas := None; TaskUpdates.estimatedMinutes := None;
     TaskUpdates.actualMinutes := Some actualMinutes; TaskUpdates.status := None;
     TaskUpdates.updatedAt := None |}.

Definition updateTaskStatus (now : Z) (taskId : string) (status : TaskStatus.t)
    (reply : Async.FetchReply Task.t) : TaskStore.Action Task.t :=
  TaskStore.updateTask now taskId (only_status status) reply.

Definition updateTaskTime (now : Z) (taskId : string) (actualMinutes : Z)
    (reply : Async.FetchReply Task.t) : TaskStore.Action Task.t :=
  TaskStore.updateTask now taskId (only_actualMinutes actualMinutes) reply.

(** *** [filterTasks] *)

Inductive StatusFilter := AllStatuses | OnlyStatus (status : TaskStatus.t).
Inductive AreaFilter := AllAreas | OnlyArea (area : TaskArea.t).

(** [TaskFilters]; [None] is an absent property. *)
Record TaskFilters := {
  weekId : option string;
  status : option StatusFilter;
  area : option AreaFilter;
  searchTerm : option string
}.

(** [haystack.includes(needle)]. *)
Fixpoint includes (needle haystack : string) : bool :=
  String.prefix needle haystack
  || match haystack with
     | EmptyString => false
     | String _ rest => includes needle rest
     end.

(** A string is truthy when it is not empty. *)
Definition truthy (s : option string) : bool :=
  match s with
  | Some s => negb (bool_decide (s = ""%string))
  | None => false
  end.

Section FilterTasks.
(** [String.prototype.toLowerCase], whose case mapping is the
    runtime's. *)
Variable toLowerCase : string -> string.

(** The predicate of the [filter] of [filterTasks]. *)
Definition keeps (filters : TaskFilters) (task : Task.t) : bool :=
  (* Week filter *)
  if truthy (weekId filters)
     && negb (bool_decide (weekId filters = Some "all"%string))
     && negb (bool_decide (Some (Task.weekId task) = weekId filters))
  then false
  (* Status filter *)
  else if match status filters with
          | Some (OnlyStatus status) => negb (bool_decide (Task.status task = status))
          | _ => false
          end
  then false
  (* Area filter *)
  else if match area filters with
          | Some (OnlyArea area) => negb (bool_decide (area ∈ Task.areas task))
          | _ => false
          end
  then false
  (* Search term filter *)
  else if truthy (searchTerm filters)
  then
    let searchLower := toLowerCase (default ""%string (searchTerm filters)) in
    let matchesTitle := includes searchLower (toLowerCase (Task.title task)) in
    let matchesDescription :=
      match Task.description task with
      | Some description => includes searchLower (toLowerCase description)
      | None => false
      end in
    if negb matchesTitle && negb matchesDescription then false else true
  else true.

Definition filterTasks (s : TaskStore.State) (filters : TaskFilters) : list Task.t :=
  filter (fun task => keeps filters task = true) (TaskStore.tasks s).
End FilterTasks.

End TaskGetters.

(** ** Getters and helpers of the time-entry store ([useTimeEntryStore]) *)

Module TimeEntryGetters.

Definition entryCount (s : TimeEntryStore.State) : Z :=
  Z.of_nat (length (TimeEntryStore.timeEntries s)).

Definition totalMinutes (s : TimeEntryStore.State) : Z :=
  foldl (fun sum entry => sum + TimeEntry.minutes entry) 0 (TimeEntryStore.timeEntries s).

Definition getEntriesByTaskId (s : TimeEntryStore.State) (taskId : string) : list TimeEntry.t :=
  filter (fun entry => TimeEntry.taskId entry = taskId) (TimeEntryStore.timeEntries s).

(** [a >= b] and [a <= b] on dates: false as soon as one side is an
    invalid date. *)
Definition date_le (a b : option Z) : bool :=
  match a, b with
  | Some a, Some b => a <=? b
  | _, _ => false
  end.

Definition getEntriesByDateRange (tz : JsDate.TimeZone) (s : TimeEntryStore.State)
    (startDate endDate : string) : list TimeEntry.t :=
  let start := IsoParse.new_Date tz startDate in
  let end_ := IsoParse.new_Date tz endDate in
  filter (fun entry =>
            let entryDate := IsoParse.new_Date tz (TimeEntry.startTime entry) in
            date_le start entryDate && date_le entryDate end_ = true)
         (TimeEntryStore.timeEntries s).

Definition getEntriesByDate (s : TimeEntryStore.State) (date : string) : list TimeEntry.t :=
  filter (fun entry =>
            let entryDate := JsString.split_head "T" (TimeEntry.startTime entry) in
            entryDate = date)
         (TimeEntryStore.timeEntries s).

End TimeEntryGetters.

(** ** More sample data *)

Module MoreSamples.
Local Open Scope string_scope.

(** The record the server answers a creation with: the optimistic
    record itself. *)
Definition created : Task.t := TaskStore.newTask_of Samples.clock Samples.draft.

Definition answer {B} (status : Z) (body : B) : Async.Response B :=
  {| Async.status := status; Async.json := Async.Normal body |}.

Definition server_error {B} : Async.Response B :=
  {| Async.status := 500; Async.json := Async.Throw (Async.JsError "Unexpected end of JSON input") |}.

Definition unreadable {B} : Async.Response B :=
  {| Async.status := 200; Async.json := Async.Throw (Async.JsError "Unexpected token < in JSON") |}.

Definition renamed : Task.t :=
  TaskStore.updatedTask_of 1747836000000 Samples.task1 Samples.rename.

Definition entry_draft : TimeEntryData.t :=
  {| TimeEntryData.taskId := "task-1"; TimeEntryData.startTime := "2025-05-22T09:00:00.000Z";
     TimeEntryData.endTime := None; TimeEntryData.minutes := 30;
     TimeEntryData.isManual := true; TimeEntryData.notes := None |}.

Definition entry_clock : TimeEntryStore.Clock :=
  {| TimeEntryStore.Date_now := 1747836000000;
     TimeEntryStore.createdAt_time := 1747836000000 |}.

Definition created_entry : TimeEntry.t :=
  TimeEntryStore.newEntry_of entry_clock entry_draft.

End MoreSamples.

(** ** Vocabulary of the statements about counting getters *)

Module TallySpec.

(** The number stored under [key] in a counting object, 0 when the key
    is missing. *)
Fixpoint value_of {K} `{EqDecision K} (key : K) (acc : list (K * Z)) : Z :=
  match acc with
  | [] => 0
  | (k, n) :: rest => if decide (k = key) then n else value_of key rest
  end.

(** How many times [key] occurs in a list of keys. *)
Definition occurrences_of {K} `{EqDecision K} (key : K) (keys : list K) : Z :=
  Z.of_nat (length (filter (fun k => k = key) keys)).

End TallySpec.

(** ** Charts of the reflection and week pages *)

Module Charts.

(** [Math.max(...values)]; [None] stands for [-Infinity], the value
    for no argument. *)
Definition Math_max (values : list Z) : option Z :=
  foldl (fun max v => match max with
                      | None => Some v
                      | Some m => Some (Z.max m v)
                      end)
        None values.

Definition maxDailyMinutes (dailyTimeDistribution : list Aggregates.DayStats.t) : Z :=
  match Math_max (map Aggregates.DayStats.minutes dailyTimeDistribution) with
  | Some max => if max >? 0 then max else 1 (* Prevent division by zero *)
  | None => 1
  end.

End Charts.

(** ** The planner page: week selection and deletion *)

Module Planner.
Import Async.
Local Open Scope act_scope.

(** The refs [weeks] and [selectedWeekId]. *)
Record State := {
  weeks : list Week.t;
  selectedWeekId : string
}.

Definition select (id : string) (st : State) : State :=
  {| weeks := weeks st; selectedWeekId := id |}.

Definition selectedWeek (st : State) : option Week.t :=
  find (fun w => Week.id w = selectedWeekId st) (weeks st).

Definition currentWeekIndex (st : State) : Z :=
  if decide (selectedWeekId st = "") then -1
  else match findIndex (fun w => Week.id w = selectedWeekId st) (weeks st) with
       | Some i => Z.of_nat i
       | None => -1
       end.

Definition canGoToPrevious (st : State) : bool := currentWeekIndex st >? 0.

Definition canGoToNext (st : State) : bool :=
  (currentWeekIndex st >=? 0)
  && (currentWeekIndex st <? JsMath.or_zero (Z.of_nat (length (weeks st))) - 1).

(** [weeks[i].id]; [None] stands for the [TypeError] of reading a
    property of [undefined]. *)
Definition id_at (ws : list Week.t) (i : Z) : option string :=
  if i <? 0 then None else Week.id <$> ws !! Z.to_nat i.

Definition goToPreviousWeek (st : State) : option State :=
  if canGoToPrevious st
  then id ← id_at (weeks st) (currentWeekIndex st - 1); Some (select id st)
  else Some st.

Definition goToNextWeek (st : State) : option State :=
  if canGoToNext st
  then id ← id_at (weeks st) (currentWeekIndex st + 1); Some (select id st)
  else Some st.

Definition goToCurrentWeek (st : State) : State :=
  match find (fun w => Week.isCurrentWeek w = true) (weeks st) with
  | Some currentWeek => select (Week.id currentWeek) st
  | None => st
  end.

(** The watcher on [weeks]: with no week selected, select the current
    week, or the first one. *)
Definition on_weeks_change (st : State) : State :=
  match weeks st with
  | [] => st
  | first :: _ =>
      if decide (selectedWeekId st = "")
      then
        match find (fun w => Week.isCurrentWeek w = true) (weeks st) with
        | Some currentWeek =>
            if decide (Week.id currentWeek = "") then select (Week.id first) st
            else select (Week.id currentWeek) st
        | None => select (Week.id first) st
        end
      else st
  end.

Definition http_error {B} (response : Response B) : Thrown :=
  JsError ("HTTP error! status: " +:+ JsString.of_int (status response)).

Definition deleteWeek (weekId : string) (reply : FetchReply unit) : Act State Week.t bool :=
  try_catch_finally
    (response <- fetch {| method := DELETE; url := API_BASE_URL +:+ "/weeks/" +:+ weekId;
                          body := None |} reply ;;
     when (negb (ok response)) (throw (http_error response)) ;;
     (* Remove from local state *)
     modify (fun st => {| weeks := filter (fun week => Week.id week <> weekId) (weeks st);
                          selectedWeekId := selectedWeekId st |}) ;;
     (* If deleted week was selected, select another week *)
     st <- get ;;
     when (bool_decide (selectedWeekId st = weekId))
          (modify (select (match weeks st with
                           | first :: _ => Week.id first
                           | [] => ""
                           end))) ;;
     ret true)
    (fun err => throw err)
    (ret tt).

Definition run {A} (action : Act State Week.t A) (st : State)
    : Completion A * World State Week.t :=
  action {| store := st; requests := [] |}.

Definition selectedWeekTasks (tasks : TaskStore.State) (st : State) : list Task.t :=
  if decide (selectedWeekId st = "") then []
  else TaskGetters.getTasksByWeek tasks (selectedWeekId st).

Inductive WeekStatus := no_tasks | completed | in_progress | not_started.

Definition getWeekStatus (selectedWeekTasks : list Task.t) : WeekStatus :=
  let tasksInWeek := selectedWeekTasks in
  let completedTasks :=
    Aggregates.count (fun t => Task.status t = TaskStatus.completed) tasksInWeek in
  let totalTasks := Z.of_nat (length tasksInWeek) in
  if totalTasks =? 0 then no_tasks
  else if completedTasks =? totalTasks then completed
  else if completedTasks >? 0 then in_progress
  else not_started.

End Planner.

(** ** The week form ([WeekFormModal.vue]) *)

Module WeekFormModal.

Record WeekFormData := {
  startDate : string;
  description : string
}.

(** The computed [endDate].  [None] stands for the [RangeError] that
    [toISOString] throws on an invalid date. *)
Definition endDate (tz : JsDate.TimeZone) (weekForm : WeekFormData) : option string :=
  if decide (startDate weekForm = ""%string) then Some ""%string
  else
    start ← IsoParse.new_Date tz (startDate weekForm);
    (* Week is 7 days, so add 6 *)
    let end_ := JsDate.setDate tz start (JsDate.getDate tz start + 6) in
    Some (JsString.split_head "T" (JsDate.toISOString end_)).

(** The computed [isFormValid], as the truth value the template and
    [saveWeek] read. *)
Definition isFormValid (tz : JsDate.TimeZone) (weekForm : WeekFormData) : option bool :=
  if decide (startDate weekForm = ""%string) then Some false
  else
    endDate ← endDate tz weekForm;
    Some (negb (bool_decide (endDate = ""%string))
          && TimeEntryGetters.date_le (IsoParse.new_Date tz (startDate weekForm))
                                      (IsoParse.new_Date tz endDate)).

(** [initializeForm()] with [today] the reading of the clock. *)
Definition initializeForm (tz : JsDate.TimeZone) (today : Z) (currentWeekForEditing : option Week.t)
    : WeekFormData :=
  match currentWeekForEditing with
  | Some week =>
      (* Pre-fill form with existing week data *)
      {| startDate := Week.startDate week;
         description := default ""%string (Week.description week) |}
  | None =>
      (* Start of current week (Sunday) *)
      let startOfWeek :=
        JsDate.setDate tz today (JsDate.getDate tz today - JsDate.getDay tz today) in
      {| startDate := JsString.split_head "T" (JsDate.toISOString startOfWeek);
         description := ""%string |}
  end.

End WeekFormModal.

(** ** The time-entry form ([TimeEntryFormModal.vue]): filling and saving *)

Module TimeEntryFormModal.
Import TimeEntryForm.

(** [s.slice(0, n)]. *)
Fixpoint slice_to (n : nat) (s : string) : string :=
  match n, s with
  | S n', String c s' => String c (slice_to n' s')
  | _, _ => EmptyString
  end.

Definition isFormValid (timeEntryForm : TimeEntryFormData) : bool :=
  if isManual timeEntryForm
  then match minutes timeEntryForm with
       | JsMath.Int m => m >? 0
       | JsMath.NaN => false
       end
       && negb (bool_decide (startTime timeEntryForm = ""%string))
  else negb (bool_decide (startTime timeEntryForm = ""%string))
       && negb (bool_decide (endTime timeEntryForm = ""%string)).

(** [initializeForm()] with [now] the reading of the clock. *)
Definition initializeForm (now : Z) (timeEntry : option TimeEntry.t) : TimeEntryFormData :=
  match timeEntry with
  | Some entry =>
      (* Pre-fill form with existing time entry data *)
      {| startTime := slice_to 16 (TimeEntry.startTime entry);
         endTime := match TimeEntry.endTime entry with
                    | Some endTime => slice_to 16 endTime
                    | None => ""%string
                    end;
         minutes := JsMath.Int (TimeEntry.minutes entry);
         notes := default ""%string (TimeEntry.notes entry);
         isManual := TimeEntry.isManual entry |}
  | None =>
      {| startTime := slice_to 16 (JsDate.toISOString now);
         endTime := ""%string;
         minutes := JsMath.Int 30;
         notes := ""%string;
         isManual := true |}
  end.

(** The object [entryData] of [saveTimeEntry]. *)
Record EntryData := {
  entry_taskId : string;
  entry_startTime : string;
  entry_endTime : option string;
  entry_minutes : JsMath.num;
  entry_isManual : bool;
  entry_notes : option string
}.

Section Save.
(** [String.prototype.trim]. *)
Variable trim : string -> string.

(** [None] stands for the [RangeError] that [toISOString] throws on
    an invalid date; [saveTimeEntry] catches and logs it. *)
Definition entryData (tz : JsDate.TimeZone) (taskId : string) (timeEntryForm : TimeEntryFormData)
    : option EntryData :=
  startTime ← JsDate.toISOString <$> IsoParse.new_Date tz (startTime timeEntryForm);
  endTime ← (if decide (endTime timeEntryForm = ""%string) then Some None
             else Some <$> (JsDate.toISOString
                              <$> IsoParse.new_Date tz (endTime timeEntryForm)));
  Some {| entry_taskId := taskId;
          entry_startTime := startTime;
          entry_endTime := endTime;
          entry_minutes := if isManual timeEntryForm then minutes timeEntryForm
                           else calculateMinutes tz timeEntryForm;
          entry_isManual := isManual timeEntryForm;
          entry_notes := if decide (trim (notes timeEntryForm) = ""%string) then None
                         else Some (trim (notes timeEntryForm)) |}.
End Save.

End TimeEntryFormModal.

(** ** Durations as text ([formatTime] of the pages and forms) *)

Module Display.

(** [formatTime(minutes)] for a whole number of minutes.  [%] takes
    the sign of the dividend, [Math.floor] rounds down. *)
Definition formatTime (minutes : Z) : string :=
  if minutes =? 0 then "0 min"
  else
    let hours := minutes / 60 in
    let mins := Z.rem minutes 60 in
    if hours =? 0 then JsString.of_int mins +:+ " min"
    else if mins =? 0 then JsString.of_int hours +:+ "h"
    else JsString.of_int hours +:+ "h " +:+ JsString.of_int mins +:+ "min".

End Display.

(** ** The task form ([TaskFormModal.vue]) *)

Module TaskFormModal.

(** [toggleArea(area)] on the [areas] of the form. *)
Definition toggleArea (area : TaskArea.t) (areas : list TaskArea.t) : list TaskArea.t :=
  match Async.findIndex (fun a => a = area) areas with
  | None => areas ++ [area]
  | Some index => delete index areas
  end.

End TaskFormModal.

(** ** Time entries of a task on the tasks page and on the task page *)

Module TaskEntries.

Section Sorting.
(** [Array.prototype.sort] with the comparator of
    [getTaskTimeEntries] (newest start first).  Which arrangement it
    returns depends on the engine when a start time is not a valid
    date; whatever it is, it is an arrangement of the same entries. *)
Variable sort : list TimeEntry.t -> list TimeEntry.t.

Definition getTaskTimeEntries (s : TimeEntryStore.State) (taskId : string)
    : list TimeEntry.t :=
  sort (filter (fun entry => TimeEntry.taskId entry = taskId)
               (TimeEntryStore.timeEntries s)).

Definition getTaskTotalTimeFromEntries (s : TimeEntryStore.State) (taskId : string) : Z :=
  let entries := getTaskTimeEntries s taskId in
  foldl (fun total entry => total + TimeEntry.minutes entry) 0 entries.

Definition getTaskTimeEntryCount (s : TimeEntryStore.State) (taskId : string) : Z :=
  Z.of_nat (length (getTaskTimeEntries s taskId)).
End Sorting.

(** [taskTimeEntries] of [TaskDetailPage.vue]. *)
Definition taskTimeEntries (s : TimeEntryStore.State) (taskId : string) : list TimeEntry.t :=
  if decide (taskId = ""%string) then []
  else filter (fun entry => TimeEntry.taskId entry = taskId) (TimeEntryStore.timeEntries s).

End TaskEntries.

(** ** Sample data for the pages and forms *)

Module PageSamples.

Definition week22 : Week.t :=
  {| Week.id := "2025-W22"; Week.title := None; Week.description := None;
     Week.startDate := "2025-05-26"; Week.endDate := "2025-06-01";
     Week.totalPlannedMinutes := 0; Week.totalActualMinutes := 0;
     Week.isCurrentWeek := true;
     Week.createdAt := "2025-05-25T20:00:00.000Z";
     Week.updatedAt := "2025-05-25T20:00:00.000Z" |}.

Definition planner : Planner.State :=
  {| Planner.weeks := [Samples.week21; week22]; Planner.selectedWeekId := "2025-W21" |}.

Definition week_form : WeekFormModal.WeekFormData :=
  {| WeekFormModal.startDate := "2025-05-19"; WeekFormModal.description := "" |}.

(** 2025-05-22T09:00:00.000Z and 2025-05-22T12:34:56.789Z as time
    values. *)
Definition morning : Z := 1747904400000.
Definition noon : Z := 1747917296789.

End PageSamples.

(** ** The confirmation modals of the pages ([createModalState]) *)

Module Modal.
Import Async.

(** The refs [isOpen], [editingItem] and [isLoading]. *)
Record State (T : Type) := {
  isOpen : bool;
  editingItem : option T;
  isLoading : bool
}.
Arguments isOpen {T} _.
Arguments editingItem {T} _.
Arguments isLoading {T} _.

Definition open {T} (item : option T) (m : State T) : State T :=
  {| isOpen := true; editingItem := item; isLoading := isLoading m |}.

(** [close()] of a modal configured without [onClose], as the delete
    modals are. *)
Definition close {T} (m : State T) : State T :=
  {| isOpen := false; editingItem := None; isLoading := false |}.

Definition set_isLoading {T} (b : bool) (m : State T) : State T :=
  {| isOpen := isOpen m; editingItem := editingItem m; isLoading := b |}.

(** [confirm()]: the modal state and the world the action ran in. *)
Definition confirm {T S R} (confirmAction : option (T -> Act S R unit)) (m : State T)
    (w : World S R) : State T * World S R :=
  match confirmAction, editingItem m with
  | Some action, Some item =>
      let m := set_isLoading true m in
      match action item w with
      | (Normal _, w') => (close m, w')
      | (Throw _, w') =>
          (* Keep modal open on error so user can retry *)
          (set_isLoading false m, w')
      end
  | _, _ => (m, w)
  end.

(** The [confirmAction] of [taskDeleteModal]. *)
Definition taskDelete (reply : FetchReply unit) (task : Task.t) : TaskStore.Action unit :=
  bind (TaskStore.deleteTask (Task.id task) reply) (fun _ => ret tt).

End Modal.

Module ModalSamples.

(** The delete modal, open on the first sample task. *)
Definition confirming : Modal.State Task.t :=
  {| Modal.isOpen := true; Modal.editingItem := Some Samples.task1;
     Modal.isLoading := false |}.

End ModalSamples.

(** ** The daily distribution as the specification words it *)

Module DailySpec.

(** The seven consecutive days that start at the day number [start],
    each with its ISO date and the sum of the minutes of the entries
    whose [startTime] begins with that date. *)
Definition distribution (start : Z) (entries : list TimeEntry.t) : list (string * Z) :=
  map (fun i =>
         let date := JsDate.isoDateOfDay (start + i) in
         (date,
          Spec.sum_over TimeEntry.minutes
            (filter (fun entry => JsString.split_head "T" (TimeEntry.startTime entry) = date)
                    entries)))
      (seqZ 0 7).

End DailySpec.

(** ** Sample data around a change of clocks *)

Module ZoneSamples.
Local Open Scope string_scope.

(** One hour east of UTC until 2025-03-30T01:00:00Z and two hours
    from then on, as Europe/Paris when summer time began in 2025. *)
Definition paris_2025 : JsDate.TimeZone :=
  JsDate.changing (JsDate.days_from_civil 2025 3 30 * JsDate.msPerDay + JsDate.msPerHour)
                  60 120.

Definition week14 : Week.t :=
  {| Week.id := "2025-W14"; Week.title := None; Week.description := None;
     Week.startDate := "2025-03-30"; Week.endDate := "2025-04-05";
     Week.totalPlannedMinutes := 0; Week.totalActualMinutes := 0;
     Week.isCurrentWeek := false;
     Week.createdAt := "2025-03-29T20:00:00.000Z";
     Week.updatedAt := "2025-03-29T20:00:00.000Z" |}.

Definition task7 : Task.t :=
  {| Task.id := "task-7"; Task.weekId := "2025-W14"; Task.title := "Spring cleaning";
     Task.description := None; Task.areas := [TaskArea.personal];
     Task.estimatedMinutes := 90; Task.actualMinutes := 0;
     Task.status := TaskStatus.in_progress;
     Task.createdAt := "2025-03-29T20:05:00.000Z";
     Task.updatedAt := "2025-03-29T20:05:00.000Z" |}.

(** Thirty minutes on Sunday 30 March, the first day of the week. *)
Definition entry_sunday : TimeEntry.t :=
  {| TimeEntry.id := "entry-7"; TimeEntry.taskId := "task-7";
     TimeEntry.startTime := "2025-03-30T09:00:00.000Z"; TimeEntry.endTime := None;
     TimeEntry.minutes := 30; TimeEntry.isManual := true; TimeEntry.notes := None;
     TimeEntry.createdAt := "2025-03-30T09:30:00.000Z" |}.

(** Forty-five minutes on Saturday 5 April, its last day. *)
Definition entry_saturday : TimeEntry.t :=
  {| TimeEntry.id := "entry-8"; TimeEntry.taskId := "task-7";
     TimeEntry.startTime := "2025-04-05T10:00:00.000Z"; TimeEntry.endTime := None;
     TimeEntry.minutes := 45; TimeEntry.isManual := true; TimeEntry.notes := None;
     TimeEntry.createdAt := "2025-04-05T10:45:00.000Z" |}.

(** Five hours west of UTC until 2025-03-09T07:00:00Z and four hours
    from then on, as America/New_York when summer time began in
    2025. *)
Definition new_york_2025 : JsDate.TimeZone :=
  JsDate.changing (JsDate.days_from_civil 2025 3 9 * JsDate.msPerDay + 7 * JsDate.msPerHour)
                  (-300) (-240).

(** A week record whose start date is missing. *)
Definition week_undated : Week.t :=
  {| Week.id := "2025-W22"; Week.title := None; Week.description := None;
     Week.startDate := ""; Week.endDate := "";
     Week.totalPlannedMinutes := 0; Week.totalActualMinutes := 0;
     Week.isCurrentWeek := false;
     Week.createdAt := "2025-05-25T20:00:00.000Z";
     Week.updatedAt := "2025-05-25T20:00:00.000Z" |}.

End ZoneSamples.

(** * Properties *)

(** ** Store actions *)

Section StoreProperties.
Import Async.

(** Unfolds an action down to the state it settles in. *)
Ltac run_action :=
  unfold TaskStore.run, TimeEntryStore.run,
    TaskStore.fetchTasks, TaskStore.createTask, TaskStore.updateTask, TaskStore.deleteTask,
    TimeEntryStore.fetchTimeEntries, TimeEntryStore.createTimeEntry,
    TimeEntryStore.updateTimeEntry, TimeEntryStore.deleteTimeEntry,
    TaskStore.get_tasks, TaskStore.set_tasks, TaskStore.set_error, TaskStore.set_isLoading,
    TimeEntryStore.get_timeEntries, TimeEntryStore.set_timeEntries,
    TimeEntryStore.set_error, TimeEntryStore.set_isLoading,
    try_catch_finally, when, bind, ret, throw, get, modify, fetch, await_json,
    find, findIndex;
  cbn [store requests fst snd TaskStore.tasks TaskStore.isLoading TaskStore.error
       TimeEntryStore.timeEntries TimeEntryStore.isLoading TimeEntryStore.error].

(** *** List facts behind the rollbacks *)

Lemma filter_all {A} (P : A -> Prop) `{!forall x, Decision (P x)} (l : list A) :
  Forall P l -> filter P l = l.
Proof.
  induction 1 as [|y l Hy Hl IH]; [reflexivity|].
  rewrite filter_cons_True by assumption. now rewrite IH.
Qed.

Lemma filter_snoc_rejected {A} (P : A -> Prop) `{!forall x, Decision (P x)} (l : list A) (x : A) :
  ~ P x -> Forall P l -> filter P (l ++ [x]) = l.
Proof.
  intros Hx Hl. rewrite filter_app, (filter_all P l Hl).
  rewrite filter_cons_False by assumption. rewrite filter_nil. apply app_nil_r.
Qed.

Lemma insert_back {A} (l : list A) (i : nat) (x y : A) :
  l !! i = Some x -> <[i := x]> (<[i := y]> l) = l.
Proof.
  revert i. induction l as [|z l IH]; intros [|i] H; cbn in *; try discriminate.
  - now inversion H.
  - f_equal. now apply IH.
Qed.

Lemma splice_in_delete {A} (l : list A) (i : nat) (x : A) :
  l !! i = Some x -> splice_in i x (delete i l) = l.
Proof.
  unfold splice_in. revert i.
  induction l as [|z l IH]; intros [|i] H; cbn in *; try discriminate.
  - now inversion H.
  - f_equal. now apply IH.
Qed.

Lemma list_find_absent {A} (P : A -> Prop) `{!forall x, Decision (P x)} (l : list A) :
  Forall (fun x => ~ P x) l -> list_find P l = None.
Proof. intros Hl. now apply list_find_None. Qed.

(** *** What each failing path of the task store leaves behind *)

Lemma createTask_fetch_rejects_run clock taskData e s :
  TaskStore.run (TaskStore.createTask clock taskData (Rejects e)) s =
  (Throw e,
   {| store :=
        {| TaskStore.tasks := TaskStore.tasks s ++ [TaskStore.newTask_of clock taskData];
           TaskStore.isLoading := false;
           TaskStore.error := Some (message_or e "Failed to create task") |};
      requests :=
        [ {| method := POST; url := API_BASE_URL +:+ "/tasks";
             body := Some (TaskStore.newTask_of clock taskData) |} ] |}).
Proof. run_action. reflexivity. Qed.

(** With a non-2xx response the optimistic record is filtered out
    again; the collection is restored when no other record carries
    the generated id. *)
Lemma createTask_non_2xx_rolls_back clock taskData (r : Response Task.t) s :
  ok r = false ->
  Forall (fun task => Task.id task <> Task.id (TaskStore.newTask_of clock taskData))
         (TaskStore.tasks s) ->
  let '(c, w) := TaskStore.run (TaskStore.createTask clock taskData (Responds r)) s in
  c = Throw (TaskStore.http_error r) /\ TaskStore.tasks (store w) = TaskStore.tasks s.
Proof.
  intros Hok Hfresh. run_action. rewrite Hok. cbn. split; [reflexivity|].
  apply filter_snoc_rejected; [|assumption]. intros H. now apply H.
Qed.

(** When a record already carries the generated id, the filter of the
    rollback removes that record too. *)
Example createTask_non_2xx_id_collision :
  let existing := TaskStore.newTask_of Samples.clock Samples.draft in
  TaskStore.tasks
    (store (snd (TaskStore.run
                   (TaskStore.createTask Samples.clock Samples.draft
                      (Responds {| status := 500; json := Throw NonError |}))
                   (Samples.task_store [existing]))))
  = [].
Proof. vm_compute. reflexivity. Qed.

Lemma updateTask_fetch_rejects_run now taskId updates e s i originalTask :
  list_find (fun task => Task.id task = taskId) (TaskStore.tasks s) = Some (i, originalTask) ->
  TaskStore.run (TaskStore.updateTask now taskId updates (Rejects e)) s =
  (Throw e,
   {| store :=
        {| TaskStore.tasks :=
             <[i := TaskStore.updatedTask_of now originalTask updates]> (TaskStore.tasks s);
           TaskStore.isLoading := false;
           TaskStore.error := Some (message_or e "Failed to update task") |};
      requests :=
        [ {| method := PUT; url := API_BASE_URL +:+ "/tasks/" +:+ taskId;
             body := Some (TaskStore.updatedTask_of now originalTask updates) |} ] |}).
Proof. intros H. run_action. rewrite H. reflexivity. Qed.

Lemma updateTask_non_2xx_rolls_back now taskId updates (r : Response Task.t) s i originalTask :
  list_find (fun task => Task.id task = taskId) (TaskStore.tasks s) = Some (i, originalTask) ->
  ok r = false ->
  let '(c, w) := TaskStore.run (TaskStore.updateTask now taskId updates (Responds r)) s in
  c = Throw (TaskStore.http_error r) /\ TaskStore.tasks (store w) = TaskStore.tasks s.
Proof.
  intros H Hok. run_action. rewrite H. cbn. rewrite Hok. cbn. split; [reflexivity|].
  apply insert_back. apply list_find_Some in H. tauto.
Qed.

Lemma deleteTask_fetch_rejects_run taskId e s i deletedTask :
  list_find (fun task => Task.id task = taskId) (TaskStore.tasks s) = Some (i, deletedTask) ->
  TaskStore.run (TaskStore.deleteTask taskId (Rejects e)) s =
  (Throw e,
   {| store :=
        {| TaskStore.tasks := delete i (TaskStore.tasks s);
           TaskStore.isLoading := false;
           TaskStore.error := Some (message_or e "Failed to delete task") |};
      requests :=
        [ {| method := DELETE; url := API_BASE_URL +:+ "/tasks/" +:+ taskId;
             body := None |} ] |}).
Proof. intros H. run_action. rewrite H. reflexivity. Qed.

Lemma deleteTask_non_2xx_rolls_back taskId (r : Response unit) s i deletedTask :
  list_find (fun task => Task.id task = taskId) (TaskStore.tasks s) = Some (i, deletedTask) ->
  ok r = false ->
  let '(c, w) := TaskStore.run (TaskStore.deleteTask taskId (Responds r)) s in
  c = Throw (TaskStore.http_error r) /\ TaskStore.tasks (store w) = TaskStore.tasks s.
Proof.
  intros H Hok. run_action. rewrite H. cbn. rewrite Hok. cbn. split; [reflexivity|].
  apply splice_in_delete. apply list_find_Some in H. tauto.
Qed.

(** *** The time-entry store changes its collection on success only *)

Lemma createTimeEntry_failure_keeps_collection clock entryData reply s :
  remote_failure reply ->
  let '(c, w) := TimeEntryStore.run (TimeEntryStore.createTimeEntry clock entryData reply) s in
  (exists e, c = Throw e) /\ TimeEntryStore.timeEntries (store w) = TimeEntryStore.timeEntries s.
Proof.
  intros Hfail. run_action. destruct reply as [e|r]; cbn in *.
  - eauto.
  - rewrite Hfail. cbn. eauto.
Qed.

Lemma updateTimeEntry_failure_keeps_collection id updates reply s :
  remote_failure reply ->
  let '(c, w) := TimeEntryStore.run (TimeEntryStore.updateTimeEntry id updates reply) s in
  (exists e, c = Throw e) /\ TimeEntryStore.timeEntries (store w) = TimeEntryStore.timeEntries s.
Proof.
  intros Hfail. run_action.
  destruct (list_find _ _) as [[i existing]|]; cbn; [|eauto].
  destruct reply as [e|r]; cbn in *.
  - eauto.
  - rewrite Hfail. cbn. eauto.
Qed.

Lemma deleteTimeEntry_failure_keeps_collection id reply s :
  remote_failure reply ->
  let '(c, w) := TimeEntryStore.run (TimeEntryStore.deleteTimeEntry id reply) s in
  (exists e, c = Throw e) /\ TimeEntryStore.timeEntries (store w) = TimeEntryStore.timeEntries s.
Proof.
  intros Hfail. run_action. destruct reply as [e|r]; cbn in *.
  - eauto.
  - rewrite Hfail. cbn. eauto.
Qed.

(** *** Failed creation *)

(** C1.  When the [fetch] of [taskStore.createTask] rejects, the
    promise rejects with the same value, but the optimistic record
    is still in the collection: the collection the action leaves is
    the initial one followed by the new task, and so differs from
    the collection before the action started. *)
Theorem createTask_fetch_rejects_keeps_optimistic_task :
  forall clock taskData e s,
    let '(c, w) := TaskStore.run (TaskStore.createTask clock taskData (Rejects e)) s in
    c = Throw e /\
    TaskStore.tasks (store w) = TaskStore.tasks s ++ [TaskStore.newTask_of clock taskData] /\
    TaskStore.tasks (store w) <> TaskStore.tasks s.
Proof.
  intros clock taskData e s. rewrite createTask_fetch_rejects_run. cbn.
  repeat split. intros Heq. apply (f_equal length) in Heq.
  rewrite length_app in Heq. cbn in Heq. lia.
Qed.

Example createTask_network_down_on_empty_store :
  TaskStore.tasks
    (store (snd (TaskStore.run
                   (TaskStore.createTask Samples.clock Samples.draft
                      (Rejects Samples.network_down))
                   (Samples.task_store []))))
  = [TaskStore.newTask_of Samples.clock Samples.draft].
Proof. reflexivity. Qed.

(** *** Failed update *)

(** C2.  When the [fetch] of [taskStore.updateTask] rejects, the
    promise rejects with the same value and the record stored at the
    index of the target id is the optimistically updated one, not
    the snapshot taken before the update. *)
Theorem updateTask_fetch_rejects_keeps_update :
  forall now taskId updates e s i originalTask,
    list_find (fun task => Task.id task = taskId) (TaskStore.tasks s) = Some (i, originalTask) ->
    let '(c, w) := TaskStore.run (TaskStore.updateTask now taskId updates (Rejects e)) s in
    c = Throw e /\
    TaskStore.tasks (store w) !! i = Some (TaskStore.updatedTask_of now originalTask updates).
Proof.
  intros now taskId updates e s i originalTask H.
  rewrite (updateTask_fetch_rejects_run _ _ _ _ _ _ _ H). cbn.
  split; [reflexivity|].
  apply list_lookup_insert_eq. apply list_find_Some in H.
  destruct H as [H _]. now apply lookup_lt_Some in H.
Qed.

Lemma updateTask_fetch_rejects_keeps_update_witness :
  (let '(c, w) :=
     TaskStore.run
       (TaskStore.updateTask 1747836000000 "task-1" Samples.rename
          (Rejects Samples.network_down))
       (Samples.task_store [Samples.task1]) in
   c = Throw Samples.network_down /\
   TaskStore.tasks (store w) !! 0%nat
   = Some (TaskStore.updatedTask_of 1747836000000 Samples.task1 Samples.rename))
  /\ Task.title (TaskStore.updatedTask_of 1747836000000 Samples.task1 Samples.rename)
     <> Task.title Samples.task1.
Proof.
  split.
  - apply (updateTask_fetch_rejects_keeps_update 1747836000000 "task-1" Samples.rename
             Samples.network_down (Samples.task_store [Samples.task1]) 0%nat Samples.task1).
    reflexivity.
  - cbn. discriminate.
Defined.

(** *** Failed deletion *)

(** C3.  When the [fetch] of [taskStore.deleteTask] rejects, the
    promise rejects with the same value and the collection is left
    with the record at index [i] removed: it is not put back. *)
Theorem deleteTask_fetch_rejects_keeps_deletion :
  forall taskId e s i deletedTask,
    list_find (fun task => Task.id task = taskId) (TaskStore.tasks s) = Some (i, deletedTask) ->
    let '(c, w) := TaskStore.run (TaskStore.deleteTask taskId (Rejects e)) s in
    c = Throw e /\
    TaskStore.tasks (store w) = delete i (TaskStore.tasks s) /\
    length (TaskStore.tasks (store w)) = pred (length (TaskStore.tasks s)).
Proof.
  intros taskId e s i deletedTask H.
  rewrite (deleteTask_fetch_rejects_run _ _ _ _ _ H). cbn.
  repeat split. apply list_find_Some in H. destruct H as [H _].
  apply lookup_lt_Some in H. rewrite length_delete; [lia|]. rewrite lookup_lt_is_Some. lia.
Qed.

Lemma deleteTask_fetch_rejects_keeps_deletion_witness :
  let '(c, w) :=
    TaskStore.run (TaskStore.deleteTask "task-1" (Rejects Samples.network_down))
      (Samples.task_store [Samples.task1]) in
  c = Throw Samples.network_down /\
  TaskStore.tasks (store w) = [] /\
  length (TaskStore.tasks (store w)) = 0%nat.
Proof.
  apply (deleteTask_fetch_rejects_keeps_deletion "task-1" Samples.network_down
           (Samples.task_store [Samples.task1]) 0%nat Samples.task1).
  reflexivity.
Defined.

(** *** Unknown ids *)

(** [timeEntryStore.deleteTimeEntry] never looks the id up: with an
    empty collection it sends the DELETE request and, the server
    answering 200, resolves. *)
Lemma deleteTimeEntry_absent_id_sends_request :
  TimeEntryStore.run (TimeEntryStore.deleteTimeEntry "entry-1" (Responds Samples.no_content))
    (Samples.entry_store [])
  = (Normal tt,
     {| store := Samples.entry_store [];
        requests := [ {| method := DELETE;
                         url := "http://localhost:3000/timeEntries/entry-1";
                         body := None |} ] |}).
Proof. reflexivity. Qed.

(** C8, amended.  For an id that no record of the collection
    carries, [taskStore.updateTask], [taskStore.deleteTask] and
    [timeEntryStore.updateTimeEntry] reject with their not-found
    error without sending any request and leave the collection as it
    was; [timeEntryStore.deleteTimeEntry] makes no local lookup: it
    sends its one DELETE request, and leaves the collection as it
    was whatever the reply. *)
Theorem absent_id_actions :
  forall (id : string) (ts : TaskStore.State) (es : TimeEntryStore.State)
         now updates (reply : FetchReply Task.t) (dreply : FetchReply unit)
         eupdates (ereply : FetchReply TimeEntry.t),
    Forall (fun task => Task.id task <> id) (TaskStore.tasks ts) ->
    Forall (fun entry => TimeEntry.id entry <> id) (TimeEntryStore.timeEntries es) ->
    (let '(c, w) := TaskStore.run (TaskStore.updateTask now id updates reply) ts in
     c = Throw (JsError "Task not found") /\ requests w = [] /\
     TaskStore.tasks (store w) = TaskStore.tasks ts)
    /\
    (let '(c, w) := TaskStore.run (TaskStore.deleteTask id dreply) ts in
     c = Throw (JsError "Task not found") /\ requests w = [] /\
     TaskStore.tasks (store w) = TaskStore.tasks ts)
    /\
    (let '(c, w) := TimeEntryStore.run (TimeEntryStore.updateTimeEntry id eupdates ereply) es in
     c = Throw (JsError "Time entry not found") /\ requests w = [] /\
     TimeEntryStore.timeEntries (store w) = TimeEntryStore.timeEntries es)
    /\
    (let '(c, w) := TimeEntryStore.run (TimeEntryStore.deleteTimeEntry id dreply) es in
     requests w = [ {| method := DELETE; url := API_BASE_URL +:+ "/timeEntries/" +:+ id;
                       body := None |} ] /\
     TimeEntryStore.timeEntries (store w) = TimeEntryStore.timeEntries es).
Proof.
  intros id ts es now updates reply dreply eupdates ereply Hts Hes.
  assert (Ht : list_find (fun task => Task.id task = id) (TaskStore.tasks ts) = None)
    by now apply list_find_absent.
  assert (He : list_find (fun entry => TimeEntry.id entry = id)
                 (TimeEntryStore.timeEntries es) = None)
    by now apply list_find_absent.
  run_action. rewrite Ht, He. cbn.
  split; [|split; [|split]]; try (repeat split; reflexivity).
  destruct dreply as [e|r]; cbn; [split; reflexivity|].
  destruct (ok r); cbn; (split; [reflexivity|]); [|reflexivity].
  now apply filter_all.
Qed.

Lemma absent_id_actions_witness :
  (let '(c, w) :=
     TaskStore.run
       (TaskStore.updateTask 1747836000000 "task-9" Samples.rename
          (Rejects Samples.network_down))
       (Samples.task_store [Samples.task1]) in
   c = Throw (JsError "Task not found") /\ requests w = [] /\
   TaskStore.tasks (store w) = [Samples.task1])
  /\
  (let '(c, w) :=
     TaskStore.run (TaskStore.deleteTask "task-9" (Responds Samples.no_content))
       (Samples.task_store [Samples.task1]) in
   c = Throw (JsError "Task not found") /\ requests w = [] /\
   TaskStore.tasks (store w) = [Samples.task1])
  /\
  (let '(c, w) :=
     TimeEntryStore.run
       (TimeEntryStore.updateTimeEntry "task-9" Samples.no_entry_updates
          (Rejects Samples.network_down))
       (Samples.entry_store [Samples.entry1]) in
   c = Throw (JsError "Time entry not found") /\ requests w = [] /\
   TimeEntryStore.timeEntries (store w) = [Samples.entry1])
  /\
  (let '(c, w) :=
     TimeEntryStore.run (TimeEntryStore.deleteTimeEntry "task-9" (Responds Samples.no_content))
       (Samples.entry_store [Samples.entry1]) in
   requests w = [ {| method := DELETE; url := "http://localhost:3000/timeEntries/task-9";
                     body := None |} ] /\
   TimeEntryStore.timeEntries (store w) = [Samples.entry1]).
Proof.
  apply (absent_id_actions "task-9" (Samples.task_store [Samples.task1])
           (Samples.entry_store [Samples.entry1]) 1747836000000 Samples.rename
           (Rejects Samples.network_down) (Responds Samples.no_content)
           Samples.no_entry_updates (Rejects Samples.network_down)).
  - repeat constructor. cbn. discriminate.
  - repeat constructor. cbn. discriminate.
Defined.

(** *** Loading flag and error slot *)

(** Run in one piece, with nothing else between its request and the
    code after its awaits, an action settles with [isLoading] false,
    whatever the state it starts in and whatever the reply of the
    network; the error slot is null when it resolves and holds a
    message when it rejects.  This covers fetch, create, update and
    delete of both stores. *)
Lemma actions_settle_flags :
  forall (tw : World TaskStore.State Task.t) (ew : World TimeEntryStore.State TimeEntry.t)
         (lreply : FetchReply (list Task.t)) (treply : FetchReply Task.t)
         (dreply : FetchReply unit)
         (elreply : FetchReply (list TimeEntry.t)) (ereply : FetchReply TimeEntry.t)
         tclock taskData now (id : string) updates eclock entryData eupdates,
    settled_flags TaskStore.isLoading TaskStore.error (TaskStore.fetchTasks lreply tw) /\
    settled_flags TaskStore.isLoading TaskStore.error
      (TaskStore.createTask tclock taskData treply tw) /\
    settled_flags TaskStore.isLoading TaskStore.error
      (TaskStore.updateTask now id updates treply tw) /\
    settled_flags TaskStore.isLoading TaskStore.error (TaskStore.deleteTask id dreply tw) /\
    settled_flags TimeEntryStore.isLoading TimeEntryStore.error
      (TimeEntryStore.fetchTimeEntries elreply ew) /\
    settled_flags TimeEntryStore.isLoading TimeEntryStore.error
      (TimeEntryStore.createTimeEntry eclock entryData ereply ew) /\
    settled_flags TimeEntryStore.isLoading TimeEntryStore.error
      (TimeEntryStore.updateTimeEntry id eupdates ereply ew) /\
    settled_flags TimeEntryStore.isLoading TimeEntryStore.error
      (TimeEntryStore.deleteTimeEntry id dreply ew).
Proof.
  intros. unfold settled_flags.
  repeat split; run_action;
    repeat match goal with
           | |- context [list_find ?P ?l] => destruct (list_find P l) as [[? ?]|]; cbn
           | |- context [match ?r with Rejects _ => _ | Responds _ => _ end] =>
               destruct r as [?|?]; cbn
           | |- context [ok ?r] => destruct (ok r); cbn
           | |- context [json ?r] => destruct (json r); cbn
           end;
    eauto.
Qed.

End StoreProperties.

(** ** Overlapping actions *)

Section OverlappingActions.
Import Async.

(** Unfolds actions and processes down to the state they settle in. *)
Ltac run_steps :=
  unfold Interleaved.settled_flags,
    Interleaved.Tasks.fetchTasks, Interleaved.Tasks.createTask,
    Interleaved.Tasks.updateTask, Interleaved.Tasks.deleteTask,
    Interleaved.TimeEntries.fetchTimeEntries, Interleaved.TimeEntries.createTimeEntry,
    Interleaved.TimeEntries.updateTimeEntry, Interleaved.TimeEntries.deleteTimeEntry,
    Interleaved.Tasks.get_tasks, Interleaved.Tasks.set_tasks, Interleaved.Tasks.set_error,
    Interleaved.Tasks.set_isLoading,
    Interleaved.TimeEntries.get_timeEntries, Interleaved.TimeEntries.set_timeEntries,
    Interleaved.TimeEntries.set_error, Interleaved.TimeEntries.set_isLoading,
    Interleaved.try_catch_finally, Interleaved.when, Interleaved.get, Interleaved.modify,
    Interleaved.fetch, Interleaved.await_json, Interleaved.ret, Interleaved.throw,
    Interleaved.alone,
    TaskStore.fetchTasks, TaskStore.createTask, TaskStore.updateTask, TaskStore.deleteTask,
    TimeEntryStore.fetchTimeEntries, TimeEntryStore.createTimeEntry,
    TimeEntryStore.updateTimeEntry, TimeEntryStore.deleteTimeEntry,
    TaskStore.get_tasks, TaskStore.set_tasks, TaskStore.set_error, TaskStore.set_isLoading,
    TimeEntryStore.get_timeEntries, TimeEntryStore.set_timeEntries,
    TimeEntryStore.set_error, TimeEntryStore.set_isLoading,
    try_catch_finally, when, bind, get, modify, fetch, await_json, ret, throw,
    find, findIndex;
  cbn [Interleaved.run_with Interleaved.bind Interleaved.catch Interleaved.finally
       negb store requests json fst snd TaskStore.tasks TaskStore.isLoading TaskStore.error
       TimeEntryStore.timeEntries TimeEntryStore.isLoading TimeEntryStore.error
       fmap option_fmap option_map].

(** Splits on what the network and the store decide. *)
Ltac split_paths :=
  run_steps;
  repeat (match goal with
          | E : ok ?r = _ |- context [ok ?r] => rewrite E
          | E : json ?r = _ |- context [json ?r] => rewrite E
          | E : list_find ?P ?l = _ |- context [list_find ?P ?l] => rewrite E
          | |- context [match ?r with Rejects _ => _ | Responds _ => _ end] =>
              destruct r as [?|?]
          | |- context [ok ?r] => destruct (ok r) eqn:?
          | |- context [json ?r] => destruct (json r) eqn:?
          | |- context [list_find ?P ?l] => destruct (list_find P l) as [[? ?]|] eqn:?
          end; run_steps).

(** Run with nothing in between, the processes are the actions of the
    two stores. *)
Lemma actions_alone :
  forall (tw : World TaskStore.State Task.t) (ew : World TimeEntryStore.State TimeEntry.t)
         (lreply : FetchReply (list Task.t)) (treply : FetchReply Task.t)
         (dreply : FetchReply unit)
         (elreply : FetchReply (list TimeEntry.t)) (ereply : FetchReply TimeEntry.t)
         tclock taskData now (id : string) updates eclock entryData eupdates,
    Interleaved.run_with Interleaved.alone 0 Interleaved.Tasks.fetchTasks lreply tw
    = TaskStore.fetchTasks lreply tw /\
    Interleaved.run_with Interleaved.alone 0
      (Interleaved.Tasks.createTask tclock taskData) treply tw
    = TaskStore.createTask tclock taskData treply tw /\
    Interleaved.run_with Interleaved.alone 0
      (Interleaved.Tasks.updateTask now id updates) treply tw
    = TaskStore.updateTask now id updates treply tw /\
    Interleaved.run_with Interleaved.alone 0 (Interleaved.Tasks.deleteTask id) dreply tw
    = TaskStore.deleteTask id dreply tw /\
    Interleaved.run_with Interleaved.alone 0 Interleaved.TimeEntries.fetchTimeEntries elreply ew
    = TimeEntryStore.fetchTimeEntries elreply ew /\
    Interleaved.run_with Interleaved.alone 0
      (Interleaved.TimeEntries.createTimeEntry eclock entryData) ereply ew
    = TimeEntryStore.createTimeEntry eclock entryData ereply ew /\
    Interleaved.run_with Interleaved.alone 0
      (Interleaved.TimeEntries.updateTimeEntry id eupdates) ereply ew
    = TimeEntryStore.updateTimeEntry id eupdates ereply ew /\
    Interleaved.run_with Interleaved.alone 0 (Interleaved.TimeEntries.deleteTimeEntry id)
      dreply ew
    = TimeEntryStore.deleteTimeEntry id dreply ew.
Proof.
  intros. repeat split; split_paths; reflexivity.
Qed.

(** C10.  Whatever the state a store action starts in, whatever the
    reply of the network and whatever other code runs while the
    action waits, the action settles with [isLoading] false, and when
    it rejects the error slot holds a message.  When it resolves the
    error slot is null provided the other code has not written the
    slot in the meantime.  This covers fetch, create, update and
    delete of both stores. *)
Theorem actions_settle_flags_among_others :
  forall (tothers : nat -> World TaskStore.State Task.t -> World TaskStore.State Task.t)
         (eothers : nat -> World TimeEntryStore.State TimeEntry.t
                    -> World TimeEntryStore.State TimeEntry.t)
         (tw : World TaskStore.State Task.t) (ew : World TimeEntryStore.State TimeEntry.t)
         (lreply : FetchReply (list Task.t)) (treply : FetchReply Task.t)
         (dreply : FetchReply unit)
         (elreply : FetchReply (list TimeEntry.t)) (ereply : FetchReply TimeEntry.t)
         tclock taskData now (id : string) updates eclock entryData eupdates,
    Interleaved.settled_flags TaskStore.isLoading TaskStore.error tothers
      (Interleaved.run_with tothers 0 Interleaved.Tasks.fetchTasks lreply tw) /\
    Interleaved.settled_flags TaskStore.isLoading TaskStore.error tothers
      (Interleaved.run_with tothers 0 (Interleaved.Tasks.createTask tclock taskData) treply tw) /\
    Interleaved.settled_flags TaskStore.isLoading TaskStore.error tothers
      (Interleaved.run_with tothers 0 (Interleaved.Tasks.updateTask now id updates) treply tw) /\
    Interleaved.settled_flags TaskStore.isLoading TaskStore.error tothers
      (Interleaved.run_with tothers 0 (Interleaved.Tasks.deleteTask id) dreply tw) /\
    Interleaved.settled_flags TimeEntryStore.isLoading TimeEntryStore.error eothers
      (Interleaved.run_with eothers 0 Interleaved.TimeEntries.fetchTimeEntries elreply ew) /\
    Interleaved.settled_flags TimeEntryStore.isLoading TimeEntryStore.error eothers
      (Interleaved.run_with eothers 0
         (Interleaved.TimeEntries.createTimeEntry eclock entryData) ereply ew) /\
    Interleaved.settled_flags TimeEntryStore.isLoading TimeEntryStore.error eothers
      (Interleaved.run_with eothers 0
         (Interleaved.TimeEntries.updateTimeEntry id eupdates) ereply ew) /\
    Interleaved.settled_flags TimeEntryStore.isLoading TimeEntryStore.error eothers
      (Interleaved.run_with eothers 0 (Interleaved.TimeEntries.deleteTimeEntry id) dreply ew).
Proof.
  intros. repeat split; split_paths;
    try (intros Hquiet; rewrite ?Hquiet; cbn [store TaskStore.error TimeEntryStore.error]);
    eauto.
Qed.

(** While a first [fetchTasks] waits for its reply, a second one is
    started and rejects (the task page calls the action twice when it
    opens).  The first call then resolves, not loading, with the
    message of the second call in the error slot. *)
Lemma fetchTasks_resolves_beside_failed_call :
  let second : World TaskStore.State Task.t -> World TaskStore.State Task.t :=
    fun w => snd (TaskStore.fetchTasks (Rejects Samples.network_down) w) in
  let others (n : nat) : World TaskStore.State Task.t -> World TaskStore.State Task.t :=
    match n with
    | O => second
    | _ => fun w => w
    end in
  Interleaved.run_with others 0 Interleaved.Tasks.fetchTasks
    (Responds (MoreSamples.answer 200 [Samples.task1]))
    {| store := Samples.task_store []; requests := [] |}
  = (Normal tt,
     {| store := {| TaskStore.tasks := [Samples.task1]; TaskStore.isLoading := false;
                    TaskStore.error := Some "Failed to fetch"%string |};
        requests := [ {| method := GET; url := "http://localhost:3000/tasks"; body := None |};
                      {| method := GET; url := "http://localhost:3000/tasks"; body := None |} ]
     |}).
Proof. vm_compute. reflexivity. Qed.

End OverlappingActions.

(** ** Area breakdown *)

Section AreaProperties.
Import Aggregates Spec.

Lemma acc_of_record_area task area a areas :
  acc_of a (record_area task area areas)
  = if decide (a = area) then add_task task (acc_of a areas) else acc_of a areas.
Proof.
  induction areas as [|[a' s'] areas IH]; cbn.
  - destruct (decide (area = a)), (decide (a = area)); congruence.
  - destruct (decide (a' = area)) as [->|Hne]; cbn.
    + destruct (decide (area = a)), (decide (a = area)); congruence.
    + rewrite IH. destruct (decide (a' = a)), (decide (a = area)); congruence.
Qed.

Lemma keys_record_area task area areas :
  map fst (record_area task area areas)
  = map fst areas ++ (if decide (area ∈ map fst areas) then [] else [area]).
Proof.
  induction areas as [|[a' s'] areas IH]; cbn.
  - destruct (decide (area ∈ [])) as [H|H]; [inversion H|reflexivity].
  - destruct (decide (a' = area)) as [->|Hne]; cbn.
    + destruct (decide (area ∈ area :: map fst areas)) as [H|H].
      * now rewrite app_nil_r.
      * exfalso. apply H. left.
    + rewrite IH. f_equal.
      destruct (decide (area ∈ map fst areas)) as [H|H],
               (decide (area ∈ a' :: map fst areas)) as [H'|H']; try reflexivity.
      * exfalso. apply H'. now right.
      * exfalso. apply elem_of_cons in H' as [->|H']; [now apply Hne|now apply H].
Qed.

Lemma NoDup_record_area task area areas :
  NoDup (map fst areas) -> NoDup (map fst (record_area task area areas)).
Proof.
  intros Hnd. rewrite keys_record_area.
  destruct (decide (area ∈ map fst areas)) as [H|H].
  - now rewrite app_nil_r.
  - apply NoDup_app. split; [assumption|]. split.
    + intros x Hx Hx'. apply list_elem_of_singleton in Hx'. now subst.
    + apply NoDup_singleton.
Qed.

Lemma or_zero_id z : JsMath.or_zero z = z.
Proof. unfold JsMath.or_zero. destruct (Z.eqb_spec z 0); congruence. Qed.

Lemma additive_tasks : additive AreaAcc.tasks (fun _ => 1).
Proof. split; reflexivity. Qed.

Lemma additive_completed : additive AreaAcc.completed is_completed.
Proof.
  split; [reflexivity|]. intros task stats. unfold is_completed. cbn.
  destruct (decide _); lia.
Qed.

Lemma additive_plannedMinutes : additive AreaAcc.plannedMinutes Task.estimatedMinutes.
Proof. split; [reflexivity|]. intros. cbn. now rewrite or_zero_id. Qed.

Lemma additive_actualMinutes : additive AreaAcc.actualMinutes Task.actualMinutes.
Proof. split; [reflexivity|]. intros. cbn. now rewrite or_zero_id. Qed.

Section Field.
Variables (f : AreaAcc.t -> Z) (g : Task.t -> Z).
Hypothesis Hfg : additive f g.

Lemma field_total_record_area task area areas :
  field_total f (record_area task area areas) = field_total f areas + g task.
Proof.
  destruct Hfg as [H0 Hadd]. unfold field_total, sum_over.
  induction areas as [|[a' s'] areas IH]; cbn.
  - rewrite Hadd, H0. lia.
  - destruct (decide (a' = area)); cbn.
    + rewrite Hadd. lia.
    + rewrite IH. lia.
Qed.

Lemma count_cons_area (area a : TaskArea.t) l :
  count (fun x => x = area) (a :: l)
  = (if decide (a = area) then 1 else 0) + count (fun x => x = area) l.
Proof.
  unfold count. destruct (decide (a = area)).
  - rewrite filter_cons_True by assumption. cbn [length]. lia.
  - rewrite filter_cons_False by assumption. lia.
Qed.

Lemma fold_record_area_acc task a tags areas :
  f (acc_of a (foldl (fun areas area => record_area task area areas) areas tags))
  = f (acc_of a areas) + count (fun x => x = a) tags * g task.
Proof.
  destruct Hfg as [H0 Hadd].
  revert areas. induction tags as [|tag tags IH]; intros areas; cbn [foldl].
  - unfold count. cbn. lia.
  - rewrite IH, acc_of_record_area, count_cons_area.
    destruct (decide (a = tag)), (decide (tag = a)); try congruence.
    + rewrite Hadd. lia.
    + lia.
Qed.

Lemma fold_record_area_total task tags areas :
  field_total f (foldl (fun areas area => record_area task area areas) areas tags)
  = field_total f areas + Z.of_nat (length tags) * g task.
Proof.
  revert areas. induction tags as [|tag tags IH]; intros areas; cbn [foldl length].
  - lia.
  - rewrite IH, field_total_record_area. lia.
Qed.

Lemma sum_over_cons {A} (h : A -> Z) x l : sum_over h (x :: l) = h x + sum_over h l.
Proof. reflexivity. Qed.

Lemma collect_areas_acc_from a tasks areas :
  f (acc_of a (foldl record_task areas tasks))
  = f (acc_of a areas) + sum_over (fun task => occurrences a task * g task) tasks.
Proof.
  revert areas. induction tasks as [|task tasks IH]; intros areas; cbn [foldl].
  - cbn. lia.
  - rewrite IH, sum_over_cons. unfold record_task. rewrite fold_record_area_acc.
    unfold occurrences. lia.
Qed.

Lemma collect_areas_acc a tasks :
  f (acc_of a (collect_areas tasks))
  = sum_over (fun task => occurrences a task * g task) tasks.
Proof.
  unfold collect_areas. rewrite collect_areas_acc_from. cbn. destruct Hfg as [-> _]. lia.
Qed.

Lemma collect_areas_total_from tasks areas :
  field_total f (foldl record_task areas tasks)
  = field_total f areas + sum_over (fun task => Z.of_nat (length (Task.areas task)) * g task) tasks.
Proof.
  revert areas. induction tasks as [|task tasks IH]; intros areas; cbn [foldl].
  - cbn. lia.
  - rewrite IH, sum_over_cons. unfold record_task. rewrite fold_record_area_total. lia.
Qed.

Lemma collect_areas_total tasks :
  field_total f (collect_areas tasks)
  = sum_over (fun task => Z.of_nat (length (Task.areas task)) * g task) tasks.
Proof. unfold collect_areas. rewrite collect_areas_total_from. cbn. lia. Qed.

End Field.

Lemma keys_fold_record_area task tags areas a :
  a ∈ map fst (foldl (fun areas area => record_area task area areas) areas tags)
  <-> a ∈ map fst areas \/ a ∈ tags.
Proof.
  revert areas. induction tags as [|tag tags IH]; intros areas; cbn [foldl].
  - rewrite elem_of_nil. tauto.
  - rewrite IH, keys_record_area, elem_of_app, elem_of_cons.
    destruct (decide (tag ∈ map fst areas)) as [H|H].
    + rewrite elem_of_nil. split; [tauto|]. intros [?|[->|?]]; tauto.
    + rewrite list_elem_of_singleton. tauto.
Qed.

Lemma keys_collect_from tasks areas a :
  a ∈ map fst (foldl record_task areas tasks)
  <-> a ∈ map fst areas \/ exists task, task ∈ tasks /\ a ∈ Task.areas task.
Proof.
  revert areas. induction tasks as [|task tasks IH]; intros areas; cbn [foldl].
  - split; [tauto|]. intros [?|(task & H & _)]; [assumption|]. now apply elem_of_nil in H.
  - rewrite IH. unfold record_task. rewrite keys_fold_record_area. split.
    + intros [[?|?]|(t & Ht & Ha)]; [tauto| |].
      * right. exists task. split; [left|assumption].
      * right. exists t. split; [now right|assumption].
    + intros [?|(t & Ht & Ha)]; [tauto|].
      apply elem_of_cons in Ht as [->|Ht]; [tauto|]. right. eauto.
Qed.

Lemma NoDup_fold_record_area task tags areas :
  NoDup (map fst areas) ->
  NoDup (map fst (foldl (fun areas area => record_area task area areas) areas tags)).
Proof.
  revert areas. induction tags as [|tag tags IH]; intros areas Hnd; cbn [foldl]; [assumption|].
  apply IH. now apply NoDup_record_area.
Qed.

Lemma NoDup_collect_from tasks areas :
  NoDup (map fst areas) -> NoDup (map fst (foldl record_task areas tasks)).
Proof.
  revert areas. induction tasks as [|task tasks IH]; intros areas Hnd; cbn [foldl]; [assumption|].
  apply IH. now apply NoDup_fold_record_area.
Qed.

Lemma acc_of_member a stats areas :
  NoDup (map fst areas) -> (a, stats) ∈ areas -> acc_of a areas = stats.
Proof.
  induction areas as [|[a' s'] areas IH]; intros Hnd Hin.
  - now apply elem_of_nil in Hin.
  - cbn in Hnd. apply NoDup_cons in Hnd as [Hnotin Hnd]. cbn.
    apply elem_of_cons in Hin as [Heq|Hin].
    + inversion Heq; subst. now rewrite decide_True.
    + destruct (decide (a' = a)) as [->|Hne].
      * exfalso. apply Hnotin. apply list_elem_of_fmap. exists (a, stats). now split.
      * now apply IH.
Qed.

Lemma tagged_sum_exceeds tasks :
  Forall (fun task => 0 < Task.estimatedMinutes task) tasks ->
  Forall (fun task => Task.areas task <> []) tasks ->
  sum_over Task.estimatedMinutes tasks
  <= sum_over (fun task => Z.of_nat (length (Task.areas task)) * Task.estimatedMinutes task) tasks
  /\ (Exists (fun task => (2 <= length (Task.areas task))%nat) tasks ->
      sum_over Task.estimatedMinutes tasks
      < sum_over (fun task => Z.of_nat (length (Task.areas task)) * Task.estimatedMinutes task)
                 tasks).
Proof.
  intros Hpos Htag. induction tasks as [|task tasks IH].
  - split; [reflexivity|]. intros H. inversion H.
  - apply Forall_cons in Hpos as [Hp Hpos]. apply Forall_cons in Htag as [Ht Htag].
    destruct (IH Hpos Htag) as [IHle IHlt]. rewrite !sum_over_cons.
    assert (1 <= length (Task.areas task))%nat by (destruct (Task.areas task); cbn; [congruence|lia]).
    split; [nia|]. intros Hex. apply Exists_cons in Hex as [Hex|Hex].
    + nia.
    + specialize (IHlt Hex). nia.
Qed.

Lemma areaBreakdown_map percent weekTasks :
  map (fun stats => (AreaStats.area stats,
                     {| AreaAcc.tasks := AreaStats.tasks stats;
                        AreaAcc.completed := AreaStats.completed stats;
                        AreaAcc.plannedMinutes := AreaStats.plannedMinutes stats;
                        AreaAcc.actualMinutes := AreaStats.actualMinutes stats |}))
      (areaBreakdown percent weekTasks)
  = collect_areas weekTasks.
Proof.
  unfold areaBreakdown. destruct (decide (length weekTasks = 0%nat)) as [H|H].
  - apply nil_length_inv in H. now subst.
  - rewrite map_map. rewrite <- (map_id (collect_areas weekTasks)) at 2.
    apply map_ext. intros [a []]. reflexivity.
Qed.

Lemma areaBreakdown_keys percent weekTasks :
  map AreaStats.area (areaBreakdown percent weekTasks) = map fst (collect_areas weekTasks).
Proof. rewrite <- (areaBreakdown_map percent), map_map. reflexivity. Qed.

Lemma areaBreakdown_field percent weekTasks (f : AreaAcc.t -> Z) (h : AreaStats.t -> Z) :
  (forall stats,
     h stats = f {| AreaAcc.tasks := AreaStats.tasks stats;
                    AreaAcc.completed := AreaStats.completed stats;
                    AreaAcc.plannedMinutes := AreaStats.plannedMinutes stats;
                    AreaAcc.actualMinutes := AreaStats.actualMinutes stats |}) ->
  sum_over h (areaBreakdown percent weekTasks) = field_total f (collect_areas weekTasks).
Proof.
  intros Hh. rewrite <- (areaBreakdown_map percent). unfold field_total, sum_over.
  induction (areaBreakdown percent weekTasks) as [|stats l IH]; cbn; [reflexivity|].
  now rewrite IH, Hh.
Qed.

Lemma areaBreakdown_entry percent weekTasks stats :
  stats ∈ areaBreakdown percent weekTasks ->
  acc_of (AreaStats.area stats) (collect_areas weekTasks)
  = {| AreaAcc.tasks := AreaStats.tasks stats;
       AreaAcc.completed := AreaStats.completed stats;
       AreaAcc.plannedMinutes := AreaStats.plannedMinutes stats;
       AreaAcc.actualMinutes := AreaStats.actualMinutes stats |}.
Proof.
  intros Hin. apply acc_of_member.
  - apply (NoDup_collect_from weekTasks []). constructor.
  - rewrite <- (areaBreakdown_map percent). apply list_elem_of_fmap.
    exists stats. now split.
Qed.

(** A collection that holds a task without any area: every estimate
    is positive and one task has two areas, yet the planned minutes
    summed over the areas (10 + 10) stay below the estimates summed
    over the tasks (100 + 10), because the untagged task is counted in
    no area. *)
Lemma areaBreakdown_untagged_task_not_counted :
  let weekTasks := [Samples.untagged; Samples.task2] in
  Forall (fun task => 0 < Task.estimatedMinutes task) weekTasks /\
  Exists (fun task => (2 <= length (Task.areas task))%nat) weekTasks /\
  sum_over AreaStats.plannedMinutes (areaBreakdown Samples.percent_exact weekTasks) = 20 /\
  sum_over Task.estimatedMinutes weekTasks = 110 /\
  ~ (sum_over Task.estimatedMinutes weekTasks
     < sum_over AreaStats.plannedMinutes (areaBreakdown Samples.percent_exact weekTasks)).
Proof.
  cbn zeta. split; [|split; [|split; [|split]]].
  - repeat constructor.
  - right. left. cbn. lia.
  - reflexivity.
  - reflexivity.
  - intros H. vm_compute in H. discriminate H.
Qed.

(** C5, amended.  The area breakdown has exactly one entry per area
    that tags some task of the week, and the entry of an area adds,
    for every task and every time the task is tagged with the area,
    one to [tasks], the task's completion to [completed], its full
    [estimatedMinutes] to [plannedMinutes] and its full
    [actualMinutes] to [actualMinutes].  Consequently, when every task
    has a positive estimate and at least one area, and some task
    carries more than one area, the planned minutes summed over the
    areas strictly exceed the estimates summed over the tasks. *)
Theorem areaBreakdown_counts_task_in_every_area :
  forall (percent : Z -> Z -> Z) (weekTasks : list Task.t),
    NoDup (map AreaStats.area (areaBreakdown percent weekTasks)) /\
    (forall area,
       area ∈ map AreaStats.area (areaBreakdown percent weekTasks) <->
       exists task, task ∈ weekTasks /\ area ∈ Task.areas task) /\
    (forall stats,
       stats ∈ areaBreakdown percent weekTasks ->
       let area := AreaStats.area stats in
       AreaStats.tasks stats = sum_over (fun task => occurrences area task * 1) weekTasks /\
       AreaStats.completed stats
       = sum_over (fun task => occurrences area task * is_completed task) weekTasks /\
       AreaStats.plannedMinutes stats
       = sum_over (fun task => occurrences area task * Task.estimatedMinutes task) weekTasks /\
       AreaStats.actualMinutes stats
       = sum_over (fun task => occurrences area task * Task.actualMinutes task) weekTasks) /\
    (Forall (fun task => 0 < Task.estimatedMinutes task) weekTasks ->
     Forall (fun task => Task.areas task <> []) weekTasks ->
     Exists (fun task => (2 <= length (Task.areas task))%nat) weekTasks ->
     sum_over Task.estimatedMinutes weekTasks
     < sum_over AreaStats.plannedMinutes (areaBreakdown percent weekTasks)).
Proof.
  intros percent weekTasks. split; [|split; [|split]].
  - rewrite areaBreakdown_keys. apply (NoDup_collect_from weekTasks []). constructor.
  - intros area. rewrite areaBreakdown_keys. unfold collect_areas.
    rewrite keys_collect_from. cbn. rewrite elem_of_nil. tauto.
  - intros stats Hin area. pose proof (areaBreakdown_entry _ _ _ Hin) as Hacc.
    fold area in Hacc.
    rewrite <- (collect_areas_acc _ _ additive_tasks area weekTasks),
            <- (collect_areas_acc _ _ additive_completed area weekTasks),
            <- (collect_areas_acc _ _ additive_plannedMinutes area weekTasks),
            <- (collect_areas_acc _ _ additive_actualMinutes area weekTasks).
    rewrite Hacc. cbn. repeat split.
  - intros Hpos Htag Hex.
    rewrite (areaBreakdown_field percent weekTasks AreaAcc.plannedMinutes) by reflexivity.
    rewrite (collect_areas_total _ _ additive_plannedMinutes).
    now apply tagged_sum_exceeds.
Qed.

Lemma areaBreakdown_counts_task_in_every_area_witness :
  let weekTasks := [Samples.task1; Samples.task2] in
  (Forall (fun task => 0 < Task.estimatedMinutes task) weekTasks /\
   Forall (fun task => Task.areas task <> []) weekTasks /\
   Exists (fun task => (2 <= length (Task.areas task))%nat) weekTasks) /\
  sum_over Task.estimatedMinutes weekTasks
  < sum_over AreaStats.plannedMinutes (areaBreakdown Samples.percent_exact weekTasks).
Proof.
  cbn zeta.
  assert (Hpos : Forall (fun task => 0 < Task.estimatedMinutes task)
                   [Samples.task1; Samples.task2])
    by (repeat constructor).
  assert (Htag : Forall (fun task => Task.areas task <> []) [Samples.task1; Samples.task2])
    by (repeat constructor; cbn; discriminate).
  assert (Hex : Exists (fun task => (2 <= length (Task.areas task))%nat)
                  [Samples.task1; Samples.task2])
    by (right; left; cbn; lia).
  split; [tauto|].
  exact (proj2 (proj2 (proj2
           (areaBreakdown_counts_task_in_every_area Samples.percent_exact
              [Samples.task1; Samples.task2]))) Hpos Htag Hex).
Defined.

End AreaProperties.

(** ** Aggregates of an empty week

    The statistics of the pages other than the daily distribution
    are total functions to plain records and lists: no path of
    theirs throws.  (Division by zero does not throw in JavaScript
    either; the guards below keep [NaN] and [Infinity] out of the
    results.)  The daily distribution converts the start date of the
    week and throws when that is not a date; it is taken up with the
    other properties of the distribution. *)

Section EmptyInput.
Import Aggregates.

Lemma weekTasks_of_no_tasks selectedWeekId : weekTasks [] selectedWeekId = [].
Proof. unfold weekTasks. now destruct (decide _). Qed.

Lemma taskTimeStats_zero_estimate percent taskTimeEntries task :
  Task.estimatedMinutes task = 0 ->
  TaskTimeStats.efficiency (taskTimeStats percent taskTimeEntries (Some task)) = 0 /\
  TaskTimeStats.efficiency (taskTimeStats percent taskTimeEntries None) = 0.
Proof. intros H. cbn. now rewrite H. Qed.

(** With no task in the store and a week whose
    [totalPlannedMinutes] is 0 (or no selected week at all), every
    rate is 0 whatever the rounding of percentages: the completion
    stats are all zero, the status and area breakdowns are empty (so
    no entry of theirs carries a non-zero percentage or completion
    rate), the progress percentage is 0 for every actual value and
    the efficiency is 0. *)
Lemma empty_input_aggregates_are_zero :
  forall (percent : Z -> Z -> Z) (selectedWeekId : string) (week : Week.t) (actual : Z),
    Week.totalPlannedMinutes week = 0 ->
    let weekTasks := weekTasks [] selectedWeekId in
    completionStats percent weekTasks
    = {| CompletionStats.total := 0; CompletionStats.completed := 0;
         CompletionStats.inProgress := 0; CompletionStats.notStarted := 0;
         CompletionStats.completionRate := 0 |} /\
    statusBreakdown percent weekTasks = [] /\
    Forall (fun stats => StatusStats.percentage stats = 0) (statusBreakdown percent weekTasks) /\
    areaBreakdown percent weekTasks = [] /\
    Forall (fun stats => AreaStats.completionRate stats = 0) (areaBreakdown percent weekTasks) /\
    getProgressPercentage percent actual (Week.totalPlannedMinutes week) = 0 /\
    TimeStats.efficiency (timeStats percent (Some week)) = 0 /\
    TimeStats.plannedMinutes (timeStats percent (Some week)) = 0 /\
    timeStats percent None
    = {| TimeStats.plannedMinutes := 0; TimeStats.actualMinutes := 0;
         TimeStats.efficiency := 0; TimeStats.variance := 0 |}.
Proof.
  intros percent selectedWeekId week actual Hplanned. cbn zeta.
  rewrite weekTasks_of_no_tasks.
  repeat split; try constructor.
  - unfold getProgressPercentage. now rewrite Hplanned.
  - cbn. now rewrite Hplanned.
  - cbn. now rewrite Hplanned.
Qed.

Lemma empty_input_aggregates_are_zero_witness :
  completionStats Samples.percent_exact (weekTasks [] "2025-W21")
  = {| CompletionStats.total := 0; CompletionStats.completed := 0;
       CompletionStats.inProgress := 0; CompletionStats.notStarted := 0;
       CompletionStats.completionRate := 0 |} /\
  getProgressPercentage Samples.percent_exact 45 (Week.totalPlannedMinutes Samples.week21) = 0 /\
  TimeStats.efficiency (timeStats Samples.percent_exact (Some Samples.week21)) = 0.
Proof.
  pose proof (empty_input_aggregates_are_zero Samples.percent_exact "2025-W21"
                Samples.week21 45 eq_refl) as H.
  cbn zeta in H. destruct H as (H1 & _ & _ & _ & _ & H6 & H7 & _).
  split; [exact H1|]. split; [exact H6 | exact H7].
Defined.

End EmptyInput.

(** ** Strings of digits *)

Section StringProperties.
Import JsString.

Lemma chars_all_app P s1 s2 :
  chars_all P (s1 +:+ s2) <-> chars_all P s1 /\ chars_all P s2.
Proof. induction s1 as [|c s1 IH]; simpl; [tauto|]. rewrite IH. tauto. Qed.

Lemma split_head_app sep s1 s2 :
  chars_all (fun c => c <> sep) s1 -> split_head sep (s1 +:+ String sep s2) = s1.
Proof.
  induction s1 as [|c s1 IH]; simpl.
  - now rewrite Ascii.eqb_refl.
  - intros [Hc Hs]. apply Ascii.eqb_neq in Hc. rewrite Hc. now rewrite IH.
Qed.

Lemma chars_all_repeat_char (P : ascii -> Prop) n c : P c -> chars_all P (repeat_char n c).
Proof. intros Hc. induction n; cbn; auto. Qed.

Lemma chars_all_padStart (P : ascii -> Prop) n c s :
  P c -> chars_all P s -> chars_all P (padStart n c s).
Proof.
  intros Hc Hs. unfold padStart. apply chars_all_app. split; [|assumption].
  now apply chars_all_repeat_char.
Qed.

Lemma chars_all_pretty_N_go x s :
  chars_all numeric s -> chars_all numeric (pretty_N_go x s).
Proof.
  revert s. induction (N.lt_wf_0 x) as [x _ IH]; intros s Hs.
  destruct (decide (0 < x)%N) as [Hx|Hx].
  - rewrite pretty_N_go_step by assumption. apply IH.
    + now apply N.div_lt.
    + split; [|assumption]. right. eauto.
  - assert (x = 0%N) as -> by lia. now rewrite pretty_N_go_0.
Qed.

Lemma chars_all_pretty_N (x : N) : chars_all numeric (pretty x).
Proof.
  unfold pretty, pretty_N. destruct (decide (x = 0%N)).
  - split; [|exact I]. right. now exists 0%N.
  - now apply chars_all_pretty_N_go.
Qed.

Lemma chars_all_of_int z : chars_all numeric (of_int z).
Proof.
  unfold of_int, pretty, pretty_Z. destruct z as [|p|p].
  - split; [|exact I]. right. now exists 0%N.
  - apply chars_all_pretty_N.
  - split; [now left|]. apply chars_all_pretty_N.
Qed.

Lemma chars_all_impl (P Q : ascii -> Prop) s :
  (forall c, P c -> Q c) -> chars_all P s -> chars_all Q s.
Proof. intros HPQ. induction s; cbn; [tauto|]. intros [? ?]. auto. Qed.

Lemma numeric_not_T c : numeric c -> c <> "T"%char.
Proof.
  intros [->|[d ->]]; [discriminate|].
  unfold pretty_N_char. repeat case_match; discriminate.
Qed.

End StringProperties.

(** ** Calendar arithmetic *)

Section DateProperties.
Import JsString JsDate.

Lemma days_from_civil_from_days n :
  let '(y, m, d) := civil_from_days n in days_from_civil y m d = n.
Proof.
  unfold civil_from_days, days_from_civil.
  set (z := n + 719468).
  set (era := z / 146097).
  set (doe := z - era * 146097).
  assert (Hdoe : 0 <= doe < 146097) by (subst doe era; Z.div_mod_to_equations; lia).
  set (yoe := (doe - doe / 1460 + doe / 36524 - doe / 146096) / 365).
  assert (Hyoe : 0 <= yoe <= 399) by (subst yoe; Z.div_mod_to_equations; lia).
  set (doy := doe - (365 * yoe + yoe / 4 - yoe / 100)).
  assert (Hdoy : 0 <= doy <= 365) by (subst doy yoe; Z.div_mod_to_equations; lia).
  set (mp := (5 * doy + 2) / 153).
  assert (Hmp : 0 <= mp <= 11) by (subst mp; Z.div_mod_to_equations; lia).
  destruct (mp <? 10) eqn:E.
  - apply Z.ltb_lt in E.
    replace (mp + 3 <=? 2) with false by (symmetry; apply Z.leb_gt; lia).
    replace ((yoe + era * 400) / 400) with era by (Z.div_mod_to_equations; lia).
    replace ((mp + 3 + 9) mod 12) with mp by (Z.div_mod_to_equations; lia).
    subst doy z. Z.div_mod_to_equations; lia.
  - apply Z.ltb_ge in E.
    replace (mp - 9 <=? 2) with true by (symmetry; apply Z.leb_le; lia).
    replace ((yoe + era * 400 + 1 - 1) / 400) with era by (Z.div_mod_to_equations; lia).
    replace ((mp - 9 + 9) mod 12) with mp by (Z.div_mod_to_equations; lia).
    subst doy z. Z.div_mod_to_equations; lia.
Qed.

Example epoch_is_thursday_1_january_1970 :
  civil_from_days 0 = (1970, 1, 1) /\ WeekDay 0 = 4.
Proof. split; reflexivity. Qed.

Example day_of_19_may_2025 :
  days_from_civil 2025 5 19 = 20227 /\ WeekDay (20227 * msPerDay) = 1.
Proof. split; reflexivity. Qed.

Example toISOString_of_time_value :
  toISOString 1747836000123 = "2025-05-21T14:00:00.123Z"%string.
Proof. vm_compute. reflexivity. Qed.

(** The day of the month enters [days_from_civil] linearly. *)
Lemma days_from_civil_shift y m d k :
  days_from_civil y m (d + k) = days_from_civil y m d + k.
Proof. unfold days_from_civil. lia. Qed.

Lemma MakeDay_shift t k :
  MakeDay (YearFromTime t) (MonthFromTime t) (DateFromTime t + k) = Day t + k.
Proof.
  unfold MakeDay, YearFromTime, MonthFromTime, DateFromTime.
  pose proof (days_from_civil_from_days (Day t)) as H.
  destruct (civil_from_days (Day t)) as [[y m] d]. cbn [fst snd].
  replace (m - 1 + 1) with m by lia.
  rewrite <- H. replace d with (1 + (d - 1)) at 2 by lia.
  rewrite days_from_civil_shift. lia.
Qed.

Lemma Day_shift t k : Day (t + k * msPerDay) = Day t + k.
Proof. unfold Day, msPerDay. now rewrite Z.div_add. Qed.

Lemma TimeWithinDay_shift t k : TimeWithinDay (t + k * msPerDay) = TimeWithinDay t.
Proof. unfold TimeWithinDay, msPerDay. now rewrite Z.mod_add. Qed.

Lemma Day_TimeWithinDay t : MakeDate (Day t) (TimeWithinDay t) = t.
Proof. unfold MakeDate, Day, TimeWithinDay, msPerDay. Z.div_mod_to_equations; lia. Qed.

(** [date.setDate(date.getDate() + k)] keeps the local time of day and
    moves the local date by [k] days; the result is read back with the
    offset in force at that local time. *)
Lemma setDate_getDate_local (tz : TimeZone) t k :
  setDate tz t (getDate tz t + k) = UTC tz (LocalTime tz t + k * msPerDay).
Proof.
  unfold setDate, getDate. rewrite MakeDay_shift. f_equal.
  unfold MakeDate. pose proof (Day_TimeWithinDay (LocalTime tz t)) as H.
  unfold MakeDate in H. lia.
Qed.

(** In a zone whose offset never changes it moves the time value by
    [k] whole days, whatever the offset. *)
Lemma setDate_getDate_plus (tz : Z) t k :
  setDate tz t (getDate tz t + k) = t + k * msPerDay.
Proof.
  rewrite setDate_getDate_local. unfold UTC, LocalTime. cbn. lia.
Qed.

(** So it does in any zone when the offset in force at the new local
    time is the one in force at [t]. *)
Lemma setDate_getDate_same_offset (tz : TimeZone) t k :
  LocalTZA tz (LocalTime tz t + k * msPerDay) false = LocalTZA tz t true ->
  setDate tz t (getDate tz t + k) = t + k * msPerDay.
Proof.
  intros H. rewrite setDate_getDate_local. unfold UTC. rewrite H.
  unfold LocalTime. lia.
Qed.

(** A zone that keeps one offset from the day before [start] to the
    eighth day after it behaves during the week that begins at
    [start] as the zone of that fixed offset. *)
Lemma steady_week (tz : TimeZone) offset start i :
  steady tz offset (start - msPerDay) (start + 8 * msPerDay) ->
  -1440 < offset < 1440 ->
  0 <= i < 7 ->
  setDate tz start (getDate tz start + i) = start + i * msPerDay /\
  getDay tz (start + i * msPerDay) = getDay offset (start + i * msPerDay).
Proof.
  intros Hsteady Hoffset Hi.
  assert (Hstart : LocalTZA tz start true = offset * msPerMinute)
    by (apply Hsteady; unfold msPerDay; lia).
  split.
  - apply setDate_getDate_same_offset. rewrite Hstart. unfold LocalTime. rewrite Hstart.
    apply Hsteady. unfold msPerDay, msPerMinute. lia.
  - unfold getDay, LocalTime. cbn [LocalTZA fixed]. f_equal. f_equal.
    apply Hsteady. unfold msPerDay. lia.
Qed.

(** A zone that changes its offset once keeps the later offset from
    the change on. *)
Lemma changing_steady_after change before after first last :
  change <= first ->
  change + Z.max before after * msPerMinute <= first ->
  steady (changing change before after) after first last.
Proof.
  intros Hinstant Hlocal t isUTC Ht. unfold changing. cbn [LocalTZA].
  destruct isUTC.
  - destruct (Z.ltb_spec t change); [lia|reflexivity].
  - destruct (Z.ltb_spec t (change + Z.max before after * msPerMinute)); [lia|reflexivity].
Qed.

Lemma pad_no_T n z : chars_all (fun c => c <> "T"%char) (pad n z).
Proof.
  unfold pad. apply chars_all_padStart; [discriminate|].
  eapply chars_all_impl; [apply numeric_not_T|apply chars_all_of_int].
Qed.

Lemma isoDateOfDay_no_T n : chars_all (fun c => c <> "T"%char) (isoDateOfDay n).
Proof.
  unfold isoDateOfDay. destruct (civil_from_days n) as [[y m] d].
  assert (Hdash : chars_all (fun c => c <> "T"%char) "-") by (split; [discriminate|exact I]).
  apply chars_all_app; split;
    [|apply chars_all_app; split;
      [exact Hdash|apply chars_all_app; split;
        [apply pad_no_T|apply chars_all_app; split; [exact Hdash|apply pad_no_T]]]].
  unfold isoYear. destruct (_ && _); [apply pad_no_T|].
  destruct (y <? 0); (split; [discriminate|apply pad_no_T]).
Qed.

Lemma toISOString_date t : split_head "T" (toISOString t) = isoDateOfDay (Day t).
Proof. unfold toISOString. apply split_head_app, isoDateOfDay_no_T. Qed.

End DateProperties.

Section CivilRoundTrip.
Import JsDate.

(** Recovering the year of the era from the day of the era. *)
Lemma year_of_era_recovered yoe doy :
  0 <= yoe < 400 -> 0 <= doy <= 365 ->
  (doy = 365 -> (yoe + 1) mod 4 = 0 /\ ((yoe + 1) mod 100 <> 0 \/ yoe = 399)) ->
  let doe := yoe * 365 + yoe / 4 - yoe / 100 + doy in
  0 <= doe < 146097 /\
  (doe - doe / 1460 + doe / 36524 - doe / 146096) / 365 = yoe.
Proof.
  intros Hyoe Hdoy Hleap. cbn zeta. Z.div_mod_to_equations. lia.
Qed.

(** Recovering the month (counted from March) and the day from the
    day of the year (counted from 1 March). *)
Lemma month_recovered mp d :
  0 <= mp <= 11 -> 1 <= d <= 31 ->
  (mp = 1 \/ mp = 3 \/ mp = 6 \/ mp = 8 -> d <= 30) ->
  (mp = 11 -> d <= 29) ->
  let doy := (153 * mp + 2) / 5 + d - 1 in
  (5 * doy + 2) / 153 = mp /\ doy - (153 * mp + 2) / 5 + 1 = d /\ 0 <= doy <= 365.
Proof.
  intros Hmp Hd H30 H29. cbn zeta.
  assert (Hcases : mp = 0 \/ mp = 1 \/ mp = 2 \/ mp = 3 \/ mp = 4 \/ mp = 5 \/ mp = 6
                   \/ mp = 7 \/ mp = 8 \/ mp = 9 \/ mp = 10 \/ mp = 11) by lia.
  repeat (destruct Hcases as [->|Hcases]); try subst mp;
    (split; [|split]); Z.div_mod_to_equations; lia.
Qed.

(** The civil date of a day number is a date of the calendar. *)
Lemma civil_from_days_valid n :
  let '(y, m, d) := civil_from_days n in
  1 <= m <= 12 /\ 1 <= d <= daysInMonth y m.
Proof.
  unfold civil_from_days.
  set (z := n + 719468).
  set (era := z / 146097).
  set (doe := z - era * 146097).
  assert (Hdoe : 0 <= doe < 146097) by (subst doe era; Z.div_mod_to_equations; lia).
  set (yoe := (doe - doe / 1460 + doe / 36524 - doe / 146096) / 365).
  assert (Hyoe : 0 <= yoe <= 399) by (subst yoe; Z.div_mod_to_equations; lia).
  set (doy := doe - (365 * yoe + yoe / 4 - yoe / 100)).
  assert (Hdoy : 0 <= doy <= 365 /\ (doy = 365 -> (yoe + 1) mod 4 = 0 /\ ((yoe + 1) mod 100 <> 0 \/ yoe = 399)))
    by (subst doy yoe; Z.div_mod_to_equations; lia).
  destruct Hdoy as [Hdoy Hleap].
  set (mp := (5 * doy + 2) / 153).
  assert (Hmp : 0 <= mp <= 11) by (subst mp; Z.div_mod_to_equations; lia).
  set (d := doy - (153 * mp + 2) / 5 + 1).
  assert (Hd : 1 <= d <= 31 /\ (mp = 1 \/ mp = 3 \/ mp = 6 \/ mp = 8 -> d <= 30)
               /\ (mp = 11 -> d <= 29 /\ (d = 29 -> doy = 365)))
    by (subst d mp; Z.div_mod_to_equations; lia).
  destruct Hd as (Hd & H30 & H29).
  unfold daysInMonth, isLeapYear.
  destruct (Z.ltb_spec mp 10) as [Hlt|Hge].
  - replace (mp + 3 <=? 2) with false by (symmetry; apply Z.leb_gt; lia).
    split; [lia|].
    replace (mp + 3 =? 2) with false by (symmetry; apply Z.eqb_neq; lia).
    destruct (Z.eqb_spec (mp + 3) 4), (Z.eqb_spec (mp + 3) 6), (Z.eqb_spec (mp + 3) 9),
             (Z.eqb_spec (mp + 3) 11); cbn [orb]; lia.
  - replace (mp - 9 <=? 2) with true by (symmetry; apply Z.leb_le; lia).
    split; [lia|].
    destruct (Z.eqb_spec (mp - 9) 2) as [E|E].
    + assert (Hmp11 : mp = 11) by lia. destruct (H29 Hmp11) as [Hd29 Hd365].
      set (y := yoe + era * 400 + 1).
      assert (Hy : d = 29 -> y mod 4 = 0 /\ (y mod 100 <> 0 \/ y mod 400 = 0)).
      { intros Hd'. destruct (Hleap (Hd365 Hd')) as [L1 L2].
        subst y. clear - L1 L2 Hyoe. Z.div_mod_to_equations; lia. }
      clearbody y. clear - Hd Hd29 Hy.
      destruct (Z.eqb_spec (y mod 4) 0), (Z.eqb_spec (y mod 100) 0), (Z.eqb_spec (y mod 400) 0);
        cbn [andb orb negb]; lia.
    + replace (mp - 9 =? 4) with false by (symmetry; apply Z.eqb_neq; lia).
      replace (mp - 9 =? 6) with false by (symmetry; apply Z.eqb_neq; lia).
      replace (mp - 9 =? 9) with false by (symmetry; apply Z.eqb_neq; lia).
      replace (mp - 9 =? 11) with false by (symmetry; apply Z.eqb_neq; lia).
      cbn [orb]. lia.
Qed.

Lemma daysInMonth_bounds y m d :
  1 <= m <= 12 -> 1 <= d <= daysInMonth y m ->
  d <= 31 /\
  (m = 4 \/ m = 6 \/ m = 9 \/ m = 11 -> d <= 30) /\
  (m = 2 -> d <= 29 /\ (d = 29 -> y mod 4 = 0 /\ (y mod 100 <> 0 \/ y mod 400 = 0))).
Proof.
  intros Hm Hd. unfold daysInMonth, isLeapYear in Hd.
  destruct (Z.eqb_spec m 2) as [->|H2].
  - destruct (Z.eqb_spec (y mod 4) 0), (Z.eqb_spec (y mod 100) 0), (Z.eqb_spec (y mod 400) 0);
      cbn in Hd; try lia; exfalso; Z.div_mod_to_equations; lia.
  - destruct (Z.eqb_spec m 4), (Z.eqb_spec m 6), (Z.eqb_spec m 9), (Z.eqb_spec m 11);
      cbn in Hd; lia.
Qed.

Lemma civil_from_days_from_civil y m d :
  1 <= m <= 12 -> 1 <= d <= daysInMonth y m ->
  civil_from_days (days_from_civil y m d) = (y, m, d).
Proof.
  intros Hm Hd. destruct (daysInMonth_bounds y m d Hm Hd) as (H31 & H30 & H29).
  unfold days_from_civil, civil_from_days.
  set (y' := if m <=? 2 then y - 1 else y).
  set (era := y' / 400). set (yoe := y' - era * 400).
  set (mp := (m + 9) mod 12).
  assert (Hyoe : 0 <= yoe < 400) by (subst yoe era; Z.div_mod_to_equations; lia).
  assert (Hmp : 0 <= mp <= 11 /\ (m <= 2 -> mp = m + 9) /\ (2 < m -> mp = m - 3))
    by (subst mp; Z.div_mod_to_equations; lia).
  destruct Hmp as (Hmp & Hmp1 & Hmp2).
  destruct (month_recovered mp d Hmp) as (Hm' & Hd' & Hdoy); [lia|lia|lia|].
  set (doy := (153 * mp + 2) / 5 + d - 1) in *.
  assert (Hleap : doy = 365 -> (yoe + 1) mod 4 = 0 /\ ((yoe + 1) mod 100 <> 0 \/ yoe = 399)).
  { intros Hdoy365.
    assert (mp = 11 /\ d = 29) as [Hmp11 ->]
      by (subst doy; clear - Hdoy365 Hmp H31; Z.div_mod_to_equations; lia).
    assert (m = 2) as -> by lia.
    destruct H29 as [_ H29]; [reflexivity|]. specialize (H29 eq_refl).
    subst yoe era y'. cbn [Z.leb Z.compare Pos.compare Pos.compare_cont] in *.
    Z.div_mod_to_equations; lia. }
  destruct (year_of_era_recovered yoe doy Hyoe Hdoy Hleap) as (Hdoe & Hy).
  set (doe := yoe * 365 + yoe / 4 - yoe / 100 + doy) in *.
  replace (era * 146097 + doe - 719468 + 719468) with (doe + era * 146097) by lia.
  replace ((doe + era * 146097) / 146097) with era by (Z.div_mod_to_equations; lia).
  replace (doe + era * 146097 - era * 146097) with doe by lia.
  rewrite Hy.
  replace (doe - (365 * yoe + yoe / 4 - yoe / 100)) with doy by (subst doe; lia).
  rewrite Hm', Hd'.
  replace (yoe + era * 400) with y' by (subst yoe; lia).
  subst y'. destruct (Z.leb_spec m 2) as [Hle|Hgt].
  - rewrite (Hmp1 Hle). replace (m + 9 <? 10) with false by (symmetry; apply Z.ltb_ge; lia).
    replace (m + 9 - 9) with m by lia.
    replace (m <=? 2) with true by (symmetry; apply Z.leb_le; lia).
    f_equal. f_equal. lia.
  - rewrite (Hmp2 Hgt). replace (m - 3 <? 10) with true by (symmetry; apply Z.ltb_lt; lia).
    replace (m - 3 + 3) with m by lia.
    replace (m <=? 2) with false by (symmetry; apply Z.leb_gt; lia).
    reflexivity.
Qed.

(** The ISO date of the day of a civil date prints the fields of that
    date. *)
Lemma isoDateOfDay_of_civil y m d :
  1 <= m <= 12 -> 1 <= d <= daysInMonth y m ->
  isoDateOfDay (days_from_civil y m d)
  = isoYear y +:+ "-" +:+ pad 2 m +:+ "-" +:+ pad 2 d.
Proof.
  intros Hm Hd. unfold isoDateOfDay.
  now rewrite civil_from_days_from_civil by assumption.
Qed.

End CivilRoundTrip.

(** ** Week ids *)

Section WeekIdProperties.
Import JsString JsDate.

Lemma daysInMonth_values y :
  daysInMonth y 1 = 31 /\ daysInMonth y 3 = 31 /\ daysInMonth y 4 = 30 /\
  daysInMonth y 5 = 31 /\ daysInMonth y 6 = 30 /\ daysInMonth y 7 = 31 /\
  daysInMonth y 8 = 31 /\ daysInMonth y 9 = 30 /\ daysInMonth y 10 = 31 /\
  daysInMonth y 11 = 30 /\ daysInMonth y 12 = 31 /\
  (daysInMonth y 2 = 29 /\ y mod 4 = 0 /\ (y mod 100 <> 0 \/ y mod 400 = 0)
   \/ daysInMonth y 2 = 28 /\ (y mod 4 <> 0 \/ y mod 100 = 0 /\ y mod 400 <> 0)).
Proof.
  repeat (split; [reflexivity|]).
  unfold daysInMonth, isLeapYear. cbn [Z.eqb Pos.eqb].
  destruct (Z.eqb_spec (y mod 4) 0), (Z.eqb_spec (y mod 100) 0), (Z.eqb_spec (y mod 400) 0);
    cbn [andb orb negb]; Z.div_mod_to_equations; lia.
Qed.

Lemma dayOfYear_days y m d :
  1 <= m <= 12 ->
  days_from_civil y m d - days_from_civil y 1 1 = WeekIdSpec.dayOfYear y m d.
Proof.
  intros Hm.
  assert (Hcases : m = 1 \/ m = 2 \/ m = 3 \/ m = 4 \/ m = 5 \/ m = 6 \/ m = 7 \/ m = 8
                   \/ m = 9 \/ m = 10 \/ m = 11 \/ m = 12) by lia.
  destruct (daysInMonth_values y)
    as (D1 & D3 & D4 & D5 & D6 & D7 & D8 & D9 & D10 & D11 & D12 & D2).
  unfold WeekIdSpec.dayOfYear.
  repeat (destruct Hcases as [->|Hcases]); try subst m;
    match goal with
    | |- context [seqZ 1 ?k] =>
        let l := eval vm_compute in (seqZ 1 k) in change (seqZ 1 k) with l
    end;
    unfold Spec.sum_over; cbn [foldr];
    rewrite ?D1, ?D3, ?D4, ?D5, ?D6, ?D7, ?D8, ?D9, ?D10, ?D11, ?D12;
    unfold days_from_civil;
    cbn [Z.leb Z.compare Pos.compare Pos.compare_cont];
    destruct D2 as [(D2 & ? & ?)|(D2 & ?)]; rewrite ?D2; Z.div_mod_to_equations; lia.
Qed.


Lemma parse_date_valid s y m d rest :
  IsoParse.parse_date s = Some (y, m, d, rest) ->
  1 <= m <= 12 /\ 1 <= d <= daysInMonth y m.
Proof.
  unfold IsoParse.parse_date. intros H. unfold mbind, option_bind in H.
  destruct (IsoParse.number 4 0 s) as [[y0 s0]|]; [|discriminate H].
  destruct (IsoParse.lit "-" s0) as [s1|]; [|discriminate H].
  destruct (IsoParse.number 2 0 s1) as [[m0 s2]|]; [|discriminate H].
  destruct (IsoParse.lit "-" s2) as [s3|]; [|discriminate H].
  destruct (IsoParse.number 2 0 s3) as [[d0 s4]|]; [|discriminate H].
  destruct ((1 <=? m0) && (m0 <=? 12) && (1 <=? d0) && (d0 <=? daysInMonth y0 m0)) eqn:E;
    [|discriminate H].
  inversion H; subst. rewrite !andb_true_iff in E. rewrite !Z.leb_le in E. lia.
Qed.

Lemma new_Date_date_only tz s y m d :
  IsoParse.parse_date s = Some (y, m, d, ""%string) ->
  IsoParse.new_Date tz s = Some (days_from_civil y m d * msPerDay).
Proof.
  intros H. unfold IsoParse.new_Date, IsoParse.parse. rewrite H. cbn.
  unfold IsoParse.timeValue, IsoParse.timeOfDay, MakeDate. cbn. f_equal. lia.
Qed.

Lemma Day_of_midnight n : Day (n * msPerDay) = n.
Proof. unfold Day, msPerDay. now rewrite Z.div_mul. Qed.

Lemma Qceiling_days_over_7 (k w : Z) :
  JsMath.ceil (((k * 86400000 # 86400000) + inject_Z w + 1) / 7)%Q
  = JsMath.ceil (inject_Z (k + w + 1) / 7)%Q.
Proof.
  unfold JsMath.ceil. apply Qceiling_comp.
  unfold Qeq, Qdiv, Qmult, Qplus, Qinv, inject_Z. cbn. lia.
Qed.

(** In a runtime at UTC and for a year from 100 on, the id is the one
    the specification words. *)
Lemma generateWeekId_utc s y m d :
  IsoParse.parse_date s = Some (y, m, d, ""%string) ->
  100 <= y ->
  WeekForm.generateWeekId 0 s = WeekIdSpec.weekId y m d.
Proof.
  intros Hparse Hy. destruct (parse_date_valid _ _ _ _ _ Hparse) as [Hm Hd].
  unfold WeekForm.generateWeekId. rewrite (new_Date_date_only 0 _ _ _ _ Hparse).
  set (t := days_from_civil y m d * msPerDay).
  assert (Hyear : getFullYear 0 t = y).
  { unfold getFullYear, LocalTime, YearFromTime. cbn [LocalTZA fixed].
    replace (t + 0 * msPerMinute) with t by lia.
    subst t. rewrite Day_of_midnight, civil_from_days_from_civil by assumption. reflexivity. }
  cbn zeta. rewrite Hyear. unfold WeekIdSpec.weekId. do 3 f_equal.
  unfold WeekForm.getWeekNumber. rewrite Hyear.
  assert (Hfirst : new_Date_ymd 0 y 0 1 = days_from_civil y 1 1 * msPerDay).
  { unfold new_Date_ymd, MakeFullYear, UTC, MakeDate, MakeDay. cbn [LocalTZA fixed].
    replace ((0 <=? y) && (y <=? 99)) with false
      by (symmetry; apply andb_false_iff; right; apply Z.leb_gt; lia).
    change (0 + 1) with 1. lia. }
  rewrite Hfirst.
  assert (Hwd : getDay 0 (days_from_civil y 1 1 * msPerDay) = WeekIdSpec.firstDayOfYearWeekday y).
  { unfold getDay, LocalTime, WeekDay. cbn [LocalTZA fixed].
    replace (days_from_civil y 1 1 * msPerDay + 0 * msPerMinute)
      with (days_from_civil y 1 1 * msPerDay) by lia.
    now rewrite Day_of_midnight. }
  rewrite Hwd. cbn zeta.
  replace (t - days_from_civil y 1 1 * msPerDay)
    with (WeekIdSpec.dayOfYear y m d * 86400000)
    by (subst t; rewrite <- (dayOfYear_days y m d Hm); unfold msPerDay; lia).
  unfold WeekIdSpec.weekNumber. now rewrite Qceiling_days_over_7.
Qed.

End WeekIdProperties.

(** ** Daily distribution *)

Section DailyDistribution.
Import JsString JsDate Aggregates Spec.

Lemma sum_minutes_from (entries : list TimeEntry.t) (start : Z) :
  foldl (fun sum entry => sum + TimeEntry.minutes entry) start entries
  = start + sum_over TimeEntry.minutes entries.
Proof.
  revert start. induction entries as [|entry entries IH]; intros start; cbn [foldl].
  - unfold sum_over. cbn [foldr]. lia.
  - rewrite IH. unfold sum_over. cbn [foldr]. lia.
Qed.

Lemma sum_minutes_sum_over entries : sum_minutes entries = sum_over TimeEntry.minutes entries.
Proof. unfold sum_minutes. now rewrite sum_minutes_from. Qed.

(** One turn of the loop in any zone: the day is found by keeping
    the local time of day of [startDate] and going [i] days on in
    local time; its date is then read in UTC and its weekday in local
    time. *)
Lemma day_bucket_local (tz : TimeZone) startDate weekTimeEntries i :
  day_bucket tz startDate weekTimeEntries i
  = let date := UTC tz (LocalTime tz startDate + i * msPerDay) in
    let dateStr := isoDateOfDay (Day date) in
    {| DayStats.date := dateStr;
       DayStats.day := weekday_short tz date;
       DayStats.minutes :=
         sum_over TimeEntry.minutes
           (filter (fun entry => split_head "T" (TimeEntry.startTime entry) = dateStr)
                   weekTimeEntries) |}.
Proof.
  unfold day_bucket. cbn zeta.
  rewrite setDate_getDate_local, toISOString_date, sum_minutes_sum_over.
  reflexivity.
Qed.

(** The bucket of day [i] in a zone that keeps one offset around the
    week. *)
Lemma day_bucket_spec (tz : TimeZone) offset startDate weekTimeEntries i :
  steady tz offset (startDate - msPerDay) (startDate + 8 * msPerDay) ->
  -1440 < offset < 1440 ->
  0 <= i < 7 ->
  day_bucket tz startDate weekTimeEntries i
  = let dateStr := isoDateOfDay (Day startDate + i) in
    {| DayStats.date := dateStr;
       DayStats.day := weekday_short offset (startDate + i * msPerDay);
       DayStats.minutes :=
         sum_over TimeEntry.minutes
           (filter (fun entry => split_head "T" (TimeEntry.startTime entry) = dateStr)
                   weekTimeEntries) |}.
Proof.
  intros Hsteady Hoffset Hi.
  destruct (steady_week tz offset startDate i Hsteady Hoffset Hi) as [Hset Hday].
  unfold day_bucket. cbn zeta.
  rewrite Hset, toISOString_date, Day_shift, sum_minutes_sum_over.
  unfold weekday_short. now rewrite Hday.
Qed.

(** The entries the distribution is computed from are the entries of
    the tasks of the selected week. *)
Lemma weekTimeEntries_of_week (timeEntries : list TimeEntry.t) (tasks : list Task.t)
    (selectedWeekId : string) (entry : TimeEntry.t) :
  selectedWeekId <> ""%string ->
  (entry ∈ weekTimeEntries timeEntries (weekTasks tasks selectedWeekId)
   <-> entry ∈ timeEntries /\
       exists task, task ∈ tasks /\ Task.weekId task = selectedWeekId
                    /\ Task.id task = TimeEntry.taskId entry).
Proof.
  intros Hweek. unfold weekTimeEntries, weekTasks.
  destruct (decide (selectedWeekId = ""%string)) as [|_]; [contradiction|].
  unfold getTasksByWeek.
  destruct (decide (length (filter (fun task => Task.weekId task = selectedWeekId) tasks)
                    = 0%nat)) as [Hnone|_].
  - apply length_zero_iff_nil in Hnone. split; [intros H; inversion H|].
    intros (_ & task & Htask & Hid & _).
    assert (Hin : task ∈ filter (fun task => Task.weekId task = selectedWeekId) tasks)
      by (apply list_elem_of_filter; split; assumption).
    rewrite Hnone in Hin. inversion Hin.
  - rewrite list_elem_of_filter. split.
    + intros [Hids Hentry]. split; [assumption|].
      apply list_elem_of_In, in_map_iff in Hids as (task & Hid & Htask).
      apply list_elem_of_In, list_elem_of_filter in Htask as [Hw Htask].
      exists task. repeat split; assumption.
    + intros (Hentry & task & Htask & Hw & Hid). split; [|assumption].
      apply list_elem_of_In, in_map_iff. exists task. split; [assumption|].
      apply list_elem_of_In, list_elem_of_filter. split; assumption.
Qed.

(** In a zone that keeps one offset around the week, the distribution
    is the one the specification words: a bucket for each of the 7
    consecutive days from the start date on, with the minutes of the
    entries of the week's tasks whose [startTime] (the [endTime] is
    never read) begins with the date of the bucket. *)
Lemma dailyTimeDistribution_steady_week (tz : TimeZone) offset week y m d
    (timeEntries : list TimeEntry.t) (tasks : list Task.t) (selectedWeekId : string) :
  IsoParse.parse_date (Week.startDate week) = Some (y, m, d, ""%string) ->
  steady tz offset ((days_from_civil y m d - 1) * msPerDay)
                   ((days_from_civil y m d + 8) * msPerDay) ->
  -1440 < offset < 1440 ->
  let entries := weekTimeEntries timeEntries (weekTasks tasks selectedWeekId) in
  map (fun bucket => (DayStats.date bucket, DayStats.minutes bucket))
    <$> dailyTimeDistribution tz (Some week) entries
  = Some (DailySpec.distribution (days_from_civil y m d) entries).
Proof.
  intros Hparse Hsteady Hoffset entries. unfold dailyTimeDistribution.
  rewrite (new_Date_date_only tz _ y m d Hparse).
  cbn [mbind option_bind fmap option_fmap option_map]. f_equal.
  unfold DailySpec.distribution. rewrite map_map.
  change (seqZ 0 7) with [0; 1; 2; 3; 4; 5; 6]. cbn [map].
  assert (Hrange : steady tz offset (days_from_civil y m d * msPerDay - msPerDay)
                     (days_from_civil y m d * msPerDay + 8 * msPerDay)).
  { intros t isUTC Ht. apply Hsteady. lia. }
  rewrite !(day_bucket_spec tz offset) by (assumption || lia).
  cbn zeta. cbn [DayStats.date DayStats.minutes]. now rewrite Day_of_midnight.
Qed.

(** C6.  In a zone that puts its clocks forward during the week the
    buckets are not the 7 consecutive days from the start date on.
    For the week that starts on 2025-03-30 in a zone one hour east of
    UTC until 01:00 UTC of that day and two hours from then on, the
    date 2025-03-30 comes twice, labelled "Sun" and "Mon", and there
    is no bucket for 2025-04-05: of the two entries of the week's
    task, the 30 minutes of 30 March are counted in two buckets and
    the 45 minutes of 5 April in none.  The specification counts
    each entry once, in the bucket of its date.  At the fixed offset
    of one hour the code does the same, and the example of the
    specification, the week of 2025-05-19 with 45 minutes on
    2025-05-21, comes out as stated in the sample zone too. *)
Theorem dailyTimeDistribution_across_clock_change :
  let entries :=
    weekTimeEntries [Samples.entry1; ZoneSamples.entry_sunday; ZoneSamples.entry_saturday]
      (weekTasks [Samples.task1; ZoneSamples.task7] "2025-W14") in
  entries = [ZoneSamples.entry_sunday; ZoneSamples.entry_saturday] /\
  map (fun bucket => (DayStats.date bucket, DayStats.day bucket, DayStats.minutes bucket))
    <$> dailyTimeDistribution ZoneSamples.paris_2025 (Some ZoneSamples.week14) entries
  = Some [("2025-03-30", "Sun", 30); ("2025-03-30", "Mon", 30); ("2025-03-31", "Tue", 0);
          ("2025-04-01", "Wed", 0); ("2025-04-02", "Thu", 0); ("2025-04-03", "Fri", 0);
          ("2025-04-04", "Sat", 0)]%string /\
  DailySpec.distribution (days_from_civil 2025 3 30) entries
  = [("2025-03-30", 30); ("2025-03-31", 0); ("2025-04-01", 0); ("2025-04-02", 0);
     ("2025-04-03", 0); ("2025-04-04", 0); ("2025-04-05", 45)]%string /\
  map (fun bucket => (DayStats.date bucket, DayStats.minutes bucket))
    <$> dailyTimeDistribution 60 (Some ZoneSamples.week14) entries
  = Some (DailySpec.distribution (days_from_civil 2025 3 30) entries) /\
  map (fun bucket => (DayStats.date bucket, DayStats.minutes bucket))
    <$> dailyTimeDistribution ZoneSamples.paris_2025 (Some Samples.week21) [Samples.entry1]
  = Some [("2025-05-19", 0); ("2025-05-20", 0); ("2025-05-21", 45); ("2025-05-22", 0);
          ("2025-05-23", 0); ("2025-05-24", 0); ("2025-05-25", 0)]%string.
Proof. cbn zeta. repeat split; vm_compute; reflexivity. Qed.

(** When the start date of the week is a date, the distribution is
    computed: seven buckets, all of 0 minutes when there is no
    entry. *)
Lemma dailyTimeDistribution_of_dated_week (tz : TimeZone) week startDate :
  IsoParse.new_Date tz (Week.startDate week) = Some startDate ->
  (forall weekTimeEntries,
     exists days, dailyTimeDistribution tz (Some week) weekTimeEntries = Some days
                  /\ length days = 7%nat) /\
  (exists days, dailyTimeDistribution tz (Some week) [] = Some days
                /\ Forall (fun day => DayStats.minutes day = 0) days).
Proof.
  intros Hstart. unfold dailyTimeDistribution. rewrite Hstart. cbn [mbind option_bind].
  split.
  - intros weekTimeEntries. eexists. split; [reflexivity|]. now rewrite length_map.
  - eexists. split; [reflexivity|]. apply Forall_map, Forall_forall. intros i _.
    reflexivity.
Qed.

(** C4.  For a week whose [startDate] is missing (the empty string)
    the daily distribution of the reflection page throws:
    [new Date("")] is an invalid date, and [toISOString] raises a
    [RangeError] in the first turn of the loop.  This happens
    whatever the zone and the entries, also for a week whose
    [totalPlannedMinutes] is 0 and no task at all, where the
    efficiency and the completion stats are 0. *)
Theorem dailyTimeDistribution_throws_without_start_date :
  forall (tz : TimeZone) (percent : Z -> Z -> Z) (week : Week.t)
         (weekTimeEntries : list TimeEntry.t),
    Week.startDate week = ""%string ->
    Week.totalPlannedMinutes week = 0 ->
    dailyTimeDistribution tz (Some week) weekTimeEntries = None /\
    dailyTimeDistribution tz (Some week) [] = None /\
    TimeStats.efficiency (timeStats percent (Some week)) = 0 /\
    CompletionStats.completionRate (completionStats percent (weekTasks [] (Week.id week))) = 0.
Proof.
  intros tz percent week weekTimeEntries Hstart Hplanned.
  unfold dailyTimeDistribution. rewrite Hstart.
  repeat split.
  - cbn. now rewrite Hplanned.
  - unfold weekTasks. now destruct (decide _).
Qed.

Lemma dailyTimeDistribution_throws_without_start_date_witness :
  dailyTimeDistribution ZoneSamples.paris_2025 (Some ZoneSamples.week_undated)
    [Samples.entry1] = None /\
  dailyTimeDistribution ZoneSamples.paris_2025 (Some ZoneSamples.week_undated) [] = None /\
  TimeStats.efficiency (timeStats Samples.percent_exact (Some ZoneSamples.week_undated)) = 0 /\
  CompletionStats.completionRate
    (completionStats Samples.percent_exact (weekTasks [] "2025-W22")) = 0.
Proof.
  apply (dailyTimeDistribution_throws_without_start_date ZoneSamples.paris_2025
           Samples.percent_exact ZoneSamples.week_undated [Samples.entry1]);
    reflexivity.
Defined.

End DailyDistribution.

(** ** Week ids and the time zone *)

Section WeekIdZone.

(** C7.  In a runtime five hours west of UTC the start date
    2025-01-01 gets the id "2024-W53": the date string is read as UTC
    midnight, which is still 31 December 2024 in local time, and the
    year and the first day of the year are taken in local time.  One
    hour east of UTC the start date 2025-01-04 gets "2025-W02",
    because the days past since local midnight of 1 January are then
    a fraction above 3.  The formula of the specification gives
    "2025-W01" for both dates. *)
Theorem generateWeekId_off_utc :
  WeekForm.generateWeekId (-300) "2025-01-01" = "2024-W53"%string /\
  WeekIdSpec.weekId 2025 1 1 = "2025-W01"%string /\
  WeekForm.generateWeekId 60 "2025-01-04" = "2025-W02"%string /\
  WeekIdSpec.weekId 2025 1 4 = "2025-W01"%string.
Proof. repeat split; vm_compute; reflexivity. Qed.

Example generateWeekId_utc_2025_05_19 :
  WeekForm.generateWeekId 0 "2025-05-19" = "2025-W21"%string.
Proof. vm_compute. reflexivity. Qed.

End WeekIdZone.

(** ** Durations *)

Section Durations.
Import TimeEntryForm.

Lemma new_Date_empty tz : IsoParse.new_Date tz "" = None.
Proof. reflexivity. Qed.

Lemma round_minutes (d : Z) : JsMath.round (d # 60000) = (2 * d + 60000) / 120000.
Proof.
  unfold JsMath.round, Qfloor, Qplus. cbn [Qnum Qden].
  f_equal. lia.
Qed.

(** C9.  In range mode, for a start and an end that are valid times,
    the minutes the form computes are an integer that is never
    negative: 0 whenever the end is not after the start, and otherwise
    the distance from start to end in minutes rounded to the nearest
    whole minute, which is the exact number of minutes when the two
    times are a whole number of minutes apart. *)
Theorem calculateMinutes_whole_and_clamped :
  forall tz (timeEntryForm : TimeEntryFormData) (start end_ : Z),
    isManual timeEntryForm = false ->
    IsoParse.new_Date tz (startTime timeEntryForm) = Some start ->
    IsoParse.new_Date tz (endTime timeEntryForm) = Some end_ ->
    exists m : Z,
      calculateMinutes tz timeEntryForm = JsMath.Int m /\
      minutes (on_time_change tz timeEntryForm) = JsMath.Int m /\
      0 <= m /\
      (end_ <= start -> m = 0) /\
      (start < end_ ->
       m = JsMath.round ((end_ - start) # 60000) /\
       - 30000 < 60000 * m - (end_ - start) <= 30000) /\
      (start < end_ -> (end_ - start) mod 60000 = 0 -> 60000 * m = end_ - start).
Proof.
  intros tz form start end_ Hrange Hstart Hend.
  assert (Hm : exists m : Z,
             calculateMinutes tz form = JsMath.Int m /\
             (end_ <= start -> m = 0) /\
             (start < end_ -> m = JsMath.round ((end_ - start) # 60000))).
  { unfold calculateMinutes.
    destruct (bool_decide_reflect (startTime form = ""%string)) as [E|_];
      [rewrite E, new_Date_empty in Hstart; discriminate Hstart|].
    destruct (bool_decide_reflect (endTime form = ""%string)) as [E|_];
      [rewrite E, new_Date_empty in Hend; discriminate Hend|].
    cbn [orb]. rewrite Hstart, Hend.
    destruct (Z.leb_spec end_ start) as [Hle|Hlt].
    - exists 0. split; [reflexivity|]. split; intros; [reflexivity|lia].
    - eexists. split; [reflexivity|]. split; intros; [lia|reflexivity]. }
  destruct Hm as (m & Hcalc & Hle & Hlt). exists m.
  split; [exact Hcalc|]. split.
  { unfold on_time_change. rewrite Hrange. exact Hcalc. }
  split.
  { destruct (Z.le_gt_cases end_ start) as [H|H]; [rewrite (Hle H); lia|].
    rewrite (Hlt H), round_minutes. Z.div_mod_to_equations; lia. }
  split; [exact Hle|]. split.
  - intros H. split; [exact (Hlt H)|].
    rewrite (Hlt H), round_minutes. Z.div_mod_to_equations; lia.
  - intros H Hmod. rewrite (Hlt H), round_minutes. Z.div_mod_to_equations; lia.
Qed.

Lemma calculateMinutes_whole_and_clamped_witness :
  exists m : Z,
    calculateMinutes 120 (Samples.range_form "2025-05-21T14:00" "2025-05-21T14:45")
    = JsMath.Int m /\
    minutes (on_time_change 120 (Samples.range_form "2025-05-21T14:00" "2025-05-21T14:45"))
    = JsMath.Int m /\
    0 <= m /\
    (1747831500000 <= 1747828800000 -> m = 0) /\
    (1747828800000 < 1747831500000 ->
     m = JsMath.round ((1747831500000 - 1747828800000) # 60000) /\
     - 30000 < 60000 * m - (1747831500000 - 1747828800000) <= 30000) /\
    (1747828800000 < 1747831500000 ->
     (1747831500000 - 1747828800000) mod 60000 = 0 ->
     60000 * m = 1747831500000 - 1747828800000).
Proof.
  apply (calculateMinutes_whole_and_clamped 120
           (Samples.range_form "2025-05-21T14:00" "2025-05-21T14:45")
           1747828800000 1747831500000); reflexivity.
Defined.

Example calculateMinutes_45 :
  calculateMinutes 120 (Samples.range_form "2025-05-21T14:00" "2025-05-21T14:45")
  = JsMath.Int 45.
Proof. vm_compute. reflexivity. Qed.

Example calculateMinutes_end_before_start :
  calculateMinutes 120 (Samples.range_form "2025-05-21T14:45" "2025-05-21T14:00")
  = JsMath.Int 0.
Proof. vm_compute. reflexivity. Qed.

End Durations.


(** * Further properties *)

(** ** Store actions that succeed, and the other ways they fail *)

Section StoreOutcomes.
Import Async.

Ltac run_store :=
  unfold TaskStore.run, TimeEntryStore.run,
    TaskStore.fetchTasks, TaskStore.createTask, TaskStore.updateTask, TaskStore.deleteTask,
    TimeEntryStore.fetchTimeEntries, TimeEntryStore.createTimeEntry,
    TimeEntryStore.updateTimeEntry, TimeEntryStore.deleteTimeEntry,
    TaskStore.get_tasks, TaskStore.set_tasks, TaskStore.set_error, TaskStore.set_isLoading,
    TimeEntryStore.get_timeEntries, TimeEntryStore.set_timeEntries,
    TimeEntryStore.set_error, TimeEntryStore.set_isLoading,
    try_catch_finally, when, bind, ret, throw, get, modify, fetch, await_json,
    find, findIndex;
  cbn [store requests fst snd TaskStore.tasks TaskStore.isLoading TaskStore.error
       TimeEntryStore.timeEntries TimeEntryStore.isLoading TimeEntryStore.error].

(** X1.  [fetchTasks] and [fetchTimeEntries] never lose the collection:
    when the promise rejects (the fetch rejects, the status is not
    2xx, or the body cannot be read) the collection is the one from
    before the call; when it resolves, the response was 2xx and the
    collection is exactly the list its body held. *)
Theorem fetch_replaces_or_keeps :
  forall (ts : TaskStore.State) (es : TimeEntryStore.State)
         (treply : FetchReply (list Task.t)) (ereply : FetchReply (list TimeEntry.t)),
    (let '(c, w) := TaskStore.run (TaskStore.fetchTasks treply) ts in
     match c with
     | Throw _ => TaskStore.tasks (store w) = TaskStore.tasks ts
     | Normal _ =>
         exists r, treply = Responds r /\ ok r = true /\
                   json r = Normal (TaskStore.tasks (store w))
     end)
    /\
    (let '(c, w) := TimeEntryStore.run (TimeEntryStore.fetchTimeEntries ereply) es in
     match c with
     | Throw _ => TimeEntryStore.timeEntries (store w) = TimeEntryStore.timeEntries es
     | Normal fetched =>
         TimeEntryStore.timeEntries (store w) = fetched /\
         exists r, ereply = Responds r /\ ok r = true /\ json r = Normal fetched
     end).
Proof.
  intros ts es treply ereply. run_store. split.
  - destruct treply as [e|r]; cbn; [reflexivity|].
    destruct (ok r) eqn:Hok; cbn; [|reflexivity].
    destruct (json r) as [l|e] eqn:Hjson; cbn; [|reflexivity].
    exists r. auto.
  - destruct ereply as [e|r]; cbn; [reflexivity|].
    destruct (ok r) eqn:Hok; cbn; [|reflexivity].
    destruct (json r) as [l|e] eqn:Hjson; cbn; [|reflexivity].
    split; [reflexivity|]. exists r. auto.
Qed.

Lemma list_find_snoc_fresh {A} (P : A -> Prop) `{!forall x, Decision (P x)} (l : list A) (x : A) :
  Forall (fun y => ~ P y) l -> P x -> list_find P (l ++ [x]) = Some (length l, x).
Proof.
  intros Hl Hx. induction Hl as [|y l Hy Hl IH]; cbn.
  - now rewrite decide_True.
  - rewrite decide_False by assumption. now rewrite IH.
Qed.

Lemma insert_snoc {A} (l : list A) (x y : A) : <[length l := y]> (l ++ [x]) = l ++ [y].
Proof. induction l as [|z l IH]; simpl; [reflexivity|]. f_equal. exact IH. Qed.



Lemma list_find_delete_other {A} (P : A -> Prop) `{!forall x, Decision (P x)}
    (l : list A) (i : nat) (x : A) :
  l !! i = Some x -> ~ P x -> snd <$> list_find P (delete i l) = snd <$> list_find P l.
Proof.
  revert i. induction l as [|y l IH]; intros [|i] Hi Hx; cbn in *; try discriminate.
  - inversion Hi; subst. rewrite decide_False by assumption.
    destruct (list_find P l) as [[j z]|]; reflexivity.
  - destruct (decide (P y)); [reflexivity|].
    specialize (IH i Hi Hx).
    destruct (list_find P (delete i l)) as [[j z]|], (list_find P l) as [[j' z']|];
      cbn in *; congruence.
Qed.

Lemma list_find_delete_found {A} (P : A -> Prop) `{!forall x, Decision (P x)}
    (l : list A) (i : nat) (x : A) :
  list_find P l = Some (i, x) ->
  length (filter P (delete i l)) = pred (length (filter P l)).
Proof.
  revert i. induction l as [|y l IH]; intros i Hfind; cbn in Hfind; [discriminate|].
  destruct (decide (P y)) as [Hy|Hy].
  - inversion Hfind; subst. cbn [delete list_delete].
    rewrite filter_cons_True by assumption. reflexivity.
  - destruct (list_find P l) as [[j z]|] eqn:E; [|discriminate].
    cbn in Hfind. inversion Hfind; subst. cbn [delete list_delete].
    rewrite !filter_cons_False by assumption. now apply IH.
Qed.



Lemma totalMinutes_app entries entry start :
  foldl (fun sum e => sum + TimeEntry.minutes e) start (entries ++ [entry])
  = foldl (fun sum e => sum + TimeEntry.minutes e) start entries + TimeEntry.minutes entry.
Proof. now rewrite foldl_app. Qed.


(** X7.  The time-entry store changes its collection on success only:
    whenever one of its four actions rejects, for whatever reason
    (unknown id, rejected fetch, status outside 2xx, unreadable body),
    the collection is the one from before the call. *)
Theorem timeEntry_actions_reject_without_change :
  forall (s : TimeEntryStore.State) (lreply : FetchReply (list TimeEntry.t))
         (ereply : FetchReply TimeEntry.t) (dreply : FetchReply unit)
         clock entryData (id : string) updates,
    (let '(c, w) := TimeEntryStore.run (TimeEntryStore.fetchTimeEntries lreply) s in
     (exists e, c = Throw e) ->
     TimeEntryStore.timeEntries (store w) = TimeEntryStore.timeEntries s) /\
    (let '(c, w) := TimeEntryStore.run
                      (TimeEntryStore.createTimeEntry clock entryData ereply) s in
     (exists e, c = Throw e) ->
     TimeEntryStore.timeEntries (store w) = TimeEntryStore.timeEntries s) /\
    (let '(c, w) := TimeEntryStore.run (TimeEntryStore.updateTimeEntry id updates ereply) s in
     (exists e, c = Throw e) ->
     TimeEntryStore.timeEntries (store w) = TimeEntryStore.timeEntries s) /\
    (let '(c, w) := TimeEntryStore.run (TimeEntryStore.deleteTimeEntry id dreply) s in
     (exists e, c = Throw e) ->
     TimeEntryStore.timeEntries (store w) = TimeEntryStore.timeEntries s).
Proof.
  intros s lreply ereply dreply clock entryData id updates. run_store.
  split; [|split; [|split]];
    repeat match goal with
           | |- context [list_find ?P ?l] => destruct (list_find P l) as [[? ?]|]; cbn
           | |- context [match ?x with Rejects _ => _ | Responds _ => _ end] =>
               destruct x as [?|?]; cbn
           | |- context [ok ?x] => destruct (ok x); cbn
           | |- context [json ?x] => destruct (json x); cbn
           end;
    first [ intros _; reflexivity | intros [? He]; discriminate He ].
Qed.

(** X8.  A 2xx response whose body cannot be read makes [createTask]
    and [updateTask] reject while the optimistic record stays in the
    collection: the server has accepted the request, the local record
    is the client's version of it. *)
Theorem task_actions_keep_optimistic_state_on_unreadable_body :
  forall (s : TaskStore.State) clock taskData now (taskId : string) updates
         (r : Response Task.t) e i originalTask,
    ok r = true -> json r = Throw e ->
    list_find (fun task => Task.id task = taskId) (TaskStore.tasks s) = Some (i, originalTask) ->
    (let '(c, w) := TaskStore.run (TaskStore.createTask clock taskData (Responds r)) s in
     c = Throw e /\
     TaskStore.tasks (store w) = TaskStore.tasks s ++ [TaskStore.newTask_of clock taskData]) /\
    (let '(c, w) := TaskStore.run (TaskStore.updateTask now taskId updates (Responds r)) s in
     c = Throw e /\
     TaskStore.tasks (store w)
     = <[i := TaskStore.updatedTask_of now originalTask updates]> (TaskStore.tasks s)).
Proof.
  intros s clock taskData now taskId updates r e i originalTask Hok Hjson Hfind.
  run_store. rewrite Hfind. cbn. rewrite Hok, Hjson. cbn. repeat split.
Qed.






Lemma task_actions_keep_optimistic_state_on_unreadable_body_witness :
  let s := Samples.task_store [Samples.task1] in
  (let '(c, w) := TaskStore.run
                    (TaskStore.createTask Samples.clock Samples.draft
                       (Responds MoreSamples.unreadable)) s in
   c = Throw (JsError "Unexpected token < in JSON") /\
   TaskStore.tasks (store w)
   = TaskStore.tasks s ++ [TaskStore.newTask_of Samples.clock Samples.draft]) /\
  (let '(c, w) := TaskStore.run
                    (TaskStore.updateTask 1747836000000 "task-1" Samples.rename
                       (Responds MoreSamples.unreadable)) s in
   c = Throw (JsError "Unexpected token < in JSON") /\
   TaskStore.tasks (store w)
   = <[0%nat := TaskStore.updatedTask_of 1747836000000 Samples.task1 Samples.rename]>
       (TaskStore.tasks s)).
Proof.
  apply (task_actions_keep_optimistic_state_on_unreadable_body
           (Samples.task_store [Samples.task1]) Samples.clock Samples.draft
           1747836000000 "task-1" Samples.rename MoreSamples.unreadable
           (JsError "Unexpected token < in JSON") 0%nat Samples.task1);
    reflexivity.
Defined.

End StoreOutcomes.


(** ** Getters of the task store *)

Section TaskGetterProperties.
Import TaskGetters TallySpec.

Section Tally.
Context {K : Type} `{EqDecision K}.

Lemma value_of_increment (key k : K) (acc : list (K * Z)) :
  value_of k (increment key acc)
  = value_of k acc + (if decide (k = key) then 1 else 0).
Proof.
  induction acc as [|[k' n] acc IH]; cbn.
  - destruct (decide (key = k)), (decide (k = key)); congruence || lia.
  - destruct (decide (k' = key)) as [->|Hne]; cbn.
    + destruct (decide (key = k)), (decide (k = key)); try congruence; try lia.
      unfold JsMath.or_zero. destruct (Z.eqb_spec n 0); subst; lia.
    + rewrite IH. destruct (decide (k' = k)), (decide (k = key)); try congruence; lia.
Qed.

Lemma keys_increment (key : K) (acc : list (K * Z)) :
  map fst (increment key acc)
  = map fst acc ++ (if decide (key ∈ map fst acc) then [] else [key]).
Proof.
  induction acc as [|[k' n] acc IH]; cbn.
  - destruct (decide (key ∈ [])) as [Hin|Hin]; [inversion Hin|reflexivity].
  - destruct (decide (k' = key)) as [->|Hne]; cbn.
    + destruct (decide (key ∈ key :: map fst acc)) as [Hin|Hin].
      * now rewrite app_nil_r.
      * exfalso. apply Hin. left.
    + rewrite IH. f_equal.
      destruct (decide (key ∈ map fst acc)) as [Hin|Hin],
               (decide (key ∈ k' :: map fst acc)) as [Hin'|Hin']; try reflexivity.
      * exfalso. apply Hin'. now right.
      * exfalso. apply elem_of_cons in Hin' as [->|Hin']; [now apply Hne|now apply Hin].
Qed.

Lemma total_increment (key : K) (acc : list (K * Z)) :
  Forall (fun kv => 1 <= snd kv) acc ->
  Spec.sum_over snd (increment key acc) = Spec.sum_over snd acc + 1
  /\ Forall (fun kv => 1 <= snd kv) (increment key acc).
Proof.
  unfold Spec.sum_over. induction 1 as [|[k' n] acc Hn Hacc [IH1 IH2]]; cbn.
  - split; [lia|]. repeat constructor. cbn. lia.
  - cbn in Hn. destruct (decide (k' = key)); cbn.
    + unfold JsMath.or_zero. destruct (Z.eqb_spec n 0); [lia|].
      split; [lia|]. constructor; [cbn; lia|assumption].
    + split; [lia|]. constructor; [assumption|assumption].
Qed.

(** The object built by counting a list of keys one after the other. *)
Lemma tally_spec (keys : list K) (acc : list (K * Z)) :
  NoDup (map fst acc) -> Forall (fun kv => 1 <= snd kv) acc ->
  let result := foldl (fun acc key => increment key acc) acc keys in
  NoDup (map fst result) /\
  Forall (fun kv => 1 <= snd kv) result /\
  (forall k, value_of k result = value_of k acc + occurrences_of k keys) /\
  (forall k, k ∈ map fst result <-> k ∈ map fst acc \/ k ∈ keys) /\
  Spec.sum_over snd result = Spec.sum_over snd acc + Z.of_nat (length keys).
Proof.
  revert acc. induction keys as [|key keys IH]; intros acc Hnd Hpos; cbn [foldl].
  - cbn zeta. split; [assumption|]. split; [assumption|]. split; [|split].
    + intros k. unfold occurrences_of. cbn. lia.
    + intros k. rewrite elem_of_nil. tauto.
    + cbn. lia.
  - destruct (total_increment key acc Hpos) as [Htot Hpos'].
    assert (Hnd' : NoDup (map fst (increment key acc))).
    { rewrite keys_increment. destruct (decide (key ∈ map fst acc)).
      - now rewrite app_nil_r.
      - apply NoDup_app. split; [assumption|]. split; [|apply NoDup_singleton].
        intros x Hx Hx'. apply list_elem_of_singleton in Hx'. now subst. }
    destruct (IH _ Hnd' Hpos') as (I1 & I2 & I3 & I4 & I5). cbn zeta.
    split; [assumption|]. split; [assumption|]. split; [|split].
    + intros k. rewrite I3, value_of_increment. unfold occurrences_of.
      destruct (decide (k = key)) as [->|Hne].
      * rewrite filter_cons_True by reflexivity. cbn [length]. lia.
      * rewrite filter_cons_False by congruence. lia.
    + intros k. rewrite I4, keys_increment, elem_of_app, elem_of_cons.
      destruct (decide (key ∈ map fst acc)) as [Hin|Hin].
      * rewrite elem_of_nil. split; [tauto|]. intros [?|[->|?]]; tauto.
      * rewrite list_elem_of_singleton. tauto.
    + rewrite I5, Htot. cbn [length]. lia.
Qed.

Lemma value_of_member (k : K) (n : Z) (acc : list (K * Z)) :
  NoDup (map fst acc) -> (k, n) ∈ acc -> value_of k acc = n.
Proof.
  induction acc as [|[k' n'] acc IH]; intros Hnd Hin.
  - now apply elem_of_nil in Hin.
  - cbn in Hnd. apply NoDup_cons in Hnd as [Hnotin Hnd]. cbn.
    apply elem_of_cons in Hin as [Heq|Hin].
    + inversion Heq; subst. now rewrite decide_True.
    + destruct (decide (k' = k)) as [->|Hne]; [|now apply IH].
      exfalso. apply Hnotin. apply list_elem_of_fmap. exists (k, n). now split.
Qed.
End Tally.

Lemma occurrences_of_map {A K} `{EqDecision K} (f : A -> K) (key : K) (l : list A) :
  occurrences_of key (map f l) = Aggregates.count (fun x => f x = key) l.
Proof.
  unfold occurrences_of, Aggregates.count. f_equal.
  induction l as [|x l IH]; [reflexivity|]. cbn [map].
  destruct (decide (f x = key)) as [E|E].
  - rewrite !filter_cons_True by assumption. cbn [length]. now rewrite IH.
  - rewrite !filter_cons_False by assumption. exact IH.
Qed.

Lemma occurrences_of_flat_map {A K} `{EqDecision K} (f : A -> list K) (key : K) (l : list A) :
  occurrences_of key (flat_map f l) = Spec.sum_over (fun x => occurrences_of key (f x)) l.
Proof.
  unfold occurrences_of, Spec.sum_over.
  induction l as [|x l IH]; [reflexivity|]. cbn [flat_map map fold_right].
  rewrite filter_app, length_app, Nat2Z.inj_add, IH. reflexivity.
Qed.

Lemma length_flat_map_sum {A K} (f : A -> list K) (l : list A) :
  Z.of_nat (length (flat_map f l)) = Spec.sum_over (fun x => Z.of_nat (length (f x))) l.
Proof.
  unfold Spec.sum_over.
  induction l as [|x l IH]; [reflexivity|]. cbn [flat_map map fold_right].
  rewrite length_app, Nat2Z.inj_add, IH. reflexivity.
Qed.

Lemma tasksByStatus_fold s :
  tasksByStatus s
  = foldl (fun acc key => increment key acc) [] (map Task.status (TaskStore.tasks s)).
Proof.
  unfold tasksByStatus. generalize (@nil (TaskStatus.t * Z)).
  induction (TaskStore.tasks s) as [|task tasks IH]; intros acc; cbn; [reflexivity|apply IH].
Qed.

Lemma tasksByArea_fold s :
  tasksByArea s
  = foldl (fun acc key => increment key acc) [] (flat_map Task.areas (TaskStore.tasks s)).
Proof.
  unfold tasksByArea. generalize (@nil (TaskArea.t * Z)).
  induction (TaskStore.tasks s) as [|task tasks IH]; intros acc; cbn [flat_map foldl];
    [reflexivity|].
  now rewrite foldl_app, IH.
Qed.

(** X9.  [tasksByStatus] has one key for each status that some task
    has and none for the others; the number under a status is the
    number of tasks with that status, and the numbers add up to
    [taskCount]. *)
Theorem tasksByStatus_counts :
  forall s : TaskStore.State,
    NoDup (map fst (tasksByStatus s)) /\
    (forall status n,
       (status, n) ∈ tasksByStatus s ->
       1 <= n /\
       n = Aggregates.count (fun task => Task.status task = status) (TaskStore.tasks s)) /\
    (forall task, task ∈ TaskStore.tasks s -> Task.status task ∈ map fst (tasksByStatus s)) /\
    Spec.sum_over snd (tasksByStatus s) = taskCount s.
Proof.
  intros s. rewrite tasksByStatus_fold.
  destruct (tally_spec (map Task.status (TaskStore.tasks s)) [])
    as (Hnd & Hpos & Hval & Hkeys & Htot); [constructor|constructor|].
  cbn zeta in *. split; [assumption|]. split; [|split].
  - intros status n Hin. split.
    + rewrite Forall_forall in Hpos. exact (Hpos _ Hin).
    + rewrite <- (value_of_member _ _ _ Hnd Hin), Hval.
      change (value_of status []) with 0. rewrite Z.add_0_l.
      apply occurrences_of_map.
  - intros task Hin. apply Hkeys. right. apply list_elem_of_fmap. now exists task.
  - rewrite Htot. cbn. unfold taskCount. now rewrite length_map.
Qed.

(** X10.  [tasksByArea] counts tags: the number under an area is
    the number of times the area is listed by the tasks, areas no task
    lists have no key, and the numbers add up to the number of tags of
    all tasks, which exceeds [taskCount] as soon as a task has two
    areas. *)
Theorem tasksByArea_counts :
  forall s : TaskStore.State,
    NoDup (map fst (tasksByArea s)) /\
    (forall area n,
       (area, n) ∈ tasksByArea s ->
       1 <= n /\
       n = Spec.sum_over (fun task => occurrences_of area (Task.areas task))
                         (TaskStore.tasks s)) /\
    (forall area, area ∈ map fst (tasksByArea s)
                  <-> exists task, task ∈ TaskStore.tasks s /\ area ∈ Task.areas task) /\
    Spec.sum_over snd (tasksByArea s)
    = Spec.sum_over (fun task => Z.of_nat (length (Task.areas task))) (TaskStore.tasks s).
Proof.
  intros s. rewrite tasksByArea_fold.
  destruct (tally_spec (flat_map Task.areas (TaskStore.tasks s)) [])
    as (Hnd & Hpos & Hval & Hkeys & Htot); [constructor|constructor|].
  cbn zeta in *. split; [assumption|]. split; [|split].
  - intros area n Hin. split.
    + rewrite Forall_forall in Hpos. exact (Hpos _ Hin).
    + rewrite <- (value_of_member _ _ _ Hnd Hin), Hval.
      change (value_of area []) with 0. rewrite Z.add_0_l.
      apply occurrences_of_flat_map.
  - intros area. rewrite Hkeys, elem_of_nil, list_elem_of_In, in_flat_map.
    split.
    + intros [[]|(task & Hin & Harea)]. exists task.
      now rewrite !list_elem_of_In.
    + intros (task & Hin & Harea). right. exists task.
      now rewrite <- !list_elem_of_In.
  - rewrite Htot. change (Spec.sum_over snd []) with 0. rewrite Z.add_0_l.
    apply length_flat_map_sum.
Qed.

Lemma Set_values_fold {A} `{EqDecision A} (values set : list A) :
  NoDup set ->
  let result := foldl (fun set x => if decide (x ∈ set) then set else set ++ [x]) set values in
  NoDup result /\ (forall x, x ∈ result <-> x ∈ set \/ x ∈ values).
Proof.
  revert set. induction values as [|v values IH]; intros set Hnd; cbn [foldl]; cbn zeta.
  - split; [assumption|]. intros x. rewrite elem_of_nil. tauto.
  - destruct (decide (v ∈ set)) as [Hin|Hin].
    + destruct (IH set Hnd) as [I1 I2]. split; [assumption|].
      intros x. rewrite I2, elem_of_cons. split; [tauto|]. intros [?|[->|?]]; tauto.
    + assert (Hnd' : NoDup (set ++ [v])).
      { apply NoDup_app. split; [assumption|]. split; [|apply NoDup_singleton].
        intros x Hx Hx'. apply list_elem_of_singleton in Hx'. now subst. }
      destruct (IH _ Hnd') as [I1 I2]. split; [assumption|].
      intros x. rewrite I2, elem_of_app, list_elem_of_singleton, elem_of_cons. tauto.
Qed.

Lemma keys_of_tally {K} `{EqDecision K} (keys : list K) (acc : list (K * Z)) :
  map fst (foldl (fun acc key => increment key acc) acc keys)
  = foldl (fun set x => if decide (x ∈ set) then set else set ++ [x]) (map fst acc) keys.
Proof.
  revert acc. induction keys as [|key keys IH]; intros acc; cbn [foldl]; [reflexivity|].
  rewrite IH, keys_increment.
  destruct (decide (key ∈ map fst acc)); [now rewrite app_nil_r|reflexivity].
Qed.

Lemma area_name_inj : Inj (=) (=) area_name.
Proof. intros [] [] E; try reflexivity; discriminate E. Qed.

Lemma area_le_order : PartialOrder area_le /\ Total area_le.
Proof.
  destruct String.le_po as [[Hrefl Htrans] Hanti]. split; [split; [split|]|].
  - intros a. apply Hrefl.
  - intros a b c. apply Htrans.
  - intros a b Hab Hba. apply area_name_inj. now apply Hanti.
  - intros a b. apply String.le_total.
Qed.

(** X11.  [uniqueAreas] lists exactly the areas some task is tagged
    with, each once, in the alphabetical order of their names; the
    keys of [tasksByArea] are the same areas, and no other sorted
    arrangement of them exists. *)
Theorem uniqueAreas_sorted_distinct :
  forall s : TaskStore.State,
    StronglySorted area_le (uniqueAreas s) /\
    NoDup (uniqueAreas s) /\
    (forall area, area ∈ uniqueAreas s
                  <-> exists task, task ∈ TaskStore.tasks s /\ area ∈ Task.areas task) /\
    uniqueAreas s ≡ₚ map fst (tasksByArea s) /\
    (forall areas, Sorted area_le areas -> areas ≡ₚ map fst (tasksByArea s) ->
                   areas = uniqueAreas s).
Proof.
  intros s. destruct area_le_order as [Hpo Htotal].
  assert (Htrans : Transitive area_le) by apply Hpo.
  assert (Hanti : AntiSymm (=) area_le) by apply Hpo.
  unfold uniqueAreas.
  set (allAreas := flat_map Task.areas (TaskStore.tasks s)).
  destruct (Set_values_fold allAreas [] (NoDup_nil_2)) as [Hnd Hmem]. cbn zeta in *.
  fold (Set_values allAreas) in Hnd, Hmem.
  assert (Hperm : merge_sort area_le (Set_values allAreas) ≡ₚ Set_values allAreas)
    by apply merge_sort_Permutation.
  assert (Hkeys : map fst (tasksByArea s) = Set_values allAreas).
  { rewrite tasksByArea_fold. exact (keys_of_tally allAreas []). }
  split; [now apply StronglySorted_merge_sort|].
  split; [now rewrite Hperm|]. split; [|split].
  - intros area. rewrite Hperm, Hmem, elem_of_nil. unfold allAreas.
    rewrite list_elem_of_In, in_flat_map. split.
    + intros [[]|(task & Hin & Harea)]. exists task. now rewrite !list_elem_of_In.
    + intros (task & Hin & Harea). right. exists task. now rewrite <- !list_elem_of_In.
  - now rewrite Hkeys.
  - intros areas Hsorted Hareas.
    apply (Sorted_unique area_le); [assumption| |].
    + apply Sorted_merge_sort; assumption.
    + now rewrite Hareas, Hkeys, Hperm.
Qed.

End TaskGetterProperties.


(** ** [filterTasks] *)

Section FilterProperties.
Import TaskGetters.

Lemma prefix_spec (needle haystack : string) :
  String.prefix needle haystack = true <-> exists post, haystack = needle +:+ post.
Proof.
  revert haystack. induction needle as [|c needle IH]; intros [|c' haystack]; cbn.
  - split; [intros _; now exists ""%string|reflexivity].
  - split; [intros _; now exists (String c' haystack)|reflexivity].
  - split; [discriminate|]. intros [post E]. discriminate E.
  - destruct (Ascii.ascii_dec c c') as [->|Hne].
    + rewrite IH. split; intros [post E]; exists post; [now rewrite E|now inversion E].
    + split; [discriminate|]. intros [post E].
      change (String c needle +:+ post) with (String c (needle +:+ post)) in E. congruence.
Qed.

(** [includes] holds exactly when the needle occurs somewhere in the
    haystack. *)
Lemma includes_spec (needle haystack : string) :
  includes needle haystack = true
  <-> exists pre post, haystack = pre +:+ needle +:+ post.
Proof.
  induction haystack as [|c haystack IH]; cbn [includes]; rewrite orb_true_iff, prefix_spec.
  - split.
    + intros [[post E]|E]; [|discriminate E]. now exists ""%string, post.
    + intros (pre & post & E). left. destruct pre; [|discriminate E]. now exists post.
  - rewrite IH. split.
    + intros [[post E]|(pre & post & E)].
      * now exists ""%string, post.
      * exists (String c pre), post. cbn. now rewrite E.
    + intros (pre & post & E). destruct pre as [|c' pre].
      * left. now exists post.
      * right. inversion E. now exists pre, post.
Qed.

Variable toLowerCase : string -> string.

(** What each criterion of a filter asks of a task. *)
Lemma keeps_spec (filters : TaskFilters) (task : Task.t) :
  keeps toLowerCase filters task = true <->
  (forall w, weekId filters = Some w -> w <> ""%string -> w <> "all"%string ->
             Task.weekId task = w) /\
  (forall st, status filters = Some (OnlyStatus st) -> Task.status task = st) /\
  (forall a, area filters = Some (OnlyArea a) -> a ∈ Task.areas task) /\
  (forall term, searchTerm filters = Some term -> term <> ""%string ->
     exists text pre post,
       (text = Task.title task \/ Task.description task = Some text) /\
       toLowerCase text = pre +:+ toLowerCase term +:+ post).
Proof.
  unfold keeps, truthy.
  destruct filters as [fw fs fa ft]; cbn [weekId status area searchTerm].
  split.
  - intros H. repeat split.
    + intros w -> Hw1 Hw2.
      rewrite (bool_decide_eq_false_2 (w = ""%string)) in H by assumption.
      rewrite (bool_decide_eq_false_2 (Some w = Some "all"%string)) in H by congruence.
      cbn in H. destruct (bool_decide_reflect (Some (Task.weekId task) = Some w)) as [E|E];
        [congruence|discriminate H].
    + intros st ->.
      destruct (_ && _ && _) in H; [discriminate H|].
      destruct (bool_decide_reflect (Task.status task = st)); [assumption|discriminate H].
    + intros a ->.
      destruct (_ && _ && _) in H; [discriminate H|].
      destruct (match fs with Some (OnlyStatus _) => _ | _ => false end) in H;
        [discriminate H|].
      destruct (bool_decide_reflect (a ∈ Task.areas task)); [assumption|discriminate H].
    + intros term -> Hterm.
      destruct (_ && _ && _) in H; [discriminate H|].
      destruct (match fs with Some (OnlyStatus _) => _ | _ => false end) in H;
        [discriminate H|].
      destruct (match fa with Some (OnlyArea _) => _ | _ => false end) in H;
        [discriminate H|].
      rewrite (bool_decide_eq_false_2 (term = ""%string)) in H by assumption.
      cbn in H.
      destruct (includes (toLowerCase term) (toLowerCase (Task.title task))) eqn:Etitle.
      * apply includes_spec in Etitle as (pre & post & E).
        exists (Task.title task), pre, post. split; [now left|assumption].
      * destruct (Task.description task) as [description|]; cbn in H; [|discriminate H].
        destruct (includes (toLowerCase term) (toLowerCase description)) eqn:Edesc;
          [|discriminate H].
        apply includes_spec in Edesc as (pre & post & E).
        exists description, pre, post. split; [now right|assumption].
  - intros (Hw & Hs & Ha & Ht).
    assert (E1 : (match fw with
                  | Some s => negb (bool_decide (s = ""%string))
                  | None => false
                  end
                  && negb (bool_decide (fw = Some "all"%string))
                  && negb (bool_decide (Some (Task.weekId task) = fw))) = false).
    { destruct fw as [w|]; [|reflexivity].
      destruct (bool_decide_reflect (w = ""%string)); [reflexivity|].
      destruct (bool_decide_reflect (Some w = Some "all"%string)); [reflexivity|].
      rewrite bool_decide_eq_true_2; [reflexivity|].
      f_equal. apply Hw; congruence. }
    rewrite E1.
    assert (E2 : match fs with
                 | Some (OnlyStatus st) => negb (bool_decide (Task.status task = st))
                 | _ => false
                 end = false).
    { destruct fs as [[|st]|]; try reflexivity.
      rewrite bool_decide_eq_true_2; [reflexivity|]. now apply Hs. }
    rewrite E2.
    assert (E3 : match fa with
                 | Some (OnlyArea a) => negb (bool_decide (a ∈ Task.areas task))
                 | _ => false
                 end = false).
    { destruct fa as [[|a]|]; try reflexivity.
      rewrite bool_decide_eq_true_2; [reflexivity|]. now apply Ha. }
    rewrite E3.
    destruct ft as [term|]; [|reflexivity].
    destruct (bool_decide_reflect (term = ""%string)) as [|Hterm]; [reflexivity|].
    cbn.
    destruct (Ht term eq_refl Hterm) as (text & pre & post & [->|Hd] & E).
    + assert (Hin : includes (toLowerCase term) (toLowerCase (Task.title task)) = true)
        by (apply includes_spec; now exists pre, post).
      now rewrite Hin.
    + rewrite Hd.
      assert (Hin : includes (toLowerCase term) (toLowerCase text) = true)
        by (apply includes_spec; now exists pre, post).
      rewrite Hin. now rewrite andb_false_r.
Qed.

(** X12.  [filterTasks] returns the tasks of the store that meet every
    criterion the filter sets, in their order in the store: a week id
    other than the empty string and ["all"] must be the task's week, a
    status or an area other than ["all"] must be the task's status or
    one of its areas, and a non-empty search term must occur, after
    lower-casing, in the title or in the description.  Absent, empty
    and ["all"] criteria ask nothing. *)
Theorem filterTasks_selects :
  forall (s : TaskStore.State) (filters : TaskFilters),
    filterTasks toLowerCase s filters `sublist_of` TaskStore.tasks s /\
    forall task,
      task ∈ filterTasks toLowerCase s filters <->
      task ∈ TaskStore.tasks s /\
      (forall w, weekId filters = Some w -> w <> ""%string -> w <> "all"%string ->
                 Task.weekId task = w) /\
      (forall st, status filters = Some (OnlyStatus st) -> Task.status task = st) /\
      (forall a, area filters = Some (OnlyArea a) -> a ∈ Task.areas task) /\
      (forall term, searchTerm filters = Some term -> term <> ""%string ->
         exists text pre post,
           (text = Task.title task \/ Task.description task = Some text) /\
           toLowerCase text = pre +:+ toLowerCase term +:+ post).
Proof.
  intros s filters. split.
  - apply sublist_filter.
  - intros task. unfold filterTasks. rewrite list_elem_of_filter, keeps_spec. tauto.
Qed.

(** X13.  With no status, area or search criterion, [filterTasks] by a
    week id is [getTasksByWeek] of that id; with the week id absent,
    empty or ["all"] as well it returns every task. *)
Theorem filterTasks_week_only :
  forall (s : TaskStore.State) (filters : TaskFilters),
    (forall st, status filters <> Some (OnlyStatus st)) ->
    (forall a, area filters <> Some (OnlyArea a)) ->
    truthy (searchTerm filters) = false ->
    filterTasks toLowerCase s filters
    = match weekId filters with
      | Some w =>
          if bool_decide (w = ""%string \/ w = "all"%string) then TaskStore.tasks s
          else getTasksByWeek s w
      | None => TaskStore.tasks s
      end.
Proof.
  intros s filters Hs Ha Ht.
  assert (Hkeeps : forall task,
            keeps toLowerCase filters task = true <->
            forall w, weekId filters = Some w -> w <> ""%string -> w <> "all"%string ->
                      Task.weekId task = w).
  { intros task. rewrite keeps_spec. split; [tauto|]. intros Hw.
    split; [assumption|]. split; [|split].
    - intros st E. now destruct (Hs st).
    - intros a E. now destruct (Ha a).
    - intros term E Hterm. rewrite E in Ht. cbn in Ht.
      now rewrite bool_decide_eq_false_2 in Ht. }
  unfold filterTasks, getTasksByWeek.
  destruct (weekId filters) as [w|] eqn:Ew.
  - destruct (bool_decide_reflect (w = ""%string \/ w = "all"%string)) as [Hall|Hw].
    + apply filter_all, Forall_forall. intros task _. apply Hkeeps. intros w' E. inversion E; subst. tauto.
    + apply list_filter_iff. intros task. rewrite Hkeeps. split.
      * intros H. apply H; [reflexivity|tauto|tauto].
      * intros E w' E'. inversion E'; subst. reflexivity.
  - apply filter_all, Forall_forall. intros task _. apply Hkeeps. intros w E. discriminate E.
Qed.

End FilterProperties.

Lemma filterTasks_week_only_witness :
  TaskGetters.filterTasks (fun text => text)
    (Samples.task_store [Samples.task1; Samples.task2])
    {| TaskGetters.weekId := Some (Task.weekId Samples.task1);
       TaskGetters.status := Some TaskGetters.AllStatuses;
       TaskGetters.area := None;
       TaskGetters.searchTerm := Some ""%string |}
  = TaskGetters.getTasksByWeek (Samples.task_store [Samples.task1; Samples.task2])
      (Task.weekId Samples.task1).
Proof.
  apply (filterTasks_week_only (fun text => text)
           (Samples.task_store [Samples.task1; Samples.task2])
           {| TaskGetters.weekId := Some (Task.weekId Samples.task1);
              TaskGetters.status := Some TaskGetters.AllStatuses;
              TaskGetters.area := None;
              TaskGetters.searchTerm := Some ""%string |}).
  - intros st E. discriminate E.
  - intros a E. discriminate E.
  - reflexivity.
Defined.


(** ** Statistics of a week *)

Section WeekStatistics.
Import Aggregates.

Variable percent : Z -> Z -> Z.

Lemma count_cons {A} (P : A -> Prop) `{!forall x, Decision (P x)} (x : A) (l : list A) :
  count P (x :: l) = (if decide (P x) then 1 else 0) + count P l.
Proof.
  unfold count. destruct (decide (P x)).
  - rewrite filter_cons_True by assumption. cbn [length]. lia.
  - rewrite filter_cons_False by assumption. lia.
Qed.

Lemma count_bounds {A} (P : A -> Prop) `{!forall x, Decision (P x)} (l : list A) :
  0 <= count P l <= Z.of_nat (length l).
Proof.
  unfold count. pose proof (length_filter P l). lia.
Qed.

Lemma status_counts_partition (tasks : list Task.t) :
  count (fun t => Task.status t = TaskStatus.completed) tasks
  + count (fun t => Task.status t = TaskStatus.in_progress) tasks
  + count (fun t => Task.status t = TaskStatus.not_started) tasks
  = Z.of_nat (length tasks).
Proof.
  induction tasks as [|task tasks IH]; [reflexivity|].
  rewrite !count_cons. cbn [length]. rewrite Nat2Z.inj_succ.
  destruct (Task.status task);
    repeat match goal with |- context [decide ?P] => destruct (decide P) end;
    try discriminate; try congruence; lia.
Qed.

Lemma tally_status_counts (tasks : list Task.t) (a b c : Z) :
  foldl tally_status
        [(TaskStatus.completed, a); (TaskStatus.in_progress, b); (TaskStatus.not_started, c)]
        tasks
  = [(TaskStatus.completed,
      a + count (fun t => Task.status t = TaskStatus.completed) tasks);
     (TaskStatus.in_progress,
      b + count (fun t => Task.status t = TaskStatus.in_progress) tasks);
     (TaskStatus.not_started,
      c + count (fun t => Task.status t = TaskStatus.not_started) tasks)].
Proof.
  revert a b c. induction tasks as [|task tasks IH]; intros a b c; cbn [foldl].
  - unfold count. cbn. now rewrite !Z.add_0_r.
  - rewrite !count_cons.
    unfold tally_status at 2. cbn [map].
    destruct (Task.status task) eqn:E;
      repeat match goal with |- context [decide ?P] => destruct (decide P) end;
      try discriminate; try congruence;
      rewrite IH, ?Z.add_assoc, ?Z.add_0_r; reflexivity.
Qed.

(** X14.  The three status counts of [completionStats] are a
    partition of the week's tasks: none is negative and they add up
    to [total].  [statusBreakdown] of a week with tasks has exactly
    three rows, for completed, in progress and not started in this
    order, that repeat these counts, each with its share of
    [total]. *)
Theorem completionStats_partition_and_breakdown :
  forall weekTasks : list Task.t,
    let stats := completionStats percent weekTasks in
    CompletionStats.completed stats + CompletionStats.inProgress stats
      + CompletionStats.notStarted stats = CompletionStats.total stats /\
    0 <= CompletionStats.completed stats /\
    0 <= CompletionStats.inProgress stats /\
    0 <= CompletionStats.notStarted stats /\
    statusBreakdown percent weekTasks
    = match weekTasks with
      | [] => []
      | _ :: _ =>
          [ {| StatusStats.status := TaskStatus.completed;
               StatusStats.tasks := CompletionStats.completed stats;
               StatusStats.percentage :=
                 percent (CompletionStats.completed stats) (CompletionStats.total stats) |};
            {| StatusStats.status := TaskStatus.in_progress;
               StatusStats.tasks := CompletionStats.inProgress stats;
               StatusStats.percentage :=
                 percent (CompletionStats.inProgress stats) (CompletionStats.total stats) |};
            {| StatusStats.status := TaskStatus.not_started;
               StatusStats.tasks := CompletionStats.notStarted stats;
               StatusStats.percentage :=
                 percent (CompletionStats.notStarted stats) (CompletionStats.total stats) |} ]
      end.
Proof.
  intros weekTasks. cbn zeta. unfold completionStats.
  cbn [CompletionStats.completed CompletionStats.inProgress CompletionStats.notStarted
       CompletionStats.total].
  split; [apply status_counts_partition|].
  split; [apply count_bounds|]. split; [apply count_bounds|]. split; [apply count_bounds|].
  unfold statusBreakdown.
  destruct weekTasks as [|task tasks]; [reflexivity|].
  destruct (decide (length (task :: tasks) = 0%nat)) as [E|_]; [discriminate E|].
  unfold initial_statuses. rewrite tally_status_counts. cbn [map].
  assert (Hpos : (Z.of_nat (length (task :: tasks)) >? 0) = true).
  { cbn [length]. apply Z.gtb_lt. lia. }
  rewrite Hpos, !Z.add_0_l. reflexivity.
Qed.

End WeekStatistics.

(** ** The daily chart *)

Section DailyChart.
Import JsDate Aggregates.

Lemma getDay_of_midnight (tz : Z) n :
  -1440 < tz < 1440 ->
  getDay tz (n * msPerDay) = WeekDay ((n + (if tz <? 0 then -1 else 0)) * msPerDay).
Proof.
  intros Htz. unfold getDay, WeekDay, LocalTime. cbn [LocalTZA fixed].
  unfold Day, msPerDay, msPerMinute.
  f_equal. f_equal.
  destruct (Z.ltb_spec tz 0); rewrite Z.div_mul by lia.
  - symmetry. apply Z.div_unique with (r := 86400000 + tz * 60000); lia.
  - symmetry. apply Z.div_unique with (r := tz * 60000); lia.
Qed.

(** X15.  For a week whose start date is given as a plain date, in a
    zone that keeps one offset from the day before the start date to
    the eighth day after it, the dates of the seven buckets are the
    start date and the six after it, but the weekday shown with a
    bucket is the weekday of its date only from UTC eastwards: west
    of UTC every bucket carries the weekday of the day before its
    date. *)
Theorem dailyTimeDistribution_day_labels :
  forall (tz : TimeZone) offset week y m d weekTimeEntries,
    IsoParse.parse_date (Week.startDate week) = Some (y, m, d, ""%string) ->
    steady tz offset ((days_from_civil y m d - 1) * msPerDay)
                     ((days_from_civil y m d + 8) * msPerDay) ->
    -1440 < offset < 1440 ->
    map (fun bucket => (DayStats.date bucket, DayStats.day bucket))
      <$> dailyTimeDistribution tz (Some week) weekTimeEntries
    = Some (map (fun i =>
                   let n := days_from_civil y m d + i in
                   (isoDateOfDay n,
                    weekday_short 0 ((if offset <? 0 then n - 1 else n) * msPerDay)))
                (seqZ 0 7)).
Proof.
  intros tz offset week y m d weekTimeEntries Hparse Hsteady Hoffset.
  unfold dailyTimeDistribution.
  rewrite (new_Date_date_only tz _ y m d Hparse).
  cbn [mbind option_bind fmap option_fmap option_map].
  f_equal. rewrite map_map.
  assert (Hrange : steady tz offset (days_from_civil y m d * msPerDay - msPerDay)
                     (days_from_civil y m d * msPerDay + 8 * msPerDay)).
  { intros t isUTC Ht. apply Hsteady. lia. }
  assert (Hlabel : forall i,
            weekday_short offset (days_from_civil y m d * msPerDay + i * msPerDay)
            = weekday_short 0 ((if offset <? 0 then days_from_civil y m d + i - 1
                                else days_from_civil y m d + i) * msPerDay)).
  { intros i. unfold weekday_short.
    replace (days_from_civil y m d * msPerDay + i * msPerDay)
      with ((days_from_civil y m d + i) * msPerDay) by lia.
    rewrite (getDay_of_midnight offset _ Hoffset).
    unfold getDay, LocalTime. cbn [LocalTZA fixed]. rewrite Z.mul_0_l, Z.add_0_r.
    destruct (offset <? 0).
    - now replace (days_from_civil y m d + i - 1) with (days_from_civil y m d + i + -1) by lia.
    - now rewrite Z.add_0_r. }
  change (seqZ 0 7) with [0; 1; 2; 3; 4; 5; 6]. cbn [map].
  rewrite !(day_bucket_spec tz offset) by (assumption || lia).
  cbn zeta. cbn [DayStats.date DayStats.day].
  rewrite Day_of_midnight, !Hlabel. reflexivity.
Qed.

Lemma Math_max_from (values : list Z) (start : Z) :
  exists max,
    foldl (fun max v => match max with
                        | None => Some v
                        | Some m => Some (Z.max m v)
                        end)
          (Some start) values = Some max /\
    start <= max /\ Forall (fun v => v <= max) values /\
    (max = start \/ max ∈ values).
Proof.
  revert start. induction values as [|v values IH]; intros start; cbn [foldl].
  - exists start. repeat split; [lia|constructor|now left].
  - destruct (IH (Z.max start v)) as (max & E & Hle & Hall & Hin).
    exists max. split; [assumption|]. split; [lia|]. split.
    + constructor; [lia|assumption].
    + destruct Hin as [->|Hin].
      * destruct (Z.max_spec start v) as [[_ ->]|[_ ->]]; [right; left|now left].
      * right. now right.
Qed.

(** X16.  [maxDailyMinutes] is never below 1 and never below the
    minutes of a day.  When some day has tracked minutes it is the
    largest daily total, otherwise (also for no buckets at all, where
    [Math.max] has no argument) it is 1. *)
Theorem maxDailyMinutes_scales_chart :
  forall days : list DayStats.t,
    1 <= Charts.maxDailyMinutes days /\
    Forall (fun day => DayStats.minutes day <= Charts.maxDailyMinutes days) days /\
    (Exists (fun day => 0 < DayStats.minutes day) days ->
     exists day, day ∈ days /\ DayStats.minutes day = Charts.maxDailyMinutes days) /\
    (Forall (fun day => DayStats.minutes day <= 0) days -> Charts.maxDailyMinutes days = 1).
Proof.
  intros days. unfold Charts.maxDailyMinutes, Charts.Math_max.
  destruct days as [|day days]; cbn [map foldl].
  - repeat split; [lia|constructor|].
    intros H. inversion H.
  - destruct (Math_max_from (map DayStats.minutes days) (DayStats.minutes day))
      as (max & -> & Hle & Hall & Hin).
    rewrite Forall_fmap in Hall.
    destruct (Z.gtb_spec max 0) as [Hpos|Hnonpos].
    + split; [lia|]. split; [|split].
      * constructor; [assumption|]. exact Hall.
      * intros _. destruct Hin as [->|Hin].
        -- exists day. split; [left|reflexivity].
        -- apply list_elem_of_fmap in Hin as (day' & -> & Hin').
           exists day'. split; [right; exact Hin'|reflexivity].
      * intros Hnone. exfalso.
        rewrite Forall_forall in Hnone.
        destruct Hin as [->|Hin].
        -- specialize (Hnone day ltac:(left)). lia.
        -- apply list_elem_of_fmap in Hin as (day' & -> & Hin').
           specialize (Hnone day' ltac:(right; exact Hin')). lia.
    + split; [lia|]. split; [|split].
      * constructor; [lia|]. eapply Forall_impl; [exact Hall|]. cbn. intros; lia.
      * intros Hsome. exfalso. apply Exists_exists in Hsome as (day' & Hday & Hpos).
        apply elem_of_cons in Hday as [->|Hday]; [lia|].
        rewrite Forall_forall in Hall. specialize (Hall day' Hday). cbn in Hall. lia.
      * reflexivity.
Qed.

End DailyChart.

Lemma dailyTimeDistribution_day_labels_witness :
  map (fun bucket => (Aggregates.DayStats.date bucket, Aggregates.DayStats.day bucket))
    <$> Aggregates.dailyTimeDistribution ZoneSamples.new_york_2025 (Some Samples.week21)
          [Samples.entry1]
  = Some [("2025-05-19", "Sun"); ("2025-05-20", "Mon"); ("2025-05-21", "Tue");
          ("2025-05-22", "Wed"); ("2025-05-23", "Thu"); ("2025-05-24", "Fri");
          ("2025-05-25", "Sat")]%string.
Proof.
  apply (dailyTimeDistribution_day_labels ZoneSamples.new_york_2025 (-240) Samples.week21
           2025 5 19 [Samples.entry1]).
  - reflexivity.
  - apply changing_steady_after; vm_compute; discriminate.
  - lia.
Defined.


(** ** The planner page *)

Section PlannerProperties.
Import Async Planner.

Lemma or_zero_same z : JsMath.or_zero z = z.
Proof. unfold JsMath.or_zero. destruct (Z.eqb_spec z 0); congruence. Qed.

(** The index of the selection, when there is one. *)
Lemma currentWeekIndex_found st i :
  0 <= i -> currentWeekIndex st = i ->
  selectedWeekId st <> ""%string /\
  exists w, list_find (fun w => Week.id w = selectedWeekId st) (weeks st)
            = Some (Z.to_nat i, w).
Proof.
  unfold currentWeekIndex, findIndex. intros Hi E.
  destruct (decide (selectedWeekId st = ""%string)) as [|Hne]; [lia|].
  split; [assumption|].
  destruct (list_find _ (weeks st)) as [[j w]|]; cbn in E; [|lia].
  exists w. subst i. now rewrite Nat2Z.id.
Qed.

Lemma currentWeekIndex_at st i w :
  NoDup (map Week.id (weeks st)) ->
  weeks st !! i = Some w -> Week.id w <> ""%string ->
  currentWeekIndex (select (Week.id w) st) = Z.of_nat i.
Proof.
  intros Hnd Hi Hid. unfold currentWeekIndex, findIndex. cbn [selectedWeekId weeks select].
  destruct (decide (Week.id w = ""%string)) as [|_]; [contradiction|].
  assert (Hfind : list_find (fun w' => Week.id w' = Week.id w) (weeks st) = Some (i, w)).
  { apply list_find_Some. split; [assumption|]. split; [reflexivity|].
    intros j w' Hj Hlt E.
    assert (Hij : j = i).
    { eapply NoDup_lookup; [exact Hnd| |].
      - rewrite list_lookup_fmap, Hj. cbn. reflexivity.
      - rewrite list_lookup_fmap, Hi. cbn. now rewrite E. }
    lia. }
  now rewrite Hfind.
Qed.

Lemma id_at_Some ws i w :
  ws !! i = Some w -> id_at ws (Z.of_nat i) = Some (Week.id w).
Proof.
  intros H. unfold id_at. destruct (Z.ltb_spec (Z.of_nat i) 0); [lia|].
  now rewrite Nat2Z.id, H.
Qed.

Lemma on_weeks_change_cases st :
  on_weeks_change st = st \/
  exists w, w ∈ weeks st /\ on_weeks_change st = select (Week.id w) st.
Proof.
  unfold on_weeks_change, find.
  destruct (weeks st) as [|first rest]; [now left|].
  destruct (decide (selectedWeekId st = ""%string)); [|now left].
  destruct (list_find _ (first :: rest)) as [[i w]|] eqn:E;
    cbn [fmap option_fmap option_map snd].
  - apply list_find_Some in E as (Hlook & _ & _).
    destruct (decide (Week.id w = ""%string)).
    + right. exists first. split; [left|reflexivity].
    + right. exists w. split; [|reflexivity]. eapply list_elem_of_lookup_2. exact Hlook.
  - right. exists first. split; [left|reflexivity].
Qed.

(** X17.  Moving between weeks never fails and never leaves the list:
    [goToPreviousWeek] and [goToNextWeek] always find the week they
    read (no property of [undefined] is read), and after them, after
    [goToCurrentWeek] and after the watcher on [weeks], the list of
    weeks is the same and the selection is the previous one or the id
    of a listed week. *)
Theorem week_navigation_stays_in_list :
  forall st : State,
    let stays (st' : State) :=
      weeks st' = weeks st /\
      (selectedWeekId st' = selectedWeekId st \/
       exists w, w ∈ weeks st /\ selectedWeekId st' = Week.id w) in
    (exists st', goToPreviousWeek st = Some st' /\ stays st') /\
    (exists st', goToNextWeek st = Some st' /\ stays st') /\
    stays (goToCurrentWeek st) /\
    stays (on_weeks_change st).
Proof.
  intros st stays.
  assert (Hsame : stays st) by (split; [reflexivity|now left]).
  assert (Hsel : forall w, w ∈ weeks st -> stays (select (Week.id w) st)).
  { intros w Hw. split; [reflexivity|]. right. now exists w. }
  split; [|split; [|split]].
  - unfold goToPreviousWeek, canGoToPrevious.
    destruct (Z.gtb_spec (currentWeekIndex st) 0) as [Hpos|_]; [|now exists st].
    destruct (currentWeekIndex_found st (currentWeekIndex st)) as (_ & w & Hfind);
      [lia|reflexivity|].
    apply list_find_Some in Hfind as (Hlook & _ & _).
    assert (Hlt : (Z.to_nat (currentWeekIndex st) - 1 < length (weeks st))%nat).
    { apply lookup_lt_Some in Hlook. lia. }
    apply lookup_lt_is_Some in Hlt as [prev Hprev].
    replace (currentWeekIndex st - 1)
      with (Z.of_nat (Z.to_nat (currentWeekIndex st) - 1)) by lia.
    rewrite (id_at_Some _ _ _ Hprev). cbn.
    exists (select (Week.id prev) st). split; [reflexivity|].
    apply Hsel. eapply list_elem_of_lookup_2. exact Hprev.
  - unfold goToNextWeek, canGoToNext. rewrite or_zero_same.
    destruct (Z.geb_spec (currentWeekIndex st) 0) as [Hpos|_]; [|now exists st].
    destruct (Z.ltb_spec (currentWeekIndex st) (Z.of_nat (length (weeks st)) - 1))
      as [Hlast|_]; [|now exists st].
    cbn [andb].
    assert (Hlt : (Z.to_nat (currentWeekIndex st) + 1 < length (weeks st))%nat) by lia.
    apply lookup_lt_is_Some in Hlt as [next Hnext].
    replace (currentWeekIndex st + 1)
      with (Z.of_nat (Z.to_nat (currentWeekIndex st) + 1)) by lia.
    rewrite (id_at_Some _ _ _ Hnext). cbn.
    exists (select (Week.id next) st). split; [reflexivity|].
    apply Hsel. eapply list_elem_of_lookup_2. exact Hnext.
  - unfold goToCurrentWeek, find.
    destruct (list_find _ (weeks st)) as [[i w]|] eqn:E;
      cbn [fmap option_fmap option_map snd]; [|assumption].
    apply list_find_Some in E as (Hlook & _ & _).
    apply Hsel. eapply list_elem_of_lookup_2. exact Hlook.
  - destruct (on_weeks_change_cases st) as [->|(w & Hw & ->)]; [assumption|now apply Hsel].
Qed.

(** X18.  When no two weeks share an id and no id is empty, a step
    forward from a week that has a successor selects the week at the
    next index, and the step back from there returns to the state the
    step started from. *)
Theorem goToNextWeek_then_goToPreviousWeek :
  forall st : State,
    NoDup (map Week.id (weeks st)) ->
    Forall (fun w => Week.id w <> ""%string) (weeks st) ->
    canGoToNext st = true ->
    exists st',
      goToNextWeek st = Some st' /\
      currentWeekIndex st' = currentWeekIndex st + 1 /\
      canGoToPrevious st' = true /\
      goToPreviousWeek st' = Some st.
Proof.
  intros st Hnd Hids Hnext.
  unfold goToNextWeek. rewrite Hnext.
  unfold canGoToNext in Hnext. rewrite or_zero_same in Hnext.
  apply andb_true_iff in Hnext as [Hpos Hlast].
  apply Z.geb_le in Hpos. apply Z.ltb_lt in Hlast.
  destruct (currentWeekIndex_found st (currentWeekIndex st)) as (Hsel & w & Hfind);
    [lia|reflexivity|].
  apply list_find_Some in Hfind as (Hlook & Hw & _).
  assert (Hlt : (Z.to_nat (currentWeekIndex st) + 1 < length (weeks st))%nat) by lia.
  apply lookup_lt_is_Some in Hlt as [next Hlooknext].
  assert (Hnextid : Week.id next <> ""%string).
  { rewrite Forall_forall in Hids. apply Hids. eapply list_elem_of_lookup_2. exact Hlooknext. }
  replace (currentWeekIndex st + 1)
    with (Z.of_nat (Z.to_nat (currentWeekIndex st) + 1)) by lia.
  rewrite (id_at_Some _ _ _ Hlooknext). cbn.
  exists (select (Week.id next) st). split; [reflexivity|].
  assert (Hidx : currentWeekIndex (select (Week.id next) st)
                 = Z.of_nat (Z.to_nat (currentWeekIndex st) + 1))
    by (now apply currentWeekIndex_at).
  split; [exact Hidx|].
  unfold goToPreviousWeek, canGoToPrevious. rewrite Hidx.
  assert (Hgt : (Z.of_nat (Z.to_nat (currentWeekIndex st) + 1) >? 0) = true)
    by (apply Z.gtb_lt; lia).
  rewrite Hgt. split; [reflexivity|].
  replace (Z.of_nat (Z.to_nat (currentWeekIndex st) + 1) - 1)
    with (Z.of_nat (Z.to_nat (currentWeekIndex st))) by lia.
  cbn [weeks select]. rewrite (id_at_Some _ _ _ Hlook). cbn.
  unfold select. cbn [weeks]. rewrite Hw. now destruct st.
Qed.

(** X19.  [deleteWeek] asks the server first.  When the fetch rejects
    or the status is outside 2xx it rejects and the page state is
    untouched.  On a 2xx response it resolves with [true], no week
    with the id is left, the other weeks keep their order, the
    selection moves only if it was the deleted week (to the first
    remaining week, or to none), and a selection that named a listed
    week or none still does. *)
Theorem deleteWeek_outcomes :
  forall (weekId : string) (reply : FetchReply unit) (st : State),
    let '(c, w) := run (deleteWeek weekId reply) st in
    requests w = [ {| method := DELETE; url := API_BASE_URL +:+ "/weeks/" +:+ weekId;
                      body := None |} ] /\
    match reply with
    | Rejects e => c = Throw e /\ store w = st
    | Responds r =>
        if ok r then
          c = Normal true /\
          weeks (store w) = filter (fun week => Week.id week <> weekId) (weeks st) /\
          Forall (fun week => Week.id week <> weekId) (weeks (store w)) /\
          selectedWeekId (store w)
          = (if decide (selectedWeekId st = weekId)
             then match weeks (store w) with
                  | first :: _ => Week.id first
                  | [] => ""%string
                  end
             else selectedWeekId st) /\
          ((selectedWeekId st = ""%string \/
            exists week, week ∈ weeks st /\ Week.id week = selectedWeekId st) ->
           (selectedWeekId (store w) = ""%string \/
            exists week, week ∈ weeks (store w) /\ Week.id week = selectedWeekId (store w)))
        else c = Throw (http_error r) /\ store w = st
    end.
Proof.
  intros weekId reply st.
  destruct reply as [e|r].
  - cbn. split; [reflexivity|]. split; [reflexivity|reflexivity].
  - unfold run, deleteWeek, try_catch_finally, bind, fetch, when, throw, ret, modify, get.
    cbn [store requests app].
    destruct (ok r) eqn:Hok; cbn [negb store requests].
    + set (remaining := filter (fun week => Week.id week <> weekId) (weeks st)).
      cbn [selectedWeekId weeks].
      assert (Hall : Forall (fun week => Week.id week <> weekId) remaining).
      { apply Forall_forall. intros week Hin.
        apply list_elem_of_filter in Hin as [Hne _]. exact Hne. }
      destruct (bool_decide_reflect (selectedWeekId st = weekId)) as [Hsel|Hsel];
        cbn [store requests weeks selectedWeekId select].
      * split; [reflexivity|]. split; [reflexivity|]. split; [reflexivity|].
        split; [assumption|].
        rewrite decide_True by assumption. split; [reflexivity|].
        intros _. destruct remaining as [|first rest]; [now left|].
        right. exists first. split; [left|reflexivity].
      * split; [reflexivity|]. split; [reflexivity|]. split; [reflexivity|].
        split; [assumption|].
        rewrite decide_False by assumption. split; [reflexivity|].
        intros [Hempty|(week & Hin & Hid)]; [now left|].
        right. exists week. split; [|assumption].
        apply list_elem_of_filter. split; [congruence|assumption].
    + split; [reflexivity|]. split; [reflexivity|]. now destruct st.
Qed.

Lemma count_all {A} (P : A -> Prop) `{!forall x, Decision (P x)} (l : list A) :
  Aggregates.count P l = Z.of_nat (length l) <-> Forall P l.
Proof.
  unfold Aggregates.count. split.
  - intros E. apply Nat2Z.inj in E.
    induction l as [|x l IH]; [constructor|].
    destruct (decide (P x)) as [Hx|Hx].
    + rewrite filter_cons_True in E by assumption. cbn [length] in E.
      constructor; [assumption|]. apply IH. lia.
    + rewrite filter_cons_False in E by assumption. cbn [length] in E.
      pose proof (length_filter P l). lia.
  - intros Hl. now rewrite filter_all.
Qed.

Lemma count_none {A} (P : A -> Prop) `{!forall x, Decision (P x)} (l : list A) :
  Aggregates.count P l = 0 <-> Forall (fun x => ~ P x) l.
Proof.
  unfold Aggregates.count. split.
  - intros E. induction l as [|x l IH]; [constructor|].
    destruct (decide (P x)) as [Hx|Hx].
    + rewrite filter_cons_True in E by assumption. cbn [length] in E. lia.
    + rewrite filter_cons_False in E by assumption. constructor; [assumption|]. now apply IH.
  - induction 1 as [|x l Hx Hl IH]; [reflexivity|].
    now rewrite filter_cons_False.
Qed.

Lemma count_pos_Exists {A} (P : A -> Prop) `{!forall x, Decision (P x)} (l : list A) :
  0 < Aggregates.count P l -> Exists P l.
Proof.
  unfold Aggregates.count. induction l as [|x l IH]; [cbn; lia|].
  destruct (decide (P x)) as [Hx|Hx]; [intros _; now left|].
  rewrite filter_cons_False by assumption. intros Hpos. right. now apply IH.
Qed.

Lemma count_lt_Exists {A} (P : A -> Prop) `{!forall x, Decision (P x)} (l : list A) :
  Aggregates.count P l < Z.of_nat (length l) -> Exists (fun x => ~ P x) l.
Proof.
  unfold Aggregates.count. induction l as [|x l IH]; [cbn; lia|].
  destruct (decide (P x)) as [Hx|Hx]; [|intros _; now left].
  rewrite filter_cons_True by assumption. cbn [length]. intros Hlt. right. apply IH. lia.
Qed.

(** X20.  The status of the selected week looks at completed tasks
    only: it is "completed" when the week has tasks and all are
    completed, "in-progress" when some but not all are completed, and
    "not-started" when it has tasks and none is completed, whatever
    the number of tasks that are in progress. *)
Theorem getWeekStatus_by_completed_tasks :
  forall tasksInWeek : list Task.t,
    let completed_task (t : Task.t) := Task.status t = TaskStatus.completed in
    (getWeekStatus tasksInWeek = no_tasks <-> tasksInWeek = []) /\
    (getWeekStatus tasksInWeek = completed
     <-> tasksInWeek <> [] /\ Forall completed_task tasksInWeek) /\
    (getWeekStatus tasksInWeek = in_progress
     <-> Exists completed_task tasksInWeek /\ Exists (fun t => ~ completed_task t) tasksInWeek) /\
    (getWeekStatus tasksInWeek = not_started
     <-> tasksInWeek <> [] /\ Forall (fun t => ~ completed_task t) tasksInWeek).
Proof.
  intros tasksInWeek completed_task. unfold getWeekStatus. cbn zeta.
  pose proof (count_all completed_task tasksInWeek) as Hall.
  pose proof (count_none completed_task tasksInWeek) as Hnone.
  assert (Hbounds : 0 <= Aggregates.count completed_task tasksInWeek
                    <= Z.of_nat (length tasksInWeek)).
  { unfold Aggregates.count. pose proof (length_filter completed_task tasksInWeek). lia. }
  assert (Hlen : Z.of_nat (length tasksInWeek) = 0 <-> tasksInWeek = []).
  { destruct tasksInWeek; cbn; split; intros; (reflexivity || discriminate || lia). }
  fold completed_task.
  destruct (Z.eqb_spec (Z.of_nat (length tasksInWeek)) 0) as [E0|E0].
  { assert (tasksInWeek = []) as -> by now apply Hlen.
    split; [tauto|]. split; [split; [discriminate|tauto]|].
    split; split; try discriminate; try tauto.
    intros [H _]. inversion H. }
  assert (Hne : tasksInWeek <> []) by (intros E; apply E0, Hlen, E).
  destruct (Z.eqb_spec (Aggregates.count completed_task tasksInWeek)
                       (Z.of_nat (length tasksInWeek))) as [E1|E1].
  { apply Hall in E1.
    split; [split; [discriminate|tauto]|]. split; [tauto|].
    split; split; try discriminate.
    - intros [_ H]. apply Exists_exists in H as (t & Hin & Hnot).
      rewrite Forall_forall in E1. exfalso. apply Hnot, E1, Hin.
    - intros [_ H]. destruct tasksInWeek as [|t l]; [contradiction|].
      inversion H; subst. inversion E1; subst. contradiction. }
  destruct (Z.gtb_spec (Aggregates.count completed_task tasksInWeek) 0) as [E2|E2].
  { split; [split; [discriminate|tauto]|].
    split; [split; [discriminate|]|].
    - intros [_ H]. apply Hall in H. contradiction.
    - split; [split|split; [discriminate|]].
      + intros _. split.
        * apply (count_pos_Exists completed_task). exact E2.
        * apply (count_lt_Exists completed_task). lia.
      + reflexivity.
      + intros [_ H]. apply Hnone in H. lia. }
  assert (E3 : Aggregates.count completed_task tasksInWeek = 0) by lia.
  apply Hnone in E3.
  split; [split; [discriminate|tauto]|].
  split; [split; [discriminate|]|].
  - intros [_ H]. apply Hall in H. contradiction.
  - split; [split; [discriminate|]|tauto].
    intros [H _]. apply Exists_exists in H as (t & Hin & Ht).
    rewrite Forall_forall in E3. exfalso. exact (E3 t Hin Ht).
Qed.

End PlannerProperties.

Lemma goToNextWeek_then_goToPreviousWeek_witness :
  exists st',
    Planner.goToNextWeek PageSamples.planner = Some st' /\
    Planner.currentWeekIndex st' = Planner.currentWeekIndex PageSamples.planner + 1 /\
    Planner.canGoToPrevious st' = true /\
    Planner.goToPreviousWeek st' = Some PageSamples.planner.
Proof.
  apply (goToNextWeek_then_goToPreviousWeek PageSamples.planner).
  - change (NoDup ["2025-W21"; "2025-W22"]%string).
    apply NoDup_cons. split; [|apply NoDup_singleton].
    intros H. apply list_elem_of_singleton in H. discriminate H.
  - repeat constructor; discriminate.
  - reflexivity.
Defined.


(** ** Printing a date and reading it back *)

Section IsoRoundTrip.
Import JsString JsDate IsoParse.

Lemma string_app_assoc (s1 s2 s3 : string) : (s1 +:+ s2) +:+ s3 = s1 +:+ s2 +:+ s3.
Proof.
  induction s1 as [|c s1 IH]; [reflexivity|].
  change (String c ((s1 +:+ s2) +:+ s3) = String c (s1 +:+ s2 +:+ s3)). now rewrite IH.
Qed.

Lemma string_app_nil_r (s : string) : s +:+ "" = s.
Proof.
  induction s as [|c s IH]; [reflexivity|].
  change (String c (s +:+ "") = String c s). now rewrite IH.
Qed.

Lemma string_length_app (s1 s2 : string) :
  String.length (s1 +:+ s2) = (String.length s1 + String.length s2)%nat.
Proof.
  induction s1 as [|c s1 IH]; [reflexivity|].
  change (S (String.length (s1 +:+ s2)) = S (String.length s1 + String.length s2)).
  now rewrite IH.
Qed.

Lemma slice_to_app (s rest : string) :
  TimeEntryFormModal.slice_to (String.length s) (s +:+ rest) = s.
Proof.
  induction s as [|c s IH]; [now destruct rest|].
  change (String c (TimeEntryFormModal.slice_to (String.length s) (s +:+ rest)) = String c s).
  now rewrite IH.
Qed.

(** The digits of a number are put in front of what is already
    printed. *)
Lemma pretty_N_go_app (x : N) (s : string) :
  pretty_N_go x s = pretty_N_go x "" +:+ s.
Proof.
  revert s. induction (N.lt_wf_0 x) as [x _ IH]; intros s.
  destruct (N.eq_0_gt_0_cases x) as [->|Hpos]; [now rewrite !pretty_N_go_0|].
  rewrite !(pretty_N_go_step x) by assumption.
  assert (Hlt : (x `div` 10 < x)%N) by (apply N.div_lt; lia).
  rewrite (IH _ Hlt (String _ s)), (IH _ Hlt (String _ "")).
  now rewrite string_app_assoc.
Qed.

Lemma pretty_Z_positive (z : Z) : 0 < z -> pretty z = pretty_N_go (Z.to_N z) "".
Proof.
  destruct z as [|p|p]; try lia. intros _.
  unfold pretty at 1, pretty_Z, pretty, pretty_positive, pretty, pretty_N.
  now rewrite decide_False by discriminate.
Qed.

(** The last two digits of a number from 100 on. *)
Lemma pretty_last_two (z : Z) :
  100 <= z ->
  pretty z
  = pretty (z / 100)
    +:+ String (pretty_N_char (Z.to_N (z / 10 mod 10)))
          (String (pretty_N_char (Z.to_N (z mod 10))) "").
Proof.
  intros Hz.
  assert (Hq : 0 < z / 100) by (Z.div_mod_to_equations; lia).
  rewrite (pretty_Z_positive z) by lia. rewrite (pretty_Z_positive (z / 100)) by assumption.
  rewrite (pretty_N_go_step (Z.to_N z)) by lia.
  assert (H10 : (Z.to_N z `div` 10 = Z.to_N (z / 10))%N)
    by (rewrite Z2N.inj_div by lia; reflexivity).
  assert (Hm10 : (Z.to_N z `mod` 10 = Z.to_N (z mod 10))%N)
    by (rewrite Z2N.inj_mod by lia; reflexivity).
  rewrite H10, Hm10.
  assert (Hpos10 : (0 < Z.to_N (z / 10))%N) by (Z.div_mod_to_equations; lia).
  rewrite (pretty_N_go_step (Z.to_N (z / 10))) by assumption.
  assert (H100 : (Z.to_N (z / 10) `div` 10 = Z.to_N (z / 100))%N).
  { replace (z / 100) with (z / 10 / 10) by (rewrite Z.div_div by lia; reflexivity).
    rewrite (Z2N.inj_div (z / 10) 10) by (Z.div_mod_to_equations; lia). reflexivity. }
  assert (Hm100 : (Z.to_N (z / 10) `mod` 10 = Z.to_N (z / 10 mod 10))%N)
    by (rewrite (Z2N.inj_mod (z / 10) 10) by (Z.div_mod_to_equations; lia); reflexivity).
  rewrite H100, Hm100. apply pretty_N_go_app.
Qed.

(** The two- and three-digit fields, checked on every value they can
    hold: the characters a two-digit field is made of and what they
    read as, and the same value in a four-digit field. *)
Lemma pad2_check :
  forallb (fun z => match pad 2 z with
                    | String c1 (String c2 EmptyString) =>
                        Ascii.eqb c1 (pretty_N_char (Z.to_N (z / 10)))
                        && Ascii.eqb c2 (pretty_N_char (Z.to_N (z mod 10)))
                        && match digit c1, digit c2 with
                           | Some d1, Some d2 => (d1 =? z / 10) && (d2 =? z mod 10)
                           | _, _ => false
                           end
                        && String.eqb (pad 4 z) (String "0" (String "0" (pad 2 z)))
                    | _ => false
                    end) (seqZ 0 100) = true.
Proof. vm_compute. reflexivity. Qed.

Lemma pad3_check :
  forallb (fun z => match pad 3 z with
                    | String c1 (String c2 (String c3 EmptyString)) =>
                        match number 3 0 (pad 3 z) with
                        | Some (v, EmptyString) => v =? z
                        | _ => false
                        end
                    | _ => false
                    end) (seqZ 0 1000) = true.
Proof. vm_compute. reflexivity. Qed.

Ltac use_check H z n :=
  let Hz := fresh "Hz" in
  pose proof H as Hz;
  rewrite forallb_forall in Hz;
  specialize (Hz z);
  let Hin := fresh "Hin" in
  assert (Hin : In z (seqZ 0 n)) by (apply list_elem_of_In, elem_of_seqZ; lia);
  specialize (Hz Hin); clear Hin.

Lemma pad2_shape z :
  0 <= z < 100 ->
  exists c1 c2,
    pad 2 z = String c1 (String c2 "") /\
    c1 = pretty_N_char (Z.to_N (z / 10)) /\ c2 = pretty_N_char (Z.to_N (z mod 10)) /\
    digit c1 = Some (z / 10) /\ digit c2 = Some (z mod 10) /\
    pad 4 z = String "0" (String "0" (pad 2 z)).
Proof.
  intros Hrange. use_check pad2_check z 100.
  destruct (pad 2 z) as [|c1 [|c2 [|]]]; try discriminate Hz.
  rewrite !andb_true_iff in Hz. destruct Hz as [[[Hc1 Hc2] Hd] H4].
  apply Ascii.eqb_eq in Hc1, Hc2. apply String.eqb_eq in H4.
  destruct (digit c1) as [d1|] eqn:E1; [|discriminate Hd].
  destruct (digit c2) as [d2|] eqn:E2; [|discriminate Hd].
  apply andb_true_iff in Hd as [Hd1 Hd2]. apply Z.eqb_eq in Hd1, Hd2. subst d1 d2.
  exists c1, c2. repeat split; try assumption; reflexivity.
Qed.

Lemma number_pad2_from acc z rest :
  0 <= z < 100 ->
  number 2 acc (pad 2 z +:+ rest) = Some (100 * acc + z, rest).
Proof.
  intros Hrange.
  destruct (pad2_shape z Hrange) as (c1 & c2 & -> & _ & _ & Hd1 & Hd2 & _).
  change ((String c1 (String c2 "")) +:+ rest) with (String c1 (String c2 rest)).
  cbn [number]. unfold mbind, option_bind. rewrite Hd1, Hd2.
  do 2 f_equal. Z.div_mod_to_equations. lia.
Qed.

Lemma number_pad2 z rest :
  0 <= z < 100 ->
  number 2 0 (pad 2 z +:+ rest) = Some (z, rest) /\ String.length (pad 2 z) = 2%nat.
Proof.
  intros Hrange. split.
  - rewrite number_pad2_from by assumption. do 2 f_equal.
  - destruct (pad2_shape z Hrange) as (c1 & c2 & -> & _). reflexivity.
Qed.

Lemma number_pad3 z rest :
  0 <= z < 1000 ->
  number 3 0 (pad 3 z +:+ rest) = Some (z, rest) /\ String.length (pad 3 z) = 3%nat.
Proof.
  intros Hrange. use_check pad3_check z 1000.
  destruct (pad 3 z) as [|c1 [|c2 [|c3 [|]]]]; try discriminate Hz.
  split; [|reflexivity].
  cbn [number] in Hz. unfold mbind, option_bind in Hz.
  change ((String c1 (String c2 (String c3 ""))) +:+ rest)
    with (String c1 (String c2 (String c3 rest))).
  cbn [number]. unfold mbind, option_bind.
  destruct (digit c1); [|discriminate Hz].
  destruct (digit c2); [|discriminate Hz].
  destruct (digit c3); [|discriminate Hz].
  apply Z.eqb_eq in Hz. now rewrite Hz.
Qed.

(** A four-digit field is the two-digit fields of its hundreds and of
    its last two digits. *)
Lemma pad4_split z :
  0 <= z < 10000 -> pad 4 z = pad 2 (z / 100) +:+ pad 2 (z mod 100).
Proof.
  intros Hrange. destruct (Z.lt_ge_cases z 100) as [Hsmall|Hlarge].
  - rewrite Z.div_small, Z.mod_small by lia.
    destruct (pad2_shape z ltac:(lia)) as (c1 & c2 & _ & _ & _ & _ & _ & ->).
    reflexivity.
  - assert (Hb : 0 <= z mod 100 < 100) by (apply Z.mod_pos_bound; lia).
    destruct (pad2_shape (z mod 100) Hb) as (c1 & c2 & Eb & -> & -> & _).
    rewrite Eb. unfold pad, padStart, of_int.
    rewrite (pretty_last_two z Hlarge).
    replace (z / 10 mod 10) with (z mod 100 / 10) by (Z.div_mod_to_equations; lia).
    replace (z mod 10) with (z mod 100 mod 10) by (Z.div_mod_to_equations; lia).
    rewrite string_length_app, string_app_assoc.
    cbn [String.length]. f_equal. f_equal. lia.
Qed.

Lemma number_pad4 z rest :
  0 <= z < 10000 ->
  number 4 0 (pad 4 z +:+ rest) = Some (z, rest) /\ String.length (pad 4 z) = 4%nat.
Proof.
  intros Hrange.
  assert (Ha : 0 <= z / 100 < 100) by (Z.div_mod_to_equations; lia).
  assert (Hb : 0 <= z mod 100 < 100) by (apply Z.mod_pos_bound; lia).
  rewrite pad4_split by assumption. split.
  - destruct (pad2_shape (z / 100) Ha) as (c1 & c2 & Ea & _ & _ & Hd1 & Hd2 & _).
    rewrite string_app_assoc, Ea.
    change ((String c1 (String c2 "")) +:+ pad 2 (z mod 100) +:+ rest)
      with (String c1 (String c2 (pad 2 (z mod 100) +:+ rest))).
    change (number 4 0 (String c1 (String c2 (pad 2 (z mod 100) +:+ rest))))
      with (d1 ← digit c1; d2 ← digit c2;
            number 2 (10 * (10 * 0 + d1) + d2) (pad 2 (z mod 100) +:+ rest)).
    rewrite Hd1, Hd2. cbn [mbind option_bind].
    rewrite number_pad2_from by assumption. do 2 f_equal.
    Z.div_mod_to_equations. lia.
  - rewrite string_length_app.
    rewrite (proj2 (number_pad2 (z / 100) "" Ha)), (proj2 (number_pad2 (z mod 100) "" Hb)).
    reflexivity.
Qed.

Lemma isoYear_four_digits y : 0 <= y <= 9999 -> isoYear y = pad 4 y.
Proof.
  intros Hy. unfold isoYear.
  destruct (Z.leb_spec 0 y); [|lia]. destruct (Z.leb_spec y 9999); [reflexivity|lia].
Qed.

Lemma parse_date_printed y m d rest :
  0 <= y <= 9999 -> 1 <= m <= 12 -> 1 <= d <= daysInMonth y m ->
  parse_date (isoYear y +:+ "-" +:+ pad 2 m +:+ "-" +:+ pad 2 d +:+ rest)
  = Some (y, m, d, rest).
Proof.
  intros Hy Hm Hd. destruct (daysInMonth_bounds y m d Hm Hd) as (H31 & _ & _).
  unfold parse_date. rewrite isoYear_four_digits by assumption.
  rewrite (proj1 (number_pad4 y _ ltac:(lia))). cbn [mbind option_bind lit].
  change (("-" +:+ pad 2 m +:+ "-" +:+ pad 2 d +:+ rest))
    with (String "-" (pad 2 m +:+ "-" +:+ pad 2 d +:+ rest)).
  cbn [lit Ascii.eqb Bool.eqb]. cbn [mbind option_bind].
  rewrite (proj1 (number_pad2 m _ ltac:(lia))). cbn [mbind option_bind].
  change (("-" +:+ pad 2 d +:+ rest)) with (String "-" (pad 2 d +:+ rest)).
  cbn [lit Ascii.eqb Bool.eqb]. cbn [mbind option_bind].
  rewrite (proj1 (number_pad2 d _ ltac:(lia))). cbn [mbind option_bind].
  destruct (Z.leb_spec 1 m); [|lia]. destruct (Z.leb_spec m 12); [|lia].
  destruct (Z.leb_spec 1 d); [|lia]. destruct (Z.leb_spec d (daysInMonth y m)); [|lia].
  reflexivity.
Qed.

Lemma isoDateOfDay_length n :
  0 <= YearFromTime (n * msPerDay) <= 9999 ->
  String.length (isoDateOfDay n) = 10%nat.
Proof.
  unfold YearFromTime. rewrite Day_of_midnight. intros Hy.
  pose proof (civil_from_days_valid n) as Hvalid.
  unfold isoDateOfDay. destruct (civil_from_days n) as [[y m] d]. cbn [fst] in Hy.
  destruct Hvalid as [Hm Hd].
  destruct (daysInMonth_bounds y m d Hm Hd) as (H31 & _ & _).
  rewrite isoYear_four_digits by assumption.
  rewrite !string_length_app.
  rewrite (proj2 (number_pad4 y "" ltac:(lia))).
  rewrite (proj2 (number_pad2 m "" ltac:(lia))).
  rewrite (proj2 (number_pad2 d "" ltac:(lia))).
  reflexivity.
Qed.

Lemma parse_date_isoDateOfDay n rest :
  0 <= YearFromTime (n * msPerDay) <= 9999 ->
  exists y m d,
    parse_date (isoDateOfDay n +:+ rest) = Some (y, m, d, rest) /\
    days_from_civil y m d = n.
Proof.
  unfold YearFromTime. rewrite Day_of_midnight. intros Hy.
  pose proof (civil_from_days_valid n) as Hvalid.
  pose proof (days_from_civil_from_days n) as Hday.
  unfold isoDateOfDay. destruct (civil_from_days n) as [[y m] d]. cbn [fst] in Hy.
  destruct Hvalid as [Hm Hd]. exists y, m, d. split; [|assumption].
  rewrite !string_app_assoc. now apply parse_date_printed.
Qed.

(** Reading the date part of an ISO string gives midnight UTC of that
    day. *)
Lemma new_Date_isoDateOfDay tz n :
  0 <= YearFromTime (n * msPerDay) <= 9999 ->
  new_Date tz (isoDateOfDay n) = Some (n * msPerDay).
Proof.
  intros Hy. destruct (parse_date_isoDateOfDay n "" Hy) as (y & m & d & Hparse & Hday).
  rewrite string_app_nil_r in Hparse.
  rewrite (new_Date_date_only tz _ y m d Hparse). now rewrite Hday.
Qed.

Lemma time_fields (ms : Z) :
  0 <= ms < msPerDay ->
  0 <= ms / msPerHour < 24 /\ 0 <= ms / msPerMinute mod 60 < 60 /\
  0 <= ms / 1000 mod 60 < 60 /\ 0 <= ms mod 1000 < 1000 /\
  ms / msPerHour * msPerHour + ms / msPerMinute mod 60 * msPerMinute
  + ms / 1000 mod 60 * 1000 + ms mod 1000 = ms.
Proof.
  unfold msPerDay, msPerHour, msPerMinute. intros H.
  repeat split; try (apply Z.mod_pos_bound; lia);
    try (apply Z.div_pos; lia); try (apply Z.div_lt_upper_bound; lia).
  Z.div_mod_to_equations. lia.
Qed.

(** [new Date(date.toISOString())] is the same instant, in every
    zone. *)
Lemma new_Date_toISOString tz t :
  0 <= YearFromTime t <= 9999 ->
  new_Date tz (toISOString t) = Some t.
Proof.
  intros Hy.
  assert (Hy' : 0 <= YearFromTime (Day t * msPerDay) <= 9999).
  { unfold YearFromTime in *. now rewrite Day_of_midnight. }
  unfold toISOString, new_Date, parse.
  destruct (parse_date_isoDateOfDay (Day t)
              ("T" +:+ isoTimeOfDay (TimeWithinDay t) +:+ "Z") Hy')
    as (y & m & d & Hparse & Hday).
  rewrite Hparse. cbn [mbind option_bind].
  change ("T" +:+ isoTimeOfDay (TimeWithinDay t) +:+ "Z")
    with (String "T" (isoTimeOfDay (TimeWithinDay t) +:+ "Z")).
  cbn [lit Ascii.eqb Bool.eqb]. cbn [mbind option_bind].
  assert (Hms : 0 <= TimeWithinDay t < msPerDay)
    by (unfold TimeWithinDay, msPerDay; apply Z.mod_pos_bound; lia).
  destruct (time_fields _ Hms) as (Hh & Hmi & Hs & Hmilli & Hsum).
  set (ms := TimeWithinDay t) in *.
  unfold isoTimeOfDay. rewrite !string_app_assoc.
  rewrite (proj1 (number_pad2 (ms / msPerHour) _ ltac:(lia))). cbn [mbind option_bind].
  match goal with |- context [lit ":" (":" +:+ ?s)] =>
    change (lit ":" (":" +:+ s)) with (Some s) end.
  cbn [mbind option_bind].
  rewrite (proj1 (number_pad2 (ms / msPerMinute mod 60) _ ltac:(lia))). cbn [mbind option_bind].
  unfold parse_seconds.
  match goal with |- context [lit ":" (":" +:+ ?s)] =>
    change (lit ":" (":" +:+ s)) with (Some s) end.
  cbv beta iota.
  rewrite (proj1 (number_pad2 (ms / 1000 mod 60) _ ltac:(lia))). cbn [mbind option_bind].
  match goal with |- context [lit "." ("." +:+ ?s)] =>
    change (lit "." ("." +:+ s)) with (Some s) end.
  cbv beta iota.
  rewrite (proj1 (number_pad3 (ms mod 1000) _ ltac:(lia))). cbn [mbind option_bind].
  cbn [parse_zone]. cbn [mbind option_bind].
  destruct (Z.leb_spec (ms / msPerHour) 23); [|lia].
  destruct (Z.leb_spec (ms / msPerMinute mod 60) 59); [|lia].
  destruct (Z.leb_spec (ms / 1000 mod 60) 59); [|lia].
  cbn [andb fmap option_fmap option_map]. f_equal.
  unfold timeValue, timeOfDay, MakeDate. cbn [year month day hour minute second millisecond zone].
  rewrite Hday, Hsum. subst ms. unfold Day, TimeWithinDay.
  pose proof (Z.div_mod t msPerDay ltac:(unfold msPerDay; lia)). lia.
Qed.

(** The first 16 characters of an ISO string, [YYYY-MM-DDTHH:mm],
    read back: the UTC digits are taken for local time. *)
Lemma new_Date_slice_16 tz t :
  0 <= YearFromTime t <= 9999 ->
  new_Date tz (TimeEntryFormModal.slice_to 16 (toISOString t))
  = Some (UTC tz (t - t mod msPerMinute)).
Proof.
  intros Hy.
  assert (Hy' : 0 <= YearFromTime (Day t * msPerDay) <= 9999).
  { unfold YearFromTime in *. now rewrite Day_of_midnight. }
  assert (Hms : 0 <= TimeWithinDay t < msPerDay)
    by (unfold TimeWithinDay, msPerDay; apply Z.mod_pos_bound; lia).
  destruct (time_fields _ Hms) as (Hh & Hmi & Hs & Hmilli & Hsum).
  set (ms := TimeWithinDay t) in *.
  set (head := isoDateOfDay (Day t) +:+ "T" +:+ pad 2 (ms / msPerHour) +:+ ":"
               +:+ pad 2 (ms / msPerMinute mod 60)).
  assert (Hsplit : toISOString t
                   = head +:+ ":" +:+ pad 2 (ms / 1000 mod 60) +:+ "."
                       +:+ pad 3 (ms mod 1000) +:+ "Z").
  { unfold toISOString, isoTimeOfDay, head. fold ms. now rewrite !string_app_assoc. }
  assert (Hlen : String.length head = 16%nat).
  { unfold head. rewrite !string_length_app, isoDateOfDay_length by assumption.
    rewrite (proj2 (number_pad2 (ms / msPerHour) "" ltac:(lia))).
    rewrite (proj2 (number_pad2 (ms / msPerMinute mod 60) "" ltac:(lia))).
    reflexivity. }
  rewrite Hsplit, <- Hlen, slice_to_app.
  unfold head, new_Date, parse.
  destruct (parse_date_isoDateOfDay (Day t)
              ("T" +:+ pad 2 (ms / msPerHour) +:+ ":" +:+ pad 2 (ms / msPerMinute mod 60)) Hy')
    as (y & m & d & Hparse & Hday).
  rewrite Hparse. cbn [mbind option_bind].
  change ("T" +:+ pad 2 (ms / msPerHour) +:+ ":" +:+ pad 2 (ms / msPerMinute mod 60))
    with (String "T" (pad 2 (ms / msPerHour) +:+ ":" +:+ pad 2 (ms / msPerMinute mod 60))).
  cbn [lit Ascii.eqb Bool.eqb]. cbn [mbind option_bind].
  rewrite (proj1 (number_pad2 (ms / msPerHour) _ ltac:(lia))). cbn [mbind option_bind].
  match goal with |- context [lit ":" (":" +:+ ?s)] =>
    change (lit ":" (":" +:+ s)) with (Some s) end.
  cbn [mbind option_bind].
  rewrite <- (string_app_nil_r (pad 2 (ms / msPerMinute mod 60))).
  rewrite (proj1 (number_pad2 (ms / msPerMinute mod 60) _ ltac:(lia))). cbn [mbind option_bind].
  cbn [parse_seconds lit parse_zone].  cbn [mbind option_bind].
  destruct (Z.leb_spec (ms / msPerHour) 23); [|lia].
  destruct (Z.leb_spec (ms / msPerMinute mod 60) 59); [|lia].
  change (parse_zone "") with (Some ZoneLocal). change (0 <=? 59) with true.
  cbn [andb mbind option_bind fmap option_fmap option_map]. f_equal.
  unfold timeValue, timeOfDay, MakeDate.
  cbn [year month day hour minute second millisecond zone]. f_equal.
  rewrite Hday. subst ms. unfold Day, TimeWithinDay, msPerDay, msPerHour, msPerMinute in *.
  Z.div_mod_to_equations. lia.
Qed.

End IsoRoundTrip.

(** ** The week form *)

Section WeekFormProperties.
Import JsString JsDate IsoParse WeekFormModal.

Lemma parse_date_nonempty s y m d rest :
  parse_date s = Some (y, m, d, rest) -> s <> ""%string.
Proof. intros H ->. discriminate H. Qed.

(** X21.  For a start date entered as a valid plain date, the end
    date is found by taking midnight UTC of the start date, going six
    days on in local time and reading the date of the result in UTC.
    It is the date six days after the start date when the zone has
    the same offset at both ends, as every zone of a fixed offset
    has; the form is then valid when that date still has a
    four-digit year.  It is the date five days after the start date
    when the offset has grown in between, as it has when the clocks
    were put forward. *)
Theorem weekForm_endDate_six_local_days_later :
  forall (tz : TimeZone) weekForm y m d,
    parse_date (startDate weekForm) = Some (y, m, d, ""%string) ->
    let n := days_from_civil y m d in
    let start_offset := LocalTZA tz (n * msPerDay) true in
    let end_offset := LocalTZA tz ((n + 6) * msPerDay + start_offset) false in
    endDate tz weekForm
    = Some (isoDateOfDay (n + 6 + (start_offset - end_offset) / msPerDay)) /\
    (end_offset = start_offset ->
     endDate tz weekForm = Some (isoDateOfDay (n + 6)) /\
     (0 <= YearFromTime ((n + 6) * msPerDay) <= 9999 ->
      isFormValid tz weekForm = Some true)) /\
    (start_offset < end_offset <= start_offset + msPerDay ->
     endDate tz weekForm = Some (isoDateOfDay (n + 5))).
Proof.
  intros tz weekForm y m d Hparse n start_offset end_offset.
  pose proof (parse_date_nonempty _ _ _ _ _ Hparse) as Hne.
  assert (Hend : endDate tz weekForm
                 = Some (isoDateOfDay (n + 6 + (start_offset - end_offset) / msPerDay))).
  { unfold endDate. destruct (decide (startDate weekForm = ""%string)); [contradiction|].
    rewrite (new_Date_date_only tz _ y m d Hparse). cbn [mbind option_bind].
    rewrite setDate_getDate_local, toISOString_date. do 2 f_equal.
    unfold UTC, LocalTime. fold n. fold start_offset.
    replace (n * msPerDay + start_offset + 6 * msPerDay)
      with ((n + 6) * msPerDay + start_offset) by lia.
    fold end_offset.
    replace ((n + 6) * msPerDay + start_offset - end_offset)
      with ((n + 6) * msPerDay + (start_offset - end_offset)) by lia.
    unfold Day, msPerDay. now rewrite Z.div_add_l. }
  split; [exact Hend|]. split.
  - intros Hsame.
    assert (Hend' : endDate tz weekForm = Some (isoDateOfDay (n + 6))).
    { rewrite Hend, Hsame, Z.sub_diag. cbn [Z.div Z.div_eucl]. now rewrite Z.add_0_r. }
    split; [exact Hend'|].
    intros Hyear. unfold isFormValid.
    destruct (decide (startDate weekForm = ""%string)); [contradiction|].
    rewrite Hend'. cbn [mbind option_bind].
    rewrite (new_Date_date_only tz _ y m d Hparse).
    rewrite (new_Date_isoDateOfDay tz _ Hyear).
    rewrite bool_decide_eq_false_2.
    + cbn [negb andb TimeEntryGetters.date_le]. f_equal. apply Z.leb_le.
      subst n. unfold msPerDay. lia.
    + intros E. pose proof (isoDateOfDay_length _ Hyear) as Hlen.
      rewrite E in Hlen. discriminate Hlen.
  - intros Hgrown. rewrite Hend. do 2 f_equal.
    replace ((start_offset - end_offset) / msPerDay) with (-1); [lia|].
    unfold msPerDay in *. Z.div_mod_to_equations. lia.
Qed.

(** X22.  The start date proposed for a new week is found by going
    back in local time as many days as the local weekday counts,
    which leads to the local Sunday, and reading the date of the
    result in UTC.  It names a Sunday exactly when that UTC date is
    the local date.  When the zone has the same offset on that Sunday
    as now, it is the date as many days before the UTC date of now as
    the local weekday counts, a Sunday exactly when the local weekday
    and the UTC weekday of now agree, so always in a runtime at
    UTC. *)
Theorem weekForm_default_start_date :
  forall (tz : TimeZone) today,
    let sunday := LocalTime tz today - getDay tz today * msPerDay in
    startDate (initializeForm tz today None) = isoDateOfDay (Day (UTC tz sunday)) /\
    WeekDay sunday = 0 /\
    (- msPerDay < LocalTZA tz sunday false < msPerDay ->
     (WeekDay (Day (UTC tz sunday) * msPerDay) = 0 <-> Day (UTC tz sunday) = Day sunday)) /\
    (LocalTZA tz sunday false = LocalTZA tz today true ->
     startDate (initializeForm tz today None)
     = isoDateOfDay (Day today - getDay tz today) /\
     (WeekDay ((Day today - getDay tz today) * msPerDay) = 0
      <-> getDay tz today = WeekDay today)) /\
    WeekDay ((Day today - getDay 0 today) * msPerDay) = 0.
Proof.
  intros tz today sunday.
  assert (Hstart : startDate (initializeForm tz today None)
                   = isoDateOfDay (Day (UTC tz sunday))).
  { cbn [initializeForm startDate].
    replace (getDate tz today - getDay tz today)
      with (getDate tz today + - getDay tz today) by lia.
    rewrite setDate_getDate_local, toISOString_date. do 3 f_equal. subst sunday. lia. }
  assert (Hsunday : forall g, 0 <= g < 7 ->
            (WeekDay ((Day today - g) * msPerDay) = 0 <-> g = WeekDay today)).
  { intros g Hg. unfold WeekDay. rewrite Day_of_midnight.
    Z.div_mod_to_equations. lia. }
  assert (Hg : forall tz' : TimeZone, 0 <= getDay tz' today < 7).
  { intros tz'. unfold getDay, WeekDay. apply Z.mod_pos_bound. lia. }
  assert (Hlocal : WeekDay sunday = 0).
  { subst sunday. unfold getDay, WeekDay.
    replace (LocalTime tz today - (Day (LocalTime tz today) + 4) mod 7 * msPerDay)
      with (LocalTime tz today + - ((Day (LocalTime tz today) + 4) mod 7) * msPerDay) by lia.
    rewrite Day_shift. Z.div_mod_to_equations. lia. }
  split; [exact Hstart|]. split; [exact Hlocal|]. split; [|split].
  - intros Hoffset. unfold WeekDay in *. rewrite Day_of_midnight.
    unfold UTC. set (offset := LocalTZA tz sunday false) in *.
    unfold Day, msPerDay in *. Z.div_mod_to_equations. lia.
  - intros Hsame. split.
    + rewrite Hstart. f_equal. unfold UTC. rewrite Hsame. subst sunday. unfold LocalTime.
      replace (today + LocalTZA tz today true - getDay tz today * msPerDay
               - LocalTZA tz today true)
        with (today + - getDay tz today * msPerDay) by lia.
      rewrite Day_shift. lia.
    + apply Hsunday, Hg.
  - apply Hsunday; [apply Hg|].
    unfold getDay, LocalTime. cbn [LocalTZA fixed]. now rewrite Z.mul_0_l, Z.add_0_r.
Qed.

(** Late on 30 March 2025, UTC, it is already Monday in the sample
    zone, and the proposed start date is the Sunday, 2025-03-30: the
    clocks were put forward since.  At the fixed offset of two hours
    it is the Saturday before. *)
Example weekForm_default_start_date_late_at_night :
  let today := days_from_civil 2025 3 30 * msPerDay + 23 * msPerHour + 30 * msPerMinute in
  toISOString today = "2025-03-30T23:30:00.000Z"%string /\
  startDate (initializeForm ZoneSamples.paris_2025 today None) = "2025-03-30"%string /\
  startDate (initializeForm 120 today None) = "2025-03-29"%string /\
  WeekDay (days_from_civil 2025 3 30 * msPerDay) = 0.
Proof. cbn zeta. repeat split; vm_compute; reflexivity. Qed.

End WeekFormProperties.

(** ** The time-entry form *)

Section TimeEntryFormProperties.
Import JsString JsDate IsoParse TimeEntryForm TimeEntryFormModal.

Variable trim : string -> string.

Lemma new_Date_nonempty tz s t : new_Date tz s = Some t -> s <> ""%string.
Proof. intros H ->. discriminate H. Qed.


(** X24.  In range mode the form is valid as soon as both times are
    filled in: a range whose end is not after its start passes the
    validation and is submitted with 0 minutes. *)
Theorem timeEntryForm_accepts_reversed_range :
  forall tz taskId (timeEntryForm : TimeEntryFormData) start end_,
    isManual timeEntryForm = false ->
    new_Date tz (startTime timeEntryForm) = Some start ->
    new_Date tz (endTime timeEntryForm) = Some end_ ->
    end_ <= start ->
    isFormValid timeEntryForm = true /\
    entry_minutes <$> entryData trim tz taskId timeEntryForm = Some (JsMath.Int 0).
Proof.
  intros tz taskId form start end_ Hmode Hstart Hend Hle.
  pose proof (new_Date_nonempty _ _ _ Hstart) as Hs.
  pose proof (new_Date_nonempty _ _ _ Hend) as He.
  split.
  - unfold isFormValid. rewrite Hmode.
    now rewrite !bool_decide_eq_false_2 by assumption.
  - unfold entryData, calculateMinutes. rewrite Hstart, Hend, Hmode.
    destruct (decide (endTime form = ""%string)); [contradiction|].
    rewrite !bool_decide_eq_false_2 by assumption.
    cbn [fmap option_fmap option_map mbind option_bind orb entry_minutes].
    destruct (Z.leb_spec end_ start); [reflexivity|lia].
Qed.

End TimeEntryFormProperties.

(** ** Entries by date range *)

Section DateRange.
Import JsString JsDate IsoParse TimeEntryGetters.

(** X25.  With plain dates as bounds, [getEntriesByDateRange] keeps
    the entries that start between midnight UTC of the first date and
    midnight UTC of the last date, both included: an entry that
    starts later on the last day is left out. *)
Theorem getEntriesByDateRange_plain_dates :
  forall tz s startDate endDate y1 m1 d1 y2 m2 d2 entry t,
    parse_date startDate = Some (y1, m1, d1, ""%string) ->
    parse_date endDate = Some (y2, m2, d2, ""%string) ->
    TimeEntry.startTime entry = toISOString t ->
    0 <= YearFromTime t <= 9999 ->
    (entry ∈ getEntriesByDateRange tz s startDate endDate
     <-> entry ∈ TimeEntryStore.timeEntries s /\
         days_from_civil y1 m1 d1 * msPerDay <= t <= days_from_civil y2 m2 d2 * msPerDay).
Proof.
  intros tz s startDate endDate y1 m1 d1 y2 m2 d2 entry t H1 H2 Hentry Ht.
  unfold getEntriesByDateRange. rewrite list_elem_of_filter. cbn zeta.
  rewrite (new_Date_date_only tz _ _ _ _ H1), (new_Date_date_only tz _ _ _ _ H2).
  rewrite Hentry, (new_Date_toISOString tz t Ht).
  unfold date_le. rewrite andb_true_iff, !Z.leb_le. tauto.
Qed.

End DateRange.

Lemma weekForm_endDate_six_local_days_later_witness :
  WeekFormModal.endDate ZoneSamples.paris_2025 PageSamples.week_form
  = Some "2025-05-25"%string /\
  WeekFormModal.isFormValid ZoneSamples.paris_2025 PageSamples.week_form = Some true /\
  WeekFormModal.endDate ZoneSamples.paris_2025
    {| WeekFormModal.startDate := "2025-03-30"; WeekFormModal.description := "" |}
  = Some "2025-04-04"%string.
Proof.
  destruct (weekForm_endDate_six_local_days_later ZoneSamples.paris_2025
              PageSamples.week_form 2025 5 19 eq_refl) as (_ & Hsame & _).
  destruct (Hsame eq_refl) as [Hend Hvalid].
  split; [exact Hend|]. split; [apply Hvalid; vm_compute; split; discriminate|].
  apply (weekForm_endDate_six_local_days_later ZoneSamples.paris_2025
           {| WeekFormModal.startDate := "2025-03-30"; WeekFormModal.description := "" |}
           2025 3 30 eq_refl).
  vm_compute. split; [reflexivity|discriminate].
Defined.


Lemma timeEntryForm_accepts_reversed_range_witness :
  TimeEntryFormModal.isFormValid
    (Samples.range_form "2025-05-21T14:45" "2025-05-21T14:00") = true /\
  TimeEntryFormModal.entry_minutes
    <$> TimeEntryFormModal.entryData (fun text => text) 120 "task-1"
          (Samples.range_form "2025-05-21T14:45" "2025-05-21T14:00")
  = Some (JsMath.Int 0).
Proof.
  apply (timeEntryForm_accepts_reversed_range (fun text => text) 120 "task-1"%string
           (Samples.range_form "2025-05-21T14:45" "2025-05-21T14:00")
           1747831500000 1747828800000).
  - reflexivity.
  - vm_compute. reflexivity.
  - vm_compute. reflexivity.
  - lia.
Defined.

Lemma getEntriesByDateRange_plain_dates_witness :
  MoreSamples.created_entry
    ∈ TimeEntryGetters.getEntriesByDateRange 0
        (Samples.entry_store [MoreSamples.created_entry]) "2025-05-19" "2025-05-22"
  <-> MoreSamples.created_entry
        ∈ TimeEntryStore.timeEntries (Samples.entry_store [MoreSamples.created_entry]) /\
      JsDate.days_from_civil 2025 5 19 * JsDate.msPerDay <= PageSamples.morning
      <= JsDate.days_from_civil 2025 5 22 * JsDate.msPerDay.
Proof.
  apply (getEntriesByDateRange_plain_dates 0 (Samples.entry_store [MoreSamples.created_entry])
           "2025-05-19"%string "2025-05-22"%string 2025 5 19 2025 5 22
           MoreSamples.created_entry PageSamples.morning).
  - reflexivity.
  - reflexivity.
  - vm_compute. reflexivity.
  - vm_compute. split; discriminate.
Defined.


(** ** The area buttons of the task form *)

Section TaskFormProperties.
Import TaskFormModal.

(** X26.  On a selection without repetition, [toggleArea] flips the
    membership of the area and of no other, never introduces a
    repetition, and toggling the same area twice gives back the same
    areas (a removed area returns at the end of the list). *)
Theorem toggleArea_flips_one_area :
  forall (area : TaskArea.t) (areas : list TaskArea.t),
    NoDup areas ->
    NoDup (toggleArea area areas) /\
    (area ∈ toggleArea area areas <-> area ∉ areas) /\
    (forall other, other <> area -> (other ∈ toggleArea area areas <-> other ∈ areas)) /\
    toggleArea area (toggleArea area areas) ≡ₚ areas.
Proof.
  intros area areas Hnd. unfold toggleArea, Async.findIndex.
  destruct (list_find (fun a => a = area) areas) as [[i a]|] eqn:E;
    cbn [fmap option_fmap option_map fst].
  - apply list_find_Some in E as (Hlook & -> & _).
    pose proof (delete_Permutation areas i area Hlook) as Hperm.
    assert (Hnd' : NoDup (area :: delete i areas)) by now rewrite <- Hperm.
    apply NoDup_cons in Hnd' as [Hnotin Hnd'].
    assert (Hin : area ∈ areas) by (eapply list_elem_of_lookup_2; exact Hlook).
    split; [assumption|]. split; [tauto|]. split.
    + intros other Hother.
      pose proof (elem_of_Permutation_proper other _ _ Hperm) as Hiff.
      rewrite elem_of_cons in Hiff. tauto.
    + assert (Hnone : list_find (fun a => a = area) (delete i areas) = None).
      { apply list_find_None, Forall_forall. intros x Hx ->. contradiction. }
      rewrite Hnone. cbn [fmap option_fmap option_map].
      etransitivity; [|symmetry; exact Hperm].
      symmetry. apply Permutation_cons_append.
  - apply list_find_None in E. rewrite Forall_forall in E.
    assert (Hnotin : area ∉ areas) by (intros Hin; exact (E area Hin eq_refl)).
    split; [|split; [|split]].
    + apply NoDup_app. split; [assumption|]. split; [|apply NoDup_singleton].
      intros x Hx Hx'. apply list_elem_of_singleton in Hx'. now subst.
    + rewrite elem_of_app, list_elem_of_singleton. tauto.
    + intros other Hother. rewrite elem_of_app, list_elem_of_singleton. tauto.
    + assert (Hfind : list_find (fun a => a = area) (areas ++ [area])
                      = Some (length areas, area)).
      { apply list_find_Some. split; [|split; [reflexivity|]].
        - rewrite lookup_app_r by lia. now rewrite Nat.sub_diag.
        - intros j y Hj Hlt ->. rewrite lookup_app_l in Hj by assumption.
          apply Hnotin. eapply list_elem_of_lookup_2. exact Hj. }
      rewrite Hfind. cbn [fmap option_fmap option_map fst].
      rewrite delete_middle. now rewrite app_nil_r.
Qed.

End TaskFormProperties.

Lemma toggleArea_flips_one_area_witness :
  TaskFormModal.toggleArea TaskArea.work
    (TaskFormModal.toggleArea TaskArea.work [TaskArea.work; TaskArea.health])
  ≡ₚ [TaskArea.work; TaskArea.health].
Proof.
  apply (toggleArea_flips_one_area TaskArea.work [TaskArea.work; TaskArea.health]).
  apply NoDup_cons. split.
  - intros H. apply list_elem_of_singleton in H. discriminate H.
  - apply NoDup_singleton.
Defined.

(** ** Tracked time of a task *)

Section TaskEntryTotals.
Import Aggregates TaskEntries TimeEntryGetters.

Variable sort : list TimeEntry.t -> list TimeEntry.t.
Hypothesis sort_permutes : forall entries, sort entries ≡ₚ entries.
Variable percent : Z -> Z -> Z.

Lemma sum_over_Permutation {A} (f : A -> Z) (l1 l2 : list A) :
  l1 ≡ₚ l2 -> Spec.sum_over f l1 = Spec.sum_over f l2.
Proof.
  unfold Spec.sum_over. induction 1 as [|x l l' _ IH|x y l|l l' l'' _ IH1 _ IH2];
    cbn [foldr]; lia.
Qed.

(** X27.  The tracked total that the tasks page shows for a task is
    the sum of the minutes of the entries of that task, whatever
    order the sort puts them in; it is the [totalTracked] of the task
    page, and the entry count is the number of these entries. *)
Theorem tracked_total_agrees_across_pages :
  forall (s : TimeEntryStore.State) (taskId : string) (currentTask : option Task.t),
    taskId <> ""%string ->
    getTaskTotalTimeFromEntries sort s taskId
    = Spec.sum_over TimeEntry.minutes (getEntriesByTaskId s taskId) /\
    getTaskTotalTimeFromEntries sort s taskId
    = TaskTimeStats.totalTracked
        (taskTimeStats percent (taskTimeEntries s taskId) currentTask) /\
    getTaskTimeEntryCount sort s taskId
    = Z.of_nat (length (getEntriesByTaskId s taskId)).
Proof.
  intros s taskId currentTask Hid.
  assert (Htotal : getTaskTotalTimeFromEntries sort s taskId
                   = Spec.sum_over TimeEntry.minutes (getEntriesByTaskId s taskId)).
  { unfold getTaskTotalTimeFromEntries, getTaskTimeEntries, getEntriesByTaskId. cbn zeta.
    rewrite sum_minutes_from, Z.add_0_l. apply sum_over_Permutation, sort_permutes. }
  split; [exact Htotal|]. split.
  - rewrite Htotal. unfold taskTimeStats, taskTimeEntries, getEntriesByTaskId.
    cbn [TaskTimeStats.totalTracked].
    destruct (decide (taskId = ""%string)); [contradiction|].
    now rewrite sum_minutes_sum_over.
  - unfold getTaskTimeEntryCount, getTaskTimeEntries, getEntriesByTaskId.
    now rewrite sort_permutes.
Qed.

End TaskEntryTotals.

Lemma tracked_total_agrees_across_pages_witness :
  TaskEntries.getTaskTotalTimeFromEntries reverse
    (Samples.entry_store [Samples.entry1; MoreSamples.created_entry]) "task-1"
  = Spec.sum_over TimeEntry.minutes
      (TimeEntryGetters.getEntriesByTaskId
         (Samples.entry_store [Samples.entry1; MoreSamples.created_entry]) "task-1").
Proof.
  apply (tracked_total_agrees_across_pages reverse (fun entries => reverse_Permutation entries)
           Samples.percent_exact
           (Samples.entry_store [Samples.entry1; MoreSamples.created_entry])
           "task-1"%string None).
  intros E. discriminate E.
Defined.


(** ** Durations as text *)

Section DisplayProperties.
Import JsString Display.

Lemma numeric_not_letter c :
  numeric c -> c <> "h"%char /\ c <> " "%char /\ c <> "m"%char.
Proof.
  intros [->|[d ->]]; [repeat split; discriminate|].
  unfold pretty_N_char. repeat case_match; repeat split; discriminate.
Qed.

Lemma of_int_without (sep : ascii) z :
  (forall c, numeric c -> c <> sep) -> chars_all (fun c => c <> sep) (of_int z).
Proof.
  intros Hsep. eapply chars_all_impl; [|apply chars_all_of_int]. exact Hsep.
Qed.

Lemma split_head_absent sep s :
  chars_all (fun c => c <> sep) s -> split_head sep s = s.
Proof.
  induction s as [|c s IH]; [reflexivity|]. cbn [chars_all split_head].
  intros [Hc Hs]. apply Ascii.eqb_neq in Hc. rewrite Hc. now rewrite IH.
Qed.

Lemma of_int_inj z z' : of_int z = of_int z' -> z = z'.
Proof. unfold of_int. apply pretty_Z_inj. Qed.

(** The three shapes of the text of a duration that is not negative. *)
Lemma formatTime_nonnegative m :
  0 <= m ->
  formatTime m
  = if m <? 60 then of_int m +:+ " min"
    else if m mod 60 =? 0 then of_int (m / 60) +:+ "h"
    else of_int (m / 60) +:+ "h " +:+ of_int (m mod 60) +:+ "min".
Proof.
  intros Hm. unfold formatTime. rewrite Z.rem_mod_nonneg by lia.
  destruct (Z.eqb_spec m 0) as [->|Hne]; [reflexivity|].
  destruct (Z.ltb_spec m 60) as [Hlt|Hge].
  - rewrite Z.div_small, Z.mod_small by lia. reflexivity.
  - destruct (Z.eqb_spec (m / 60) 0) as [E|_]; [|reflexivity].
    exfalso. Z.div_mod_to_equations. lia.
Qed.

Lemma hours_text_key h rest :
  split_head "h" (of_int h +:+ String "h" rest) = of_int h.
Proof. apply split_head_app, of_int_without. intros c Hc. apply numeric_not_letter, Hc. Qed.

Lemma hours_minutes_text_key h rest :
  split_head "h" (of_int h +:+ "h " +:+ rest) = of_int h.
Proof. exact (hours_text_key h (String " " rest)). Qed.

Lemma minutes_text_no_h m :
  split_head "h" (of_int m +:+ " min") = of_int m +:+ " min".
Proof.
  apply split_head_absent, chars_all_app. split.
  - apply of_int_without. intros c Hc. apply numeric_not_letter, Hc.
  - cbn. repeat split; discriminate.
Qed.

Lemma not_numeric_with_space z s : of_int z <> s +:+ " min".
Proof.
  intros E. pose proof (chars_all_of_int z) as H. rewrite E in H.
  apply chars_all_app in H as [_ H]. cbn in H. destruct H as [Hsp _].
  apply numeric_not_letter in Hsp. tauto.
Qed.

(** X28.  [formatTime] is faithful for durations that are not
    negative: two different numbers of minutes never get the same
    text.  For a negative number of minutes that is not a whole
    number of hours the text carries a negative hour part and a
    negative minute part that add up to an hour more than the
    duration (for -30 it is "-1h -30min"). *)
Theorem formatTime_text :
  (forall m m', 0 <= m -> 0 <= m' -> formatTime m = formatTime m' -> m = m') /\
  (forall m, m < 0 -> Z.rem m 60 <> 0 ->
     exists hours mins,
       formatTime m = of_int hours +:+ "h " +:+ of_int mins +:+ "min" /\
       hours < 0 /\ -60 < mins < 0 /\ hours * 60 + mins = m - 60) /\
  formatTime (-30) = "-1h -30min"%string.
Proof.
  split; [|split].
  - intros m m' Hm Hm' E.
    rewrite (formatTime_nonnegative m Hm), (formatTime_nonnegative m' Hm') in E.
    pose proof (f_equal (split_head "h") E) as Ekey.
    destruct (Z.ltb_spec m 60) as [Hlt|Hge], (Z.ltb_spec m' 60) as [Hlt'|Hge'].
    + apply (f_equal (split_head " ")) in E.
      rewrite !split_head_app in E
        by (apply of_int_without; intros c Hc; apply numeric_not_letter, Hc).
      now apply of_int_inj.
    + exfalso. rewrite minutes_text_no_h in Ekey.
      destruct (m' mod 60 =? 0);
        rewrite ?hours_text_key, ?hours_minutes_text_key in Ekey;
        symmetry in Ekey; exact (not_numeric_with_space _ _ Ekey).
    + exfalso. rewrite minutes_text_no_h in Ekey.
      destruct (m mod 60 =? 0);
        rewrite ?hours_text_key, ?hours_minutes_text_key in Ekey;
        exact (not_numeric_with_space _ _ Ekey).
    + assert (Hh : m / 60 = m' / 60).
      { destruct (m mod 60 =? 0), (m' mod 60 =? 0);
          rewrite ?hours_text_key, ?hours_minutes_text_key in Ekey; now apply of_int_inj. }
      rewrite <- Hh in E.
      destruct (Z.eqb_spec (m mod 60) 0) as [E0|E0], (Z.eqb_spec (m' mod 60) 0) as [E0'|E0'].
      * Z.div_mod_to_equations. lia.
      * apply String.app_inj in E. discriminate E.
      * apply String.app_inj in E. discriminate E.
      * apply String.app_inj in E.
        change ("h " +:+ of_int (m mod 60) +:+ "min")
          with (String "h" (String " " (of_int (m mod 60) +:+ "min"))) in E.
        change ("h " +:+ of_int (m' mod 60) +:+ "min")
          with (String "h" (String " " (of_int (m' mod 60) +:+ "min"))) in E.
        injection E as E.
        apply (f_equal (split_head "m")) in E.
        rewrite !split_head_app in E
          by (apply of_int_without; intros c Hc; apply numeric_not_letter, Hc).
        apply of_int_inj in E. Z.div_mod_to_equations. lia.
  - intros m Hneg Hrem. exists (m / 60), (Z.rem m 60).
    assert (Hm : m <> 0) by lia.
    assert (Hh : m / 60 < 0) by (Z.div_mod_to_equations; lia).
    assert (Hr : -60 < Z.rem m 60 < 0) by (Z.to_euclidean_division_equations; lia).
    split; [|split; [assumption|split; [assumption|]]].
    + unfold formatTime.
      destruct (Z.eqb_spec m 0); [contradiction|].
      destruct (Z.eqb_spec (m / 60) 0); [lia|].
      destruct (Z.eqb_spec (Z.rem m 60) 0); [contradiction|]. reflexivity.
    + Z.to_euclidean_division_equations. lia.
  - vm_compute. reflexivity.
Qed.

End DisplayProperties.

(** ** Week numbers in a runtime at UTC *)

Section WeekNumbering.
Import JsDate WeekIdSpec.

Lemma ceil_sevenths (a : Z) : JsMath.ceil (inject_Z a / 7)%Q = (a + 6) / 7.
Proof.
  unfold JsMath.ceil, Qceiling, Qfloor, Qdiv, Qmult, Qinv, Qopp, inject_Z. cbn.
  rewrite Z.mul_1_r. Z.div_mod_to_equations. lia.
Qed.

Lemma dayOfYear_bounds y m d :
  1 <= m <= 12 -> 1 <= d <= daysInMonth y m -> 0 <= dayOfYear y m d <= 365.
Proof.
  intros Hm Hd.
  assert (Hcases : m = 1 \/ m = 2 \/ m = 3 \/ m = 4 \/ m = 5 \/ m = 6 \/ m = 7 \/ m = 8
                   \/ m = 9 \/ m = 10 \/ m = 11 \/ m = 12) by lia.
  destruct (daysInMonth_values y)
    as (D1 & D3 & D4 & D5 & D6 & D7 & D8 & D9 & D10 & D11 & D12 & D2).
  unfold dayOfYear.
  repeat (destruct Hcases as [->|Hcases]); try subst m;
    match goal with
    | |- context [seqZ 1 ?k] =>
        let l := eval vm_compute in (seqZ 1 k) in change (seqZ 1 k) with l
    end;
    unfold Spec.sum_over; cbn [foldr];
    rewrite ?D1, ?D3, ?D4, ?D5, ?D6, ?D7, ?D8, ?D9, ?D10, ?D11, ?D12 in *;
    destruct D2 as [(D2 & ? & ?)|(D2 & ?)]; rewrite ?D2 in *; lia.
Qed.

(** X29.  In a runtime at UTC and for a year from 100 on, the week
    number of the id counts Sunday-to-Saturday weeks from the Sunday
    on or before 1 January of the year of the date: 1 January is
    always in week 01, whatever its weekday, and the number stays
    within 1..54. *)
Theorem generateWeekId_utc_counts_from_sunday :
  forall s y m d,
    IsoParse.parse_date s = Some (y, m, d, ""%string) ->
    100 <= y ->
    let n := days_from_civil y m d in
    let sunday := days_from_civil y 1 1 - firstDayOfYearWeekday y in
    let week := (n - sunday) / 7 + 1 in
    WeekForm.generateWeekId 0 s
    = JsString.of_int y +:+ "-W" +:+ JsString.padStart 2 "0" (JsString.of_int week) /\
    WeekDay (sunday * msPerDay) = 0 /\
    sunday <= days_from_civil y 1 1 < sunday + 7 /\
    1 <= week <= 54.
Proof.
  intros s y m d Hparse Hy n sunday week.
  destruct (parse_date_valid _ _ _ _ _ Hparse) as [Hm Hd].
  pose proof (dayOfYear_days y m d Hm) as Hdoy.
  pose proof (dayOfYear_bounds y m d Hm Hd) as Hbounds.
  assert (Hw : 0 <= firstDayOfYearWeekday y < 7)
    by (unfold firstDayOfYearWeekday; apply Z.mod_pos_bound; lia).
  assert (Hweek : weekNumber y m d = week).
  { unfold weekNumber. rewrite ceil_sevenths. subst week sunday n.
    rewrite <- Hdoy. Z.div_mod_to_equations. lia. }
  split; [|split; [|split]].
  - rewrite (generateWeekId_utc s y m d Hparse Hy). unfold weekId. now rewrite Hweek.
  - subst sunday. unfold WeekDay. rewrite Day_of_midnight.
    unfold firstDayOfYearWeekday. Z.div_mod_to_equations. lia.
  - subst sunday. lia.
  - subst week sunday n. Z.div_mod_to_equations. lia.
Qed.

End WeekNumbering.

Lemma generateWeekId_utc_counts_from_sunday_witness :
  WeekForm.generateWeekId 0 "2027-01-01" = "2027-W01"%string.
Proof.
  exact (proj1 (generateWeekId_utc_counts_from_sunday "2027-01-01" 2027 1 1
                  eq_refl ltac:(lia))).
Defined.


(** ** Confirming a deletion *)

Section ModalProperties.
Import Async Modal.

Lemma list_find_unique_id (tasks : list Task.t) (i : nat) (task : Task.t) :
  NoDup (map Task.id tasks) -> tasks !! i = Some task ->
  list_find (fun t => Task.id t = Task.id task) tasks = Some (i, task) /\
  Forall (fun t => Task.id t <> Task.id task) (delete i tasks).
Proof.
  intros Hnd Hi. split.
  - apply list_find_Some. split; [assumption|]. split; [reflexivity|].
    intros j t Hj Hlt E.
    assert (Hij : j = i).
    { eapply NoDup_lookup; [exact Hnd| |].
      - rewrite list_lookup_fmap, Hj. cbn. reflexivity.
      - rewrite list_lookup_fmap, Hi. cbn. now rewrite E. }
    lia.
  - pose proof (delete_Permutation tasks i task Hi) as Hperm.
    pose proof (fmap_Permutation Task.id _ _ Hperm) as Hperm'.
    assert (Hnd' : NoDup (Task.id <$> task :: delete i tasks))
      by (rewrite <- Hperm'; exact Hnd).
    rewrite fmap_cons in Hnd'. apply NoDup_cons in Hnd' as [Hnotin _].
    apply Forall_forall. intros t Ht E. apply Hnotin.
    apply list_elem_of_fmap. exists t. split; [now rewrite E|assumption].
Qed.

(** X30.  Confirming the deletion of a task in the delete modal,
    with unique task ids.  On a 2xx response the modal closes and
    the task is gone.  When the fetch rejects, the modal stays open
    on the same task for a retry, but the task has already left the
    local list: the retry, whatever the network would answer, sends
    no request, fails with "Task not found" and leaves the modal
    open. *)
Theorem taskDeleteModal_confirm_and_retry :
  forall (s : TaskStore.State) (m : State Task.t) (task : Task.t) (i : nat)
         (e : Thrown) (r : Response unit) (retry : FetchReply unit),
    NoDup (map Task.id (TaskStore.tasks s)) ->
    editingItem m = Some task ->
    TaskStore.tasks s !! i = Some task ->
    ok r = true ->
    let start := {| store := s; requests := [] |} in
    (let '(m1, w1) := confirm (Some (taskDelete (Responds r))) m start in
     m1 = close m /\ TaskStore.tasks (store w1) = delete i (TaskStore.tasks s)) /\
    (let '(m1, w1) := confirm (Some (taskDelete (Rejects e))) m start in
     let '(m2, w2) := confirm (Some (taskDelete retry)) m1 w1 in
     isOpen m1 = isOpen m /\ editingItem m1 = Some task /\ isLoading m1 = false /\
     TaskStore.tasks (store w1) = delete i (TaskStore.tasks s) /\
     isOpen m2 = isOpen m /\ editingItem m2 = Some task /\ isLoading m2 = false /\
     TaskStore.tasks (store w2) = delete i (TaskStore.tasks s) /\
     TaskStore.error (store w2) = Some "Task not found"%string /\
     requests w2 = requests w1 /\
     requests w1 = [ {| method := DELETE; url := API_BASE_URL +:+ "/tasks/" +:+ Task.id task;
                        body := None |} ]).
Proof.
  intros s m task i e r retry Hnd Hitem Hi Hok start.
  destruct (list_find_unique_id _ _ _ Hnd Hi) as [Hfind Hgone].
  assert (Hnone : list_find (fun t => Task.id t = Task.id task) (delete i (TaskStore.tasks s))
                  = None) by now apply list_find_absent.
  unfold confirm, taskDelete, start. rewrite Hitem.
  unfold TaskStore.deleteTask, TaskStore.get_tasks, TaskStore.set_tasks, TaskStore.set_error,
    TaskStore.set_isLoading, try_catch_finally, when, bind, ret, throw, get, modify, fetch.
  cbn [store requests fst snd TaskStore.tasks TaskStore.isLoading TaskStore.error].
  rewrite Hfind.
  cbn [store requests fst snd TaskStore.tasks TaskStore.isLoading TaskStore.error app].
  rewrite Hok.
  cbn [negb store requests fst snd TaskStore.tasks TaskStore.isLoading TaskStore.error
       set_isLoading isOpen editingItem isLoading].
  split; [split; reflexivity|].
  rewrite Hitem, Hnone.
  cbn [store requests fst snd TaskStore.tasks TaskStore.isLoading TaskStore.error
       set_isLoading isOpen editingItem isLoading message_or].
  repeat split; try reflexivity; exact Hitem.
Qed.

End ModalProperties.

Lemma taskDeleteModal_confirm_and_retry_witness :
  let '(m1, w1) :=
    Modal.confirm (Some (Modal.taskDelete (Async.Rejects Samples.network_down)))
      ModalSamples.confirming
      {| Async.store := Samples.task_store [Samples.task1; Samples.task2];
         Async.requests := [] |} in
  let '(m2, w2) :=
    Modal.confirm (Some (Modal.taskDelete (Async.Responds Samples.no_content))) m1 w1 in
  Modal.isOpen m1 = Modal.isOpen ModalSamples.confirming /\
  Modal.editingItem m1 = Some Samples.task1 /\
  Modal.isLoading m1 = false /\
  TaskStore.tasks (Async.store w1)
  = delete 0%nat (TaskStore.tasks (Samples.task_store [Samples.task1; Samples.task2])) /\
  Modal.isOpen m2 = Modal.isOpen ModalSamples.confirming /\
  Modal.editingItem m2 = Some Samples.task1 /\
  Modal.isLoading m2 = false /\
  TaskStore.tasks (Async.store w2)
  = delete 0%nat (TaskStore.tasks (Samples.task_store [Samples.task1; Samples.task2])) /\
  TaskStore.error (Async.store w2) = Some "Task not found"%string /\
  Async.requests w2 = Async.requests w1 /\
  Async.requests w1
  = [ {| Async.method := Async.DELETE;
         Async.url := API_BASE_URL +:+ "/tasks/" +:+ Task.id Samples.task1;
         Async.body := None |} ].
Proof.
  apply (taskDeleteModal_confirm_and_retry
           (Samples.task_store [Samples.task1; Samples.task2])
           ModalSamples.confirming Samples.task1 0
           Samples.network_down Samples.no_content (Async.Responds Samples.no_content)).
  - change (NoDup ["task-1"; "task-2"]%string).
    apply NoDup_cons. split; [|apply NoDup_singleton].
    intros H. apply list_elem_of_singleton in H. discriminate H.
  - reflexivity.
  - reflexivity.
  - reflexivity.
Defined.
